(** * The EFS provisioner: volume directory lifecycle

    A shallow embedding of the efs-provisioner
    (efs-provisioner.go, filesystemreclaimer.go and the volume metadata
    file) and the properties of its provisioning, deletion and
    GID-reclaim paths.

    Layout:
    - [GoLib]: the functions of Go's [strings], [path] and [strconv]
      packages that the provisioner calls;
    - the file system, the operating-system calls and their failures;
    - the provisioner itself, function by function;
    - the properties. *)

From Stdlib Require Import ZArith Ascii String List Decimal DecimalString DecimalZ.
From stdpp Require Import base option list gmap strings sorting.

Local Open Scope string_scope.
Local Open Scope Z_scope.

(** ** Go's standard library *)

Module GoLib.

(** [strings.HasPrefix(s, prefix)]. *)
Definition strings_HasPrefix (s pre : string) : bool := String.prefix pre s.

(** [s[len(pre):]] when [pre] is a prefix of [s]. *)
Fixpoint strip_prefix (pre s : string) : option string :=
  match pre with
  | EmptyString => Some s
  | String a pre' =>
      match s with
      | EmptyString => None
      | String b s' => if Ascii.eqb a b then strip_prefix pre' s' else None
      end
  end.

(** [strings.Replace(s, old, new, 1)]: the first occurrence of [old] is
    replaced; an empty [old] matches at the beginning of the string. *)
Fixpoint strings_Replace1 (s old new : string) : string :=
  match strip_prefix old s with
  | Some rest => new +:+ rest
  | None =>
      match s with
      | EmptyString => EmptyString
      | String c s' => String c (strings_Replace1 s' old new)
      end
  end.

(** [strings.ToLower] on strings of ASCII characters: the letters A to
    Z become a to z.  Bytes that are not ASCII are kept as they are,
    whereas Go lower-cases the runes that they encode: on a string with
    such bytes this is not Go's function. *)
Definition lower_ascii (c : ascii) : ascii :=
  let n := nat_of_ascii c in
  if ((65 <=? n) && (n <=? 90))%nat then ascii_of_nat (n + 32) else c.

Fixpoint strings_ToLower (s : string) : string :=
  match s with
  | EmptyString => EmptyString
  | String c s' => String (lower_ascii c) (strings_ToLower s')
  end.

(** Path elements: the pieces of a path between slashes. *)
Fixpoint split_slash (s : string) : list string :=
  match s with
  | EmptyString => [EmptyString]
  | String c s' =>
      if Ascii.eqb c "/" then EmptyString :: split_slash s'
      else match split_slash s' with
           | h :: t => String c h :: t
           | [] => [String c EmptyString]
           end
  end.

Fixpoint join_slash (l : list string) : string :=
  match l with
  | [] => EmptyString
  | [x] => x
  | x :: rest => x +:+ "/" +:+ join_slash rest
  end.

(** One step of [path.Clean]'s scan.  [out] is the output so far, last
    element first.  An empty element and [.] are dropped; [..] removes
    the last real element when there is one, is kept at the start of a
    path that is not rooted, and is dropped at the start of a rooted one. *)
Definition clean_step (rooted : bool) (out : list string) (elem : string)
  : list string :=
  if String.eqb elem "" then out
  else if String.eqb elem "." then out
  else if String.eqb elem ".." then
    match out with
    | top :: below =>
        if String.eqb top ".." then elem :: out else below
    | [] => if rooted then out else [elem]
    end
  else elem :: out.

Definition is_rooted (p : string) : bool :=
  match p with
  | String c _ => Ascii.eqb c "/"
  | EmptyString => false
  end.

Definition clean_elems (p : string) : list string :=
  rev (fold_left (clean_step (is_rooted p)) (split_slash p) []).

(** [path.Clean]. *)
Definition path_Clean (p : string) : string :=
  if String.eqb p "" then "."
  else
    let out := join_slash (clean_elems p) in
    if is_rooted p then "/" +:+ out
    else if String.eqb out "" then "." else out.

(** [path.Join]: empty elements at the front are ignored, the rest is
    joined with slashes and cleaned; the join of nothing is empty. *)
Fixpoint path_Join (elem : list string) : string :=
  match elem with
  | [] => EmptyString
  | e :: rest =>
      if String.eqb e "" then path_Join rest
      else path_Clean (join_slash elem)
  end.

(** [strconv.ParseBool]. *)
Definition strconv_ParseBool (s : string) : option bool :=
  if existsb (String.eqb s) ["1"; "t"; "T"; "TRUE"; "true"; "True"]
  then Some true
  else if existsb (String.eqb s) ["0"; "f"; "F"; "FALSE"; "false"; "False"]
  then Some false
  else None.

(** [strconv.Itoa]. *)
Definition strconv_Itoa (n : Z) : string :=
  NilZero.string_of_int (Z.to_int n).

(** The value of a non-empty string of decimal digits. *)
Definition parse_digits (s : string) : option Z :=
  Z.of_uint <$> NilZero.uint_of_string s.

(** [strconv.Atoi] with a 64-bit [int]: an optional sign, then digits;
    a value outside the range of [int] is an error. *)
Definition strconv_Atoi (s : string) : option Z :=
  let signed :=
    match s with
    | String c rest =>
        if Ascii.eqb c "-" then (true, rest)
        else if Ascii.eqb c "+" then (false, rest)
        else (false, s)
    | EmptyString => (false, s)
    end in
  match parse_digits signed.2 with
  | Some v =>
      let n := if signed.1 then - v else v in
      if (- 2 ^ 63 <=? n) && (n <? 2 ^ 63) then Some n else None
  | None => None
  end.

(** [strconv.ParseUint(s, 10, 32)]: digits only, below [2^32]. *)
Definition strconv_ParseUint32 (s : string) : option Z :=
  match parse_digits s with
  | Some v => if v <? 2 ^ 32 then Some v else None
  | None => None
  end.

End GoLib.

Import GoLib.

(** ** Kubernetes objects, as far as the provisioner reads or builds them *)

Record PersistentVolumeClaim := {
  pvc_Name : string;
  pvc_Namespace : string;
  pvc_Annotations : gmap string string;
  pvc_StorageClassName : option string;
  pvc_Selector : option (gmap string string);
  pvc_AccessModes : list string;
  pvc_StorageRequest : option string;
}.

(** [controller.VolumeOptions]. *)
Record VolumeOptions := {
  PersistentVolumeReclaimPolicy : string;
  PVName : string;
  MountOptions : option (list string);
  PVC : PersistentVolumeClaim;
  Parameters : gmap string string;
}.

Record NFSVolumeSource := {
  Server : string;
  Path : string;
  ReadOnly : bool;
}.

Record PersistentVolume := {
  pv_Name : string;
  pv_Annotations : gmap string string;
  pv_ReclaimPolicy : string;
  pv_AccessModes : list string;
  pv_Capacity : option string;
  pv_NFS : NFSVolumeSource;
  pv_MountOptions : list string;
}.

Definition BetaStorageClassAnnotation : string :=
  "volume.beta.kubernetes.io/storage-class".

(** [gidallocator.VolumeGidAnnotationKey]. *)
Definition VolumeGidAnnotationKey : string := "pv.beta.kubernetes.io/gid".

(** [helper.GetPersistentVolumeClaimClass]: the beta annotation first,
    then the claim's storage class name, and the empty string without
    either. *)
Definition GetPersistentVolumeClaimClass (claim : PersistentVolumeClaim)
  : string :=
  match pvc_Annotations claim !! BetaStorageClassAnnotation with
  | Some class => class
  | None => default "" (pvc_StorageClassName claim)
  end.

(** ** Volume metadata *)

Definition metadataFile : string := ".kube-efs-provisioner-metadata".

Record volumeMetadata := {
  GID : string;
  PVCName : string;
  PVCNamespace : string;
  StorageClassName : string;
}.

(** [GidAsUInt]: [Some] is the value, [None] the error. *)
Definition GidAsUInt (v : volumeMetadata) : option Z :=
  strconv_ParseUint32 (GID v).

Definition getMetaDataPath (dir : string) : string :=
  path_Join [dir; metadataFile].

(** ** Errors *)

Inductive errno := ENOENT | EEXIST | ENOTDIR | EISDIR | EINVAL | EIO.

(** One constructor for each place where the provisioner makes an error,
    [ErrOS] for the errors of the operating system that it passes on as
    they are, and [ErrAllocator] for those of the GID allocator. *)
Inductive error :=
  | ErrOS (e : errno)
  | ErrSelectorNotSupported
  | ErrInvalidReuseVolumes (value : string)
  | ErrInvalidGidAllocate (value key : string)
  | ErrIsFile (path : string)
  | ErrUnmarshal
  | ErrMarshal
  | ErrReadMetadata (path : string) (cause : error)
  | ErrNoMetadata (path : string)
  | ErrStorageClass (path mdclass class : string)
  | ErrClaim (path mdnamespace mdname namespace class : string)
  | ErrExistingGid (path : string) (existingGID mdgid : Z)
  | ErrInvalidMetadataGid (gid : string)
  | ErrDirectoryGid (path : string) (existingGid : Z) (mdgid : string)
  | ErrAllocator (msg : string)
  | ErrChgrp (path : string)
  | ErrServer (server dnsName : string)
  | ErrNotChild (path source mountpoint : string)
  | ErrNilDereference.

(** The names the specification gives to the fatal per-request errors. *)
Inductive error_kind :=
  | UnexpectedFileType | MissingMetadata | OwnershipMismatch
  | GIDInconsistency | PathMismatch | OtherError.

Definition kind_of (e : error) : error_kind :=
  match e with
  | ErrIsFile _ => UnexpectedFileType
  | ErrNoMetadata _ => MissingMetadata
  | ErrStorageClass _ _ _ | ErrClaim _ _ _ _ _ => OwnershipMismatch
  | ErrExistingGid _ _ _ | ErrDirectoryGid _ _ _ => GIDInconsistency
  | ErrServer _ _ | ErrNotChild _ _ _ => PathMismatch
  | _ => OtherError
  end.

Inductive result (X : Type) :=
  | Ok (x : X)
  | Err (e : error).
Arguments Ok {X} x.
Arguments Err {X} e.

(** [os.IsNotExist]. *)
Definition IsNotExist (e : error) : bool :=
  match e with ErrOS ENOENT => true | _ => false end.

(** ** The file system and the process state *)

(** A directory carries its mode bits and its group owner, a file its
    mode bits and its content. *)
Inductive node :=
  | Dir (mode : Z) (gid : Z)
  | File (mode : Z) (content : string).

Inductive syscall :=
  | SysStat | SysMkdirAll | SysChmod | SysChgrp | SysRemoveAll
  | SysReadFile | SysWriteFile | SysReadDir.

(** The calls the provisioner makes, in a log. *)
Inductive event :=
  | EvStat (path : string)
  | EvMkdirAll (path : string) (perm : Z)
  | EvChmod (path : string) (perm : Z)
  | EvChgrp (group path : string)
  | EvRemoveAll (path : string)
  | EvReadFile (path : string)
  | EvWriteFile (path content : string) (perm : Z)
  | EvReadDir (path : string)
  | EvAllocateNext
  | EvRelease
  | EvAllocate (gid : Z).

#[global] Instance syscall_eq_dec : EqDecision syscall.
Proof. solve_decision. Defined.

(** The check for a directory and the reads and writes of a file. *)
Definition is_lookup (ev : event) : bool :=
  match ev with
  | EvStat _ | EvReadFile _ | EvWriteFile _ _ _ => true
  | _ => false
  end.

(** The calls that make, change or remove something in the file system
    or in the allocator. *)
Definition is_change (ev : event) : bool :=
  match ev with
  | EvMkdirAll _ _ | EvChmod _ _ | EvChgrp _ _ | EvRemoveAll _
  | EvWriteFile _ _ _ | EvAllocateNext | EvRelease | EvAllocate _ => true
  | _ => false
  end.

Definition is_allocate (ev : event) : bool :=
  match ev with EvAllocate _ => true | _ => false end.

(** The state the provisioner runs in: the file system, keyed by path;
    the calls of the operating system that fail ([faults]), the umask
    and the group of the process; the state of the GID allocator; and
    the log of calls made so far, latest first. *)
Record state (A : Type) := State {
  fs : gmap string node;
  faults : syscall -> string -> bool;
  umask : Z;
  egid : Z;
  alloc : A;
  trace : list event;
}.
Arguments State {A}.
Arguments fs {A}.
Arguments faults {A}.
Arguments umask {A}.
Arguments egid {A}.
Arguments alloc {A}.
Arguments trace {A}.

Definition log {A} (e : event) (s : state A) : state A :=
  State (fs s) (faults s) (umask s) (egid s) (alloc s) (e :: trace s).

Definition set_fs {A} (m : gmap string node) (s : state A) : state A :=
  State m (faults s) (umask s) (egid s) (alloc s) (trace s).

Definition set_alloc {A B} (a : B) (s : state A) : state B :=
  State (fs s) (faults s) (umask s) (egid s) a (trace s).

(** Computations that read and change the state and may fail; the state
    changes made before a failure stay. *)
Definition M (A X : Type) := state A -> result X * state A.

Definition ret {A X} (x : X) : M A X := fun s => (Ok x, s).
Definition fail {A X} (e : error) : M A X := fun s => (Err e, s).
Definition lift {A X} (r : result X) : M A X := fun s => (r, s).
Definition bind {A X Y} (m : M A X) (k : X -> M A Y) : M A Y :=
  fun s =>
    match m s with
    | (Ok x, s') => k x s'
    | (Err e, s') => (Err e, s')
    end.
(** A call whose error the caller does not look at. *)
Definition ignore_error {A X} (m : M A X) : M A unit :=
  fun s => (Ok tt, (m s).2).

Notation "'let*' x ':=' m 'in' k" := (bind m (fun x => k))
  (at level 10, x name, m at level 100, k at level 200).

(** ** The calls of the operating system

    Every call is logged, fails with [EIO] when the environment makes it
    fail ([faults]), and otherwise acts on the file system.  Paths are
    the keys of the file system as they are written; the provisioner
    makes its paths with [path.Join], which cleans them. *)

Definition perm_0777 : Z := 511.
Definition perm_0771 : Z := 505.
Definition perm_0600 : Z := 384.
(** [os.ModeSetgid]. *)
Definition ModeSetgid : Z := Z.shiftl 1 22.

(** The directories above a path, nearest first: for every slash of the
    path but one at its very start, the part of the path before it. *)
Definition parent_paths (p : string) : list string :=
  let elems := split_slash p in
  filter (fun q => q <> "")
    (map (fun k => join_slash (take k elems))
       (rev (seq 1 (length elems - 1)))).

(** The prefix that the paths below a directory start with. *)
Definition dir_prefix (p : string) : string :=
  if String.eqb p "/" then p else p +:+ "/".

(** [under p k]: [k] is [p] or lies below it. *)
Definition under (p k : string) : bool :=
  String.eqb k p || strings_HasPrefix k (dir_prefix p).

(** The name of [k] inside the directory [base], when [k] is one of its
    immediate entries. *)
Definition child_name (base k : string) : option string :=
  match strip_prefix (dir_prefix base) k with
  | Some name =>
      if String.eqb name "" then None
      else match split_slash name with
           | [_] => Some name
           | _ => None
           end
  | None => None
  end.

Definition is_dir (n : node) : bool :=
  match n with Dir _ _ => true | File _ _ => false end.

(** [os.Mkdir] of one directory whose parent exists: the mode is cut by
    the umask and never has the set-group-ID bit, the group is that of
    the process. *)
Definition mkdir_one (mask gid : Z) (p : string) (perm : Z)
    (m : gmap string node) : option errno * gmap string node :=
  match m !! p with
  | Some _ => (Some EEXIST, m)
  | None =>
      (None, <[p := Dir (Z.land (Z.land perm perm_0777) (Z.lnot mask)) gid]> m)
  end.

(** The recursion of [os.MkdirAll] over a path and the directories above
    it: a path that is a directory is done, one that is a file is
    [ENOTDIR], and one that is missing is made after its parent. *)
Fixpoint mkdir_all (mask gid : Z) (paths : list string) (perm : Z)
    (m : gmap string node) : option errno * gmap string node :=
  match paths with
  | [] => (None, m)
  | p :: above =>
      match m !! p with
      | Some (Dir _ _) => (None, m)
      | Some (File _ _) => (Some ENOTDIR, m)
      | None =>
          match mkdir_all mask gid above perm m with
          | (None, m') => mkdir_one mask gid p perm m'
          | failed => failed
          end
      end
  end.

(** [os.RemoveAll] refuses a path that ends in a dot element. *)
Definition endsWithDot (p : string) : bool :=
  match rev (split_slash p) with
  | last :: _ => String.eqb last "."
  | [] => false
  end.

(** The order of directory entries: by name. *)
Definition entry_le (a b : string * bool) : Prop :=
  String.leb a.1 b.1 = true.

#[global] Instance entry_le_dec a b : Decision (entry_le a b).
Proof. unfold entry_le. apply _. Defined.

Section Syscalls.
Context {A : Type}.

Definition os_Stat (p : string) : M A node := fun s =>
  let s' := log (EvStat p) s in
  if faults s SysStat p then (Err (ErrOS EIO), s')
  else match fs s !! p with
       | Some n => (Ok n, s')
       | None => (Err (ErrOS ENOENT), s')
       end.

Definition os_MkdirAll (p : string) (perm : Z) : M A unit := fun s =>
  let s' := log (EvMkdirAll p perm) s in
  if faults s SysMkdirAll p then (Err (ErrOS EIO), s')
  else if String.eqb p "" then (Err (ErrOS ENOENT), s')
  else match mkdir_all (umask s) (egid s) (p :: parent_paths p) perm (fs s) with
       | (None, m) => (Ok tt, set_fs m s')
       | (Some e, m) => (Err (ErrOS e), set_fs m s')
       end.

Definition os_Chmod (p : string) (perm : Z) : M A unit := fun s =>
  let s' := log (EvChmod p perm) s in
  if faults s SysChmod p then (Err (ErrOS EIO), s')
  else match fs s !! p with
       | Some (Dir _ g) => (Ok tt, set_fs (<[p := Dir perm g]> (fs s)) s')
       | Some (File _ c) => (Ok tt, set_fs (<[p := File perm c]> (fs s)) s')
       | None => (Err (ErrOS ENOENT), s')
       end.

(** [exec.Command("chgrp", group, path).CombinedOutput()]: the group is
    given by its number, which has to be a group id (32 bits). *)
Definition exec_chgrp (group p : string) : M A unit := fun s =>
  let s' := log (EvChgrp group p) s in
  if faults s SysChgrp p then (Err (ErrChgrp p), s')
  else match strconv_ParseUint32 group, fs s !! p with
       | Some g, Some (Dir mode _) =>
           (Ok tt, set_fs (<[p := Dir mode g]> (fs s)) s')
       | Some g, Some (File mode c) => (Ok tt, s')
       | _, _ => (Err (ErrChgrp p), s')
       end.

(** [os.RemoveAll]: the empty path and a missing path are no error; a
    call that fails is taken to have removed nothing.  The file system
    here has no mount points: what the call does to a directory that is
    one is not modelled. *)
Definition os_RemoveAll (p : string) : M A unit := fun s =>
  let s' := log (EvRemoveAll p) s in
  if String.eqb p "" then (Ok tt, s')
  else if endsWithDot p then (Err (ErrOS EINVAL), s')
  else if faults s SysRemoveAll p then (Err (ErrOS EIO), s')
  else (Ok tt, set_fs (filter (fun kv => under p kv.1 = false) (fs s)) s').

Definition ioutil_ReadFile (p : string) : M A string := fun s =>
  let s' := log (EvReadFile p) s in
  if faults s SysReadFile p then (Err (ErrOS EIO), s')
  else match fs s !! p with
       | Some (File _ c) => (Ok c, s')
       | Some (Dir _ _) => (Err (ErrOS EISDIR), s')
       | None => (Err (ErrOS ENOENT), s')
       end.

(** [ioutil.WriteFile]: an existing file keeps its mode and gets the new
    content; a new file needs its directory. *)
Definition ioutil_WriteFile (p content : string) (perm : Z) : M A unit :=
  fun s =>
  let s' := log (EvWriteFile p content perm) s in
  if faults s SysWriteFile p then (Err (ErrOS EIO), s')
  else match fs s !! p with
       | Some (Dir _ _) => (Err (ErrOS EISDIR), s')
       | Some (File mode _) =>
           (Ok tt, set_fs (<[p := File mode content]> (fs s)) s')
       | None =>
           let new := File (Z.land perm (Z.lnot (umask s))) content in
           match parent_paths p with
           | [] => (Ok tt, set_fs (<[p := new]> (fs s)) s')
           | dir :: _ =>
               match fs s !! dir with
               | Some (Dir _ _) => (Ok tt, set_fs (<[p := new]> (fs s)) s')
               | Some (File _ _) => (Err (ErrOS ENOTDIR), s')
               | None => (Err (ErrOS ENOENT), s')
               end
           end
       end.

(** [ioutil.ReadDir]: the entries of a directory, by name and with
    whether they are directories, sorted by name. *)
Definition ioutil_ReadDir (p : string) : M A (list (string * bool)) :=
  fun s =>
  let s' := log (EvReadDir p) s in
  if faults s SysReadDir p then (Err (ErrOS EIO), s')
  else match fs s !! p with
       | Some (Dir _ _) =>
           let entries :=
             omap (fun kv => (fun name => (name, is_dir kv.2))
                               <$> child_name p kv.1)
                  (map_to_list (fs s)) in
           (Ok (merge_sort entry_le entries), s')
       | Some (File _ _) => (Err (ErrOS ENOTDIR), s')
       | None => (Err (ErrOS ENOENT), s')
       end.

End Syscalls.

(** ** What the provisioner takes from outside

    [encoding/json] for the metadata record, and the GID allocator of
    the provisioner library, which works on a state of its own. *)

Class JSON := {
  (** [json.MarshalIndent(md, "", "  ")]; [None] is an error. *)
  json_MarshalIndent : volumeMetadata -> option string;
  (** [json.Unmarshal(content, md)] into an empty record; [None] is an
      error. *)
  json_Unmarshal : string -> option volumeMetadata;
}.

Class GidAllocator (A : Type) := {
  (** [allocator.AllocateNext(options)]: a GID or an error. *)
  allocator_AllocateNext : VolumeOptions -> A -> (string + Z) * A;
  (** [allocator.Release(volume)]: [Some] is an error. *)
  allocator_Release : PersistentVolume -> A -> option string * A;
}.

(** ** Metadata store (the volume metadata file) *)

Section MetadataStore.
Context `{JSON} {A : Type}.

Definition writeVolumeMetadata (dir : string) (md : volumeMetadata)
  : M A unit :=
  let mdpath := getMetaDataPath dir in
  match json_MarshalIndent md with
  | None => fail ErrMarshal
  | Some contents => ioutil_WriteFile mdpath contents perm_0600
  end.

(** The result [None] is the [nil, nil] of the source: no metadata file. *)
Definition readVolumeMetadata (dir : string)
  : M A (option volumeMetadata) := fun s =>
  let mdpath := getMetaDataPath dir in
  match ioutil_ReadFile mdpath s with
  | (Err err, s') =>
      if IsNotExist err then (Ok None, s') else (Err err, s')
  | (Ok content, s') =>
      match json_Unmarshal content with
      | None => (Err ErrUnmarshal, s')
      | Some md => (Ok (Some md), s')
      end
  end.

End MetadataStore.

(** ** filesystemreclaimer.go *)

(** Modelled from the spec: the GID allocation table
    ([allocator.MinMaxAllocator] of the provisioner library, which is not
    part of this repository): the GIDs in use within a numeric range.
    Allocating a GID outside the range or one already in the table is
    refused and leaves the table as it is. *)
Record MinMaxAllocator := {
  range_min : Z;
  range_max : Z;
  used : gset Z;
}.

Inductive allocate_error := ErrConflict | ErrOutOfRange.

Definition gidtable_Allocate (i : Z) (t : MinMaxAllocator)
  : option allocate_error * MinMaxAllocator :=
  if negb ((range_min t <=? i) && (i <=? range_max t))
  then (Some ErrOutOfRange, t)
  else if bool_decide (i ∈ used t) then (Some ErrConflict, t)
  else (None, {| range_min := range_min t; range_max := range_max t;
                 used := {[i]} ∪ used t |}).

Record fileSystemReclaimer := { BasePath : string }.

Definition newFileSystemReclaimer (basePath : string) : fileSystemReclaimer :=
  {| BasePath := basePath |}.

Section Reclaimer.
Context `{JSON}.

(** The body of the loop of [Reclaim] for one entry of the base path.
    Every way out of it is a [continue] or the end of the body, so it
    gives the next state and no error. *)
Definition reclaim_entry (f : fileSystemReclaimer) (classname : string)
    (entry : string * bool) (s : state MinMaxAllocator)
  : state MinMaxAllocator :=
  if negb entry.2 then s
  else
    let mddir := path_Join [BasePath f; entry.1] in
    match readVolumeMetadata mddir s with
    | (Err _, s') => s'
    | (Ok None, s') => s'
    | (Ok (Some md), s') =>
        if String.eqb (GID md) "" then s'
        else if negb (String.eqb (StorageClassName md) classname) then s'
        else match strconv_Atoi (GID md) with
             | None => s'
             | Some gid =>
                 let s'' := log (EvAllocate gid) s' in
                 match gidtable_Allocate gid (alloc s'') with
                 | (Some ErrConflict, t) => set_alloc t s''
                 | (Some _, t) => set_alloc t s''
                 | (None, t) => set_alloc t s''
                 end
             end
    end.

(** The loop of [Reclaim] over the entries of the base path. *)
Definition reclaim_entries (f : fileSystemReclaimer) (classname : string)
    (entries : list (string * bool)) (s : state MinMaxAllocator)
  : state MinMaxAllocator :=
  fold_left (fun st entry => reclaim_entry f classname entry st) entries s.

(** [Reclaim] looks at every top level directory in the base path and
    adds its GID to the given table. *)
Definition Reclaim (f : fileSystemReclaimer) (classname : string)
  : M MinMaxAllocator unit := fun s =>
  match ioutil_ReadDir (BasePath f) s with
  | (Err err, s') => (Err err, s')
  | (Ok entries, s') => (Ok tt, reclaim_entries f classname entries s')
  end.

End Reclaimer.

(** The conditions under which [Reclaim] passes over a directory: its
    metadata cannot be read, it has none, the metadata has no GID, is of
    another storage class, has a GID that is no number, or has a GID that
    the table holds already. *)
Definition passed_over `{JSON} (f : fileSystemReclaimer) (classname : string)
    (entry : string * bool) (s : state MinMaxAllocator) : Prop :=
  match (readVolumeMetadata (path_Join [BasePath f; entry.1]) s).1 with
  | Err _ => True
  | Ok None => True
  | Ok (Some md) =>
      GID md = "" \/ StorageClassName md <> classname \/
      match strconv_Atoi (GID md) with
      | None => True
      | Some gid => gid ∈ used (alloc s)
      end
  end.

Section Validation.
Context {A : Type}.

Definition validatePreexistingVolume (options : VolumeOptions)
    (md : option volumeMetadata) (volumePath : string) (existingGID : Z)
  : result unit :=
  match md with
  | None => Err (ErrNoMetadata volumePath)
  | Some md =>
      let class := GetPersistentVolumeClaimClass (PVC options) in
      if negb (String.eqb (StorageClassName md) class) then
        Err (ErrStorageClass volumePath (StorageClassName md) class)
      else if negb (String.eqb (PVCName md) (pvc_Name (PVC options)))
              || negb (String.eqb (PVCNamespace md)
                         (pvc_Namespace (PVC options))) then
        Err (ErrClaim volumePath (PVCNamespace md) (PVCName md)
               (pvc_Namespace (PVC options)) class)
      else if negb (String.eqb (GID md) "") then
        (* mdgid, _ := md.GidAsUInt(): zero when the GID does not parse *)
        let mdgid := default 0 (GidAsUInt md) in
        if negb (existingGID =? mdgid) then
          Err (ErrExistingGid volumePath existingGID mdgid)
        else Ok tt
      else Ok tt
  end.

(** [volumeExists]: whether the path is a directory, and its group. *)
Definition volumeExists (path : string) : M A (bool * Z) := fun s =>
  match os_Stat path s with
  | (Err err, s') =>
      if IsNotExist err then (Ok (false, 0), s') else (Err err, s')
  | (Ok (Dir _ existingGid), s') => (Ok (true, existingGid), s')
  | (Ok (File _ _), s') => (Err (ErrIsFile path), s')
  end.

End Validation.

(** ** efs-provisioner.go *)

Record efsProvisioner := {
  dnsName : string;
  mountpoint : string;
  source : string;
}.

Definition reuseVolumesOption (options : VolumeOptions) : result bool :=
  match Parameters options !! "reuseVolumes" with
  | Some reuseStr =>
      match strconv_ParseBool reuseStr with
      | None => Err (ErrInvalidReuseVolumes reuseStr)
      | Some reuse => Ok reuse
      end
  | None => Ok false
  end.

(** [getDirectoryName]: a name that depends on the claim alone when
    volumes are reused, and one made with the name of the new volume
    otherwise. *)
Definition getDirectoryName (options : VolumeOptions) : result string :=
  match reuseVolumesOption options with
  | Err err => Err err
  | Ok reuseVolumes =>
      if reuseVolumes then
        let prefix :=
          match Parameters options !! "volumePrefix" with
          | Some pfx => if negb (String.eqb pfx "") then pfx +:+ "-" else ""
          | None => ""
          end in
        Ok (prefix +:+ pvc_Name (PVC options) +:+ "-"
              +:+ pvc_Namespace (PVC options))
      else Ok (pvc_Name (PVC options) +:+ "-" +:+ PVName options)
  end.

Definition getLocalPath (p : efsProvisioner) (options : VolumeOptions)
  : result string :=
  match getDirectoryName options with
  | Err err => Err err
  | Ok dirname => Ok (path_Join [mountpoint p; dirname])
  end.

(** The exported root: the mount source without its server prefix. *)
Definition sourcePath (p : efsProvisioner) : string :=
  path_Clean (strings_Replace1 (source p) (dnsName p +:+ ":") "").

Definition getRemotePath (p : efsProvisioner) (options : VolumeOptions)
  : result string :=
  match getDirectoryName options with
  | Err err => Err err
  | Ok dirname => Ok (path_Join [sourcePath p; dirname])
  end.

Definition getLocalPathToDelete (p : efsProvisioner) (nfs : NFSVolumeSource)
  : result string :=
  if negb (String.eqb (Server nfs) (dnsName p)) then
    Err (ErrServer (Server nfs) (dnsName p))
  else if negb (strings_HasPrefix (Path nfs) (sourcePath p)) then
    Err (ErrNotChild (Path nfs) (source p) (mountpoint p))
  else
    let subpath := strings_Replace1 (Path nfs) (sourcePath p) "" in
    Ok (path_Join [mountpoint p; subpath]).

(** The loop of [Provision] over the parameters: [gidAllocate] is true
    unless a parameter named gidallocate, in any case of letters, says
    otherwise; a value that is no boolean is an error.  The parameters
    are visited in the order of [map_to_list]; Go visits them in an
    order of its own, which makes no difference when at most one name
    is gidallocate in some case of letters. *)
Definition gidAllocateOption (options : VolumeOptions) : result bool :=
  fold_left
    (fun acc kv =>
       match acc with
       | Err err => Err err
       | Ok gidAllocate =>
           if String.eqb (strings_ToLower kv.1) "gidallocate" then
             match strconv_ParseBool kv.2 with
             | None => Err (ErrInvalidGidAllocate kv.2 kv.1)
             | Some b => Ok b
             end
           else Ok gidAllocate
       end)
    (map_to_list (Parameters options)) (Ok true).

(** The mode of a volume's directory in [createVolume]: open to all
    without a GID, and for owner and group, with the set-group-ID bit,
    with one. *)
Definition volume_perm (gid : option Z) : Z :=
  match gid with
  | Some _ => Z.lor perm_0771 ModeSetgid
  | None => perm_0777
  end.

(** The metadata record that [Provision] writes for a claim. *)
Definition claimMetadata (options : VolumeOptions) (gidstr : string)
  : volumeMetadata :=
  {| GID := gidstr;
     PVCName := pvc_Name (PVC options);
     PVCNamespace := pvc_Namespace (PVC options);
     StorageClassName := GetPersistentVolumeClaimClass (PVC options) |}.

Section Provisioner.
Context `{JSON} {A : Type} `{GidAllocator A}.

Definition AllocateNext (options : VolumeOptions) : M A Z := fun s =>
  let s' := log EvAllocateNext s in
  match allocator_AllocateNext options (alloc s) with
  | (inl msg, a) => (Err (ErrAllocator msg), set_alloc a s')
  | (inr gid, a) => (Ok gid, set_alloc a s')
  end.

Definition Release (volume : PersistentVolume) : M A unit := fun s =>
  let s' := log EvRelease s in
  match allocator_Release volume (alloc s) with
  | (Some msg, a) => (Err (ErrAllocator msg), set_alloc a s')
  | (None, a) => (Ok tt, set_alloc a s')
  end.

Definition createVolume (p : efsProvisioner) (path : string)
    (gid : option Z) : M A unit :=
  let perm := volume_perm gid in
  let* _ := os_MkdirAll path perm in
  (* Due to umask, need to chmod *)
  fun s =>
  match os_Chmod path perm s with
  | (Err err, s') => (Err err, (os_RemoveAll path s').2)
  | (Ok _, s') =>
      match gid with
      | Some g =>
          match exec_chgrp (strconv_Itoa g) path s' with
          | (Err err, s'') => (Err err, (os_RemoveAll path s'').2)
          | (Ok _, s'') => (Ok tt, s'')
          end
      | None => (Ok tt, s')
      end
  end.

(** [Provision] creates a storage asset and returns the volume object
    that represents it. *)
Definition Provision (p : efsProvisioner) (options : VolumeOptions)
  : M A PersistentVolume :=
  match pvc_Selector (PVC options) with
  | Some _ => fail ErrSelectorNotSupported
  | None =>
  let* volumePath := lift (getLocalPath p options) in
  let* reuseVolumes := lift (reuseVolumesOption options) in
  let* found :=
    if reuseVolumes : bool then volumeExists volumePath
    else ret (false, 0) in
  let volExists := found.1 in
  (* existingGid is the actual gid on the directory in the file system *)
  let existingGid := found.2 in
  let* gid :=
    (* hook back up to existing directory if we are configured to reuse
       volumes, the volume exists, and its metadata matches the current
       PVC and storageclass *)
    if volExists : bool then
      let* md := fun s =>
        match readVolumeMetadata volumePath s with
        | (Err err, s') => (Err (ErrReadMetadata volumePath err), s')
        | ok => ok
        end in
      let* _ := lift (validatePreexistingVolume options md volumePath
                        existingGid) in
      match md with
      | None => fail ErrNilDereference
      | Some md =>
          (* if a GID was previously allocated and it matches the actual
             GID on the current directory then use it *)
          if negb (String.eqb (GID md) "") then
            match strconv_Atoi (GID md) with
            | None => fail (ErrInvalidMetadataGid (GID md))
            | Some mdGidInt =>
                if existingGid =? mdGidInt then ret (Some existingGid)
                else fail (ErrDirectoryGid volumePath existingGid (GID md))
            end
          else ret None
      end
    else
      let* gidAllocate := lift (gidAllocateOption options) in
      let* gid :=
        if gidAllocate : bool then
          let* allocate := AllocateNext options in ret (Some allocate)
        else ret None in
      let* _ := createVolume p volumePath gid in
      let gidstr :=
        match gid with
        | Some g => strconv_Itoa g
        | None => ""
        end in
      let* _ :=
        if reuseVolumes then
          (* the result of writeVolumeMetadata is not looked at *)
          ignore_error
            (writeVolumeMetadata volumePath (claimMetadata options gidstr))
        else ret tt in
      ret gid in
  let mountOptions := default ["vers=4.1"] (MountOptions options) in
  let* remotePath := lift (getRemotePath p options) in
  ret {| pv_Name := PVName options;
         pv_Annotations :=
           match gid with
           | Some g => {[ VolumeGidAnnotationKey := strconv_Itoa g ]}
           | None => ∅
           end;
         pv_ReclaimPolicy := PersistentVolumeReclaimPolicy options;
         pv_AccessModes := pvc_AccessModes (PVC options);
         pv_Capacity := pvc_StorageRequest (PVC options);
         pv_NFS := {| Server := dnsName p; Path := remotePath;
                      ReadOnly := false |};
         pv_MountOptions := mountOptions |}
  end.

(** [Delete] removes the storage asset that [Provision] made for the
    volume. *)
Definition Delete (p : efsProvisioner) (volume : PersistentVolume)
  : M A unit :=
  let* _ := Release volume in
  let* path := lift (getLocalPathToDelete p (pv_NFS volume)) in
  os_RemoveAll path.

End Provisioner.

(** The state after the two reads that a reuse-mode request makes of an
    existing directory: its status and its metadata file. *)
Definition inspected {A} (volumePath : string) (s : state A)
  : state A :=
  log (EvReadFile (getMetaDataPath volumePath)) (log (EvStat volumePath) s).

(** ** Cleaned paths

    The notions in which the results of [path.Clean] and [path.Join] are
    described. *)

(** A path element that [path.Clean] keeps as it is: not empty, not a
    dot element, and without a slash. *)
Definition is_name (e : string) : bool :=
  negb (String.eqb e "") && negb (String.eqb e ".") && negb (String.eqb e "..")
  && bool_decide (split_slash e = [e]).

Definition slash_free (e : string) : Prop := split_slash e = [e].

(** The path that [path.Clean] writes for cleaned elements. *)
Definition render (rooted : bool) (elems : list string) : string :=
  if rooted then "/" +:+ join_slash elems
  else if String.eqb (join_slash elems) "" then "." else join_slash elems.

(** The shape of what the scan of [path.Clean] has written: names, after
    the [..] elements that a path that is not rooted may start with. *)
Definition cleaned (rooted : bool) (elems : list string) : Prop :=
  exists n names,
    elems = (replicate n ".." ++ names)%list /\
    Forall (fun e => is_name e = true) names /\
    (rooted = true -> n = 0%nat).

(** ** Finding the mount (efs-provisioner.go) *)

Definition fileSystemIDKey : string := "FILE_SYSTEM_ID".
Definition awsRegionKey : string := "AWS_REGION".
Definition dnsNameKey : string := "DNS_NAME".

(** An entry of the mount table ([mount.Info]), as far as [getMount]
    reads it. *)
Record mountInfo := {
  info_Source : string;
  info_Mountpoint : string;
}.

Inductive mount_error :=
  | ErrGetMounts (msg : string)
  | ErrNoMountEntry (dnsName entries : string).

Definition getDNSName (fileSystemID awsRegion : string) : string :=
  ((fileSystemID +:+ ".efs.") +:+ awsRegion) +:+ ".amazonaws.com".

(** The first loop of [getMount]: the mount point and the source of the
    first entry whose source starts with the DNS name. *)
Fixpoint first_mount (dnsName : string) (entries : list mountInfo)
  : option (string * string) :=
  match entries with
  | [] => None
  | e :: rest =>
      if strings_HasPrefix (info_Source e) dnsName
      then Some (info_Mountpoint e, info_Source e)
      else first_mount dnsName rest
  end.

(** [getMount], on the result of [mount.GetMounts()]: the table, or the
    text of an error. *)
Definition getMount (mounts : string + list mountInfo) (dnsName : string)
  : mount_error + (string * string) :=
  match mounts with
  | inl err => inl (ErrGetMounts err)
  | inr entries =>
      match first_mount dnsName entries with
      | Some found => inr found
      | None =>
          let entriesStr :=
            fold_left
              (fun str e =>
                 str +:+ (((info_Source e +:+ ":") +:+ info_Mountpoint e)
                            +:+ ", "))
              entries "" in
          inl (ErrNoMountEntry dnsName entriesStr)
      end
  end.

(** The ways in which [NewEFSProvisioner] ends the process. *)
Inductive fatal :=
  | FatalEnv (key : string)
  | FatalMount (err : mount_error).

(** [NewEFSProvisioner], on the environment and the result of
    [mount.GetMounts()]: the provisioner, and the reclaimer that its GID
    allocator is made with.  The session with AWS and the look for the
    file system there give warnings only. *)
Definition NewEFSProvisioner (getenv : string -> string)
    (mounts : string + list mountInfo)
  : fatal + (efsProvisioner * fileSystemReclaimer) :=
  let fileSystemID := getenv fileSystemIDKey in
  if String.eqb fileSystemID "" then inl (FatalEnv fileSystemIDKey)
  else
    let awsRegion := getenv awsRegionKey in
    if String.eqb awsRegion "" then inl (FatalEnv awsRegionKey)
    else
      let dnsName := getenv dnsNameKey in
      let dnsName :=
        if String.eqb dnsName "" then getDNSName fileSystemID awsRegion
        else dnsName in
      match getMount mounts dnsName with
      | inl err => inl (FatalMount err)
      | inr (mountpoint, source) =>
          inr ({| dnsName := dnsName; mountpoint := mountpoint;
                  source := source |},
               newFileSystemReclaimer mountpoint)
      end.

(** ** Requests and scans

    The notions in which the further properties of [Provision] and
    [Reclaim] are stated. *)

(** A string of ASCII characters only (bytes below 128).  On such a
    string [strings_ToLower] is Go's [strings.ToLower], which changes
    the letters A to Z there and nothing else. *)
Definition ascii_only (s : string) : bool :=
  forallb (fun c => (nat_of_ascii c <? 128)%nat) (list_ascii_of_string s).

(** The body of the loop of [Provision] over the parameters, as it is
    in [gidAllocateOption]. *)
Definition gid_step (acc : result bool) (kv : string * string) : result bool :=
  match acc with
  | Err err => Err err
  | Ok gidAllocate =>
      if String.eqb (strings_ToLower kv.1) "gidallocate" then
        match strconv_ParseBool kv.2 with
        | None => Err (ErrInvalidGidAllocate kv.2 kv.1)
        | Some b => Ok b
        end
      else Ok gidAllocate
  end.

(** A request for which [Provision] is to create the directory: one
    without reuse, or one with reuse whose path holds nothing. *)
Definition to_create {A} (options : VolumeOptions) (volumePath : string)
    (s : state A) : Prop :=
  reuseVolumesOption options = Ok false \/
  (reuseVolumesOption options = Ok true /\
   faults s SysStat volumePath = false /\ fs s !! volumePath = None).

(** [recorded f classname s name g]: the entry [name] of the base path
    holds metadata of the storage class with the GID [g]. *)
Definition recorded `{JSON} {A} (f : fileSystemReclaimer) (classname : string)
    (s : state A) (name : string) (g : Z) : Prop :=
  exists md,
    (readVolumeMetadata (path_Join [BasePath f; name]) s).1 = Ok (Some md) /\
    GID md <> "" /\ StorageClassName md = classname /\
    strconv_Atoi (GID md) = Some g.

(** ** A concrete setting

    An encoder and a decoder for the layout that [json.MarshalIndent]
    gives a metadata record whose fields need no escaping, and a GID
    allocator that keeps one table and hands out the lowest free GID. *)

Module Concrete.

Definition quote : string := String (ascii_of_nat 34) "".
Definition newline : string := String (ascii_of_nat 10) "".

Definition field (key value : string) : string :=
  "  " +:+ quote +:+ key +:+ quote +:+ ": " +:+ quote +:+ value +:+ quote.

Definition marshal (md : volumeMetadata) : option string :=
  Some ("{" +:+ newline
        +:+ field "gid" (GID md) +:+ "," +:+ newline
        +:+ field "pvcName" (PVCName md) +:+ "," +:+ newline
        +:+ field "pvcNamespace" (PVCNamespace md) +:+ "," +:+ newline
        +:+ field "storageClassName" (StorageClassName md) +:+ newline
        +:+ "}").

Fixpoint split_quote (s : string) : list string :=
  match s with
  | EmptyString => [EmptyString]
  | String c s' =>
      if Ascii.eqb c (ascii_of_nat 34) then EmptyString :: split_quote s'
      else match split_quote s' with
           | h :: t => String c h :: t
           | [] => [String c EmptyString]
           end
  end.

Definition unmarshal (content : string) : option volumeMetadata :=
  match split_quote content with
  | [_; k1; _; gid; _; k2; _; name; _; k3; _; namespace; _; k4; _; class; _] =>
      if String.eqb k1 "gid" && String.eqb k2 "pvcName"
         && String.eqb k3 "pvcNamespace" && String.eqb k4 "storageClassName"
      then Some {| GID := gid; PVCName := name; PVCNamespace := namespace;
                   StorageClassName := class |}
      else None
  | _ => None
  end.

#[global] Instance json : JSON :=
  {| json_MarshalIndent := marshal; json_Unmarshal := unmarshal |}.

Definition next_free (t : MinMaxAllocator) : option Z :=
  find (fun i => negb (bool_decide (i ∈ used t)))
       (seqZ (range_min t) (range_max t - range_min t + 1)).

Definition allocate_next (options : VolumeOptions) (t : MinMaxAllocator)
  : (string + Z) * MinMaxAllocator :=
  match next_free t with
  | Some i => (inr i, {| range_min := range_min t; range_max := range_max t;
                         used := {[i]} ∪ used t |})
  | None => (inl "range full", t)
  end.

Definition release (volume : PersistentVolume) (t : MinMaxAllocator)
  : option string * MinMaxAllocator :=
  match pv_Annotations volume !! VolumeGidAnnotationKey with
  | Some g =>
      match strconv_Atoi g with
      | Some i => (None, {| range_min := range_min t; range_max := range_max t;
                            used := used t ∖ {[i]} |})
      | None => (None, t)
      end
  | None => (None, t)
  end.

#[global] Instance allocator : GidAllocator MinMaxAllocator :=
  {| allocator_AllocateNext := allocate_next; allocator_Release := release |}.

(** The setting of the specification's example: the export [/export]
    of [fs.example.com] mounted at [/mnt/efs]. *)
Definition provisioner : efsProvisioner :=
  {| dnsName := "fs.example.com"; mountpoint := "/mnt/efs";
     source := "fs.example.com:/export" |}.

Definition claim_a : PersistentVolumeClaim :=
  {| pvc_Name := "claim-a"; pvc_Namespace := "ns1"; pvc_Annotations := ∅;
     pvc_StorageClassName := Some "efs"; pvc_Selector := None;
     pvc_AccessModes := ["ReadWriteMany"]; pvc_StorageRequest := Some "1Mi" |}.

Definition options_with (params : gmap string string) : VolumeOptions :=
  {| PersistentVolumeReclaimPolicy := "Delete"; PVName := "pvc-1234";
     MountOptions := None; PVC := claim_a; Parameters := params |}.

(** A request that reuses volumes, and one that does not. *)
Definition reuse_options : VolumeOptions :=
  options_with {[ "reuseVolumes" := "true" ]}.
Definition ephemeral_options : VolumeOptions := options_with ∅.

Definition no_faults : syscall -> string -> bool := fun _ _ => false.

(** The environment in which the listed calls on the listed paths fail. *)
Definition failing (l : list (syscall * string)) : syscall -> string -> bool :=
  fun call path => bool_decide ((call, path) ∈ l).

Definition table (gids : gset Z) : MinMaxAllocator :=
  {| range_min := 2000; range_max := 2010; used := gids |}.

Definition state_of (m : gmap string node) (f : syscall -> string -> bool)
    (gids : gset Z) : state MinMaxAllocator :=
  State m f 18 0 (table gids) [].

(** The mounted file system with nothing in it. *)
Definition mount_only : gmap string node :=
  {[ "/mnt" := Dir 493 0; "/mnt/efs" := Dir 493 0 ]}.

(** The directory of [claim_a] in reuse mode, owned by the group
    [dirgid], with a metadata file or without one. *)
Definition claim_dir : string := "/mnt/efs/claim-a-ns1".

Definition sidecar (md : volumeMetadata) : node :=
  File perm_0600 (default "" (marshal md)).

Definition volume_fs (dirgid : Z) (file : option node) : gmap string node :=
  let m := <[claim_dir := Dir (volume_perm (Some dirgid)) dirgid]> mount_only in
  match file with
  | Some n => <[getMetaDataPath claim_dir := n]> m
  | None => m
  end.

(** The record of [claim_a] with the GID 2000, and the record of a claim
    of the same name in another namespace. *)
Definition md_claim_a : volumeMetadata :=
  {| GID := "2000"; PVCName := "claim-a"; PVCNamespace := "ns1";
     StorageClassName := "efs" |}.
Definition md_other : volumeMetadata :=
  {| GID := "2000"; PVCName := "claim-a"; PVCNamespace := "ns2";
     StorageClassName := "efs" |}.

(** The directory of [claim_a] without a metadata file, with one that
    does not parse, with its own record, and with its own record but
    owned by another group. *)
Definition s_nofile : state MinMaxAllocator :=
  state_of (volume_fs 2000 None) no_faults {[2000]}.
Definition s_garbage : state MinMaxAllocator :=
  state_of (volume_fs 2000 (Some (File perm_0600 "{"))) no_faults {[2000]}.
Definition s_claim_a : state MinMaxAllocator :=
  state_of (volume_fs 2000 (Some (sidecar md_claim_a))) no_faults {[2000]}.
Definition s_wrong_group : state MinMaxAllocator :=
  state_of (volume_fs 3000 (Some (sidecar md_claim_a))) no_faults {[2000]}.

(** The directory of [claim_a] with the record of the other claim. *)
Definition s_other : state MinMaxAllocator :=
  state_of (volume_fs 2000 (Some (sidecar md_other))) no_faults {[2000]}.

(** Two directories of the class [efs] that both claim the GID 2000,
    next to one of another class, one without metadata and one whose
    metadata does not parse. *)
Definition md_of (gid class : string) : node :=
  sidecar {| GID := gid; PVCName := "c"; PVCNamespace := "n";
             StorageClassName := class |}.

Definition fleet : gmap string node :=
  list_to_map
    [("/mnt/efs/a", Dir 505 2000);
     ("/mnt/efs/a/.kube-efs-provisioner-metadata", md_of "2000" "efs");
     ("/mnt/efs/b", Dir 505 2000);
     ("/mnt/efs/b/.kube-efs-provisioner-metadata", md_of "2000" "efs");
     ("/mnt/efs/c", Dir 505 2001);
     ("/mnt/efs/c/.kube-efs-provisioner-metadata", md_of "2001" "other");
     ("/mnt/efs/d", Dir 511 0);
     ("/mnt/efs/e", Dir 505 2002);
     ("/mnt/efs/e/.kube-efs-provisioner-metadata", File perm_0600 "{");
     ("/mnt/efs/f", Dir 505 2003);
     ("/mnt/efs/f/.kube-efs-provisioner-metadata", md_of "2003" "efs");
     ("/mnt/efs/notes.txt", File 420 "x")] ∪ mount_only.

(** A request without reuse and without a GID, and the state in which
    the directory of a request without reuse exists already, owned by
    the group 1234. *)
Definition ephemeral_no_gid : VolumeOptions :=
  options_with {[ "gidAllocate" := "false" ]}.

Definition ephemeral_dir : string := "/mnt/efs/claim-a-pvc-1234".

Definition s_ephemeral (options : VolumeOptions) : state MinMaxAllocator :=
  state_of (<[ephemeral_dir := Dir 493 1234]> mount_only) no_faults ∅.

(** A first request for [claim_a] on the empty mount, and what it
    returns and leaves behind. *)
Definition s_fresh : state MinMaxAllocator :=
  state_of mount_only no_faults ∅.

Definition first_volume : PersistentVolume :=
  {| pv_Name := "pvc-1234";
     pv_Annotations := {[ VolumeGidAnnotationKey := "2000" ]};
     pv_ReclaimPolicy := "Delete";
     pv_AccessModes := ["ReadWriteMany"];
     pv_Capacity := Some "1Mi";
     pv_NFS := {| Server := "fs.example.com"; Path := "/export/claim-a-ns1";
                  ReadOnly := false |};
     pv_MountOptions := ["vers=4.1"] |}.

Definition s_first : state MinMaxAllocator :=
  State (volume_fs 2000 (Some (sidecar md_claim_a))) no_faults 18 0
    (table {[2000]})
    [EvWriteFile (getMetaDataPath claim_dir)
       (default "" (marshal md_claim_a)) perm_0600;
     EvChgrp "2000" claim_dir;
     EvChmod claim_dir (volume_perm (Some 2000));
     EvMkdirAll claim_dir (volume_perm (Some 2000));
     EvAllocateNext;
     EvStat claim_dir].

(** A volume of the export [/export2] of the same server, which is not
    the export [/export] that the provisioner has mounted, and a mount
    that has a directory [2] with a directory of the same name in it. *)
Definition foreign_volume : PersistentVolume :=
  {| pv_Name := "pvc-5678";
     pv_Annotations := ∅;
     pv_ReclaimPolicy := "Delete";
     pv_AccessModes := ["ReadWriteMany"];
     pv_Capacity := Some "1Mi";
     pv_NFS := {| Server := "fs.example.com"; Path := "/export2/claim-b-ns1";
                  ReadOnly := false |};
     pv_MountOptions := ["vers=4.1"] |}.

Definition s_sibling : state MinMaxAllocator :=
  state_of
    (list_to_map
       [("/mnt/efs/2", Dir 493 0);
        ("/mnt/efs/2/claim-b-ns1", Dir 511 0);
        ("/mnt/efs/2/claim-b-ns1/data", File 420 "x")] ∪ mount_only)
    no_faults ∅.

(** The empty mount in which writing the metadata file of [claim_a]
    fails. *)
Definition s_write_fails : state MinMaxAllocator :=
  state_of mount_only (failing [(SysWriteFile, getMetaDataPath claim_dir)]) ∅.

(** A claim by its name and namespace, and a request by its claim, the
    name of its volume and its parameters. *)
Definition claim_of (name namespace : string) : PersistentVolumeClaim :=
  {| pvc_Name := name; pvc_Namespace := namespace; pvc_Annotations := ∅;
     pvc_StorageClassName := Some "efs"; pvc_Selector := None;
     pvc_AccessModes := ["ReadWriteMany"]; pvc_StorageRequest := Some "1Mi" |}.

Definition request (claim : PersistentVolumeClaim) (pvName : string)
    (params : gmap string string) : VolumeOptions :=
  {| PersistentVolumeReclaimPolicy := "Delete"; PVName := pvName;
     MountOptions := None; PVC := claim; Parameters := params |}.

(** The directory of [claim_a] as the first request has left it, on a
    server that has been started again: nothing is logged, and the
    table is empty. *)
Definition s_restarted : state MinMaxAllocator :=
  state_of (volume_fs 2000 (Some (sidecar md_claim_a))) no_faults ∅.

(** The second request for the volume of [claim_a]. *)
Definition second_options : VolumeOptions :=
  request claim_a "pvc-5678" {[ "reuseVolumes" := "true" ]}.

(** A volume whose path is the exported root. *)
Definition root_volume : PersistentVolume :=
  {| pv_Name := "pvc-0000";
     pv_Annotations := ∅;
     pv_ReclaimPolicy := "Delete";
     pv_AccessModes := ["ReadWriteMany"];
     pv_Capacity := Some "1Mi";
     pv_NFS := {| Server := "fs.example.com"; Path := "/export";
                  ReadOnly := false |};
     pv_MountOptions := ["vers=4.1"] |}.

(** The path of [claim_a] holding a regular file. *)
Definition s_regular_file : state MinMaxAllocator :=
  state_of (<[claim_dir := File 420 "x"]> mount_only) no_faults ∅.

(** The empty mount with a table that has no GID left, and one in which
    making the directory of [claim_a] fails. *)
Definition s_full : state MinMaxAllocator :=
  state_of mount_only no_faults (list_to_set (seqZ 2000 11)).
Definition s_mkdir_fails : state MinMaxAllocator :=
  state_of mount_only (failing [(SysMkdirAll, claim_dir)]) ∅.

(** The record of [claim_a] with a GID that is no number, in a directory
    of the group 2000. *)
Definition md_bad_gid : volumeMetadata :=
  {| GID := "20x0"; PVCName := "claim-a"; PVCNamespace := "ns1";
     StorageClassName := "efs" |}.
Definition s_bad_gid : state MinMaxAllocator :=
  state_of (volume_fs 2000 (Some (sidecar md_bad_gid))) no_faults {[2000]}.

(** The same record in a directory of the group 0. *)
Definition s_unreadable_gid : state MinMaxAllocator :=
  state_of (volume_fs 0 (Some (sidecar md_bad_gid))) no_faults ∅.

(** The environment and the mount table of a provisioner for the file
    system [fs-12345678] of the region [us-east-1]. *)
Definition environment (key : string) : string :=
  if String.eqb key fileSystemIDKey then "fs-12345678"
  else if String.eqb key awsRegionKey then "us-east-1"
  else "".

Definition mounts : list mountInfo :=
  [{| info_Source := "proc"; info_Mountpoint := "/proc" |};
   {| info_Source := "fs-12345678.efs.us-east-1.amazonaws.com:/export";
      info_Mountpoint := "/mnt/efs" |}].

(** The volume of [claim_a], as another server would have it. *)
Definition other_volume : PersistentVolume :=
  {| pv_Name := "pvc-1234";
     pv_Annotations := {[ VolumeGidAnnotationKey := "2000" ]};
     pv_ReclaimPolicy := "Delete";
     pv_AccessModes := ["ReadWriteMany"];
     pv_Capacity := Some "1Mi";
     pv_NFS := {| Server := "fs.other.com"; Path := "/export/claim-a-ns1";
                  ReadOnly := false |};
     pv_MountOptions := ["vers=4.1"] |}.

End Concrete.

(** * Properties *)

(** ** Go's standard library at work *)

(** Rows of the table of Go's own test of [path.Clean]. *)
Example path_Clean_examples :
  map path_Clean
    [""; "abc"; "abc/def"; "."; ".."; "../.."; "../../abc"; "/abc"; "/";
     "abc/"; "abc/def/"; "a/b/c/"; "./"; "../"; "../../"; "/abc/";
     "abc//def//ghi"; "//abc"; "///abc"; "//abc//"; "abc//";
     "abc/./def"; "/./abc/def"; "abc/.";
     "abc/def/ghi/../jkl"; "abc/def/../ghi/../jkl"; "abc/def/..";
     "abc/def/../.."; "/abc/def/../.."; "abc/def/../../..";
     "/abc/def/../../.."; "abc/def/../../../ghi/jkl/../../../mno";
     "abc/./../def"; "abc//./../def"; "abc/../../././../def"]
  = ["."; "abc"; "abc/def"; "."; ".."; "../.."; "../../abc"; "/abc"; "/";
     "abc"; "abc/def"; "a/b/c"; "."; ".."; "../.."; "/abc";
     "abc/def/ghi"; "/abc"; "/abc"; "/abc"; "abc";
     "abc/def"; "/abc/def"; "abc";
     "abc/def/jkl"; "abc/jkl"; "abc";
     "."; "/"; "..";
     "/"; "../../mno";
     "def"; "def"; "../../def"].
Proof. reflexivity. Qed.

Example path_Join_examples :
  path_Join ["/mnt/efs"; "claim-a-ns1"] = "/mnt/efs/claim-a-ns1" /\
  path_Join [""; "a"] = "a" /\ path_Join ["a"; ""] = "a" /\
  path_Join [""; ""] = "" /\ path_Join ["/"; "a"] = "/a".
Proof. repeat split; reflexivity. Qed.

Example strconv_examples :
  strconv_Atoi "+5" = Some 5 /\ strconv_Atoi "-0" = Some 0 /\
  strconv_Atoi "2000" = Some 2000 /\ strconv_Atoi "" = None /\
  strconv_Atoi "-" = None /\ strconv_Atoi "12a" = None /\
  strconv_Atoi "9223372036854775808" = None /\
  strconv_ParseUint32 "+5" = None /\ strconv_ParseUint32 "4294967296" = None /\
  strconv_ParseUint32 "4294967295" = Some 4294967295 /\
  strconv_Itoa 2000 = "2000" /\ strconv_Itoa 0 = "0" /\
  strconv_Itoa (-7) = "-7".
Proof. repeat split; reflexivity. Qed.

Example strings_examples :
  strings_Replace1 "fs.example.com:/export" "fs.example.com:" "" = "/export" /\
  strings_Replace1 "abcabc" "bc" "" = "aabc" /\
  strings_Replace1 "abc" "x" "y" = "abc" /\
  strings_Replace1 "abc" "" "y" = "yabc" /\
  strings_ToLower "gidAllocate" = "gidallocate" /\
  strings_HasPrefix "/export2/x" "/export" = true.
Proof. repeat split; reflexivity. Qed.

Example parent_paths_examples :
  parent_paths "/mnt/efs/claim-a-ns1" = ["/mnt/efs"; "/mnt"] /\
  parent_paths "a/b" = ["a"] /\ parent_paths "/a" = [] /\
  parent_paths "a" = [].
Proof. repeat split; reflexivity. Qed.

(** ** Numbers and their decimal form *)

Lemma parse_digits_nonneg s v : parse_digits s = Some v -> 0 <= v.
Proof.
  unfold parse_digits. destruct (NilZero.uint_of_string s) as [d|]; [|done].
  intros [= <-]. unfold Z.of_uint. apply N2Z.is_nonneg.
Qed.

(** A string of digits starts with neither sign. *)
Lemma parse_digits_unsigned s v :
  parse_digits s = Some v ->
  exists c rest, s = String c rest /\
    Ascii.eqb c "-" = false /\ Ascii.eqb c "+" = false.
Proof.
  unfold parse_digits. destruct s as [|c rest]; [done|].
  intros Hv. exists c, rest. split; [done|].
  unfold NilZero.uint_of_string, NilEmpty.uint_of_string in Hv.
  fold NilEmpty.uint_of_string in Hv.
  destruct (NilEmpty.uint_of_string rest) as [d|].
  - destruct c as [[] [] [] [] [] [] [] []]; try done.
  - destruct c as [[] [] [] [] [] [] [] []]; done.
Qed.

(** What [strconv.Itoa] writes reads back as the same number. *)
Lemma parse_digits_Itoa g v : parse_digits (strconv_Itoa g) = Some v -> v = g.
Proof.
  unfold parse_digits, strconv_Itoa.
  rewrite <- (DecimalZ.of_to g) at 2.
  destruct (Z.to_int g) as [d|d]; simpl.
  - destruct d; simpl; try (rewrite NilEmpty.usu; simpl; congruence).
    intros [= <-]. reflexivity.
  - destruct (NilEmpty.uint_of_string (NilZero.string_of_uint d)); done.
Qed.

Lemma Itoa_digits g : 0 <= g -> parse_digits (strconv_Itoa g) = Some g.
Proof.
  intros Hg. unfold parse_digits, strconv_Itoa.
  rewrite <- (DecimalZ.of_to g) at 2.
  destruct g as [|q|q]; [reflexivity| |lia].
  simpl Z.to_int. simpl NilZero.string_of_int.
  set (d := Pos.to_uint q).
  assert (Hd : d <> Nil).
  { intros Hnil. pose proof (DecimalPos.Unsigned.of_to q) as Hq.
    fold d in Hq. rewrite Hnil in Hq. discriminate. }
  destruct d eqn:Ed; [done|..];
    rewrite <- Ed; rewrite <- Ed in Hd;
    (replace (NilZero.string_of_uint d) with (NilEmpty.string_of_uint d)
       by (rewrite Ed; reflexivity));
    (assert (Hu : NilZero.uint_of_string (NilEmpty.string_of_uint d) = Some d)
       by (rewrite Ed; simpl; rewrite NilEmpty.usu; reflexivity));
    rewrite Hu; reflexivity.
Qed.

Lemma ParseUint32_range s v : strconv_ParseUint32 s = Some v -> 0 <= v < 2 ^ 32.
Proof.
  unfold strconv_ParseUint32.
  destruct (parse_digits s) as [w|] eqn:Hw; [|done].
  destruct (w <? 2 ^ 32) eqn:Hlt; [|done]. intros [= <-].
  apply parse_digits_nonneg in Hw. apply Z.ltb_lt in Hlt. lia.
Qed.

Lemma ParseUint32_Itoa g : 0 <= g < 2 ^ 32 -> strconv_ParseUint32 (strconv_Itoa g) = Some g.
Proof.
  intros [Hg Hlt]. unfold strconv_ParseUint32. rewrite Itoa_digits by done.
  apply Z.ltb_lt in Hlt. by rewrite Hlt.
Qed.

Lemma ParseUint32_Itoa_inv g v :
  strconv_ParseUint32 (strconv_Itoa g) = Some v -> v = g /\ 0 <= g < 2 ^ 32.
Proof.
  intros Hv. pose proof (ParseUint32_range _ _ Hv) as Hr.
  unfold strconv_ParseUint32 in Hv.
  destruct (parse_digits (strconv_Itoa g)) as [w|] eqn:Hw; [|done].
  apply parse_digits_Itoa in Hw. subst w.
  destruct (g <? 2 ^ 32); [|done]. by injection Hv as <-.
Qed.

(** A GID that [GidAsUInt] reads is read by [strconv.Atoi] as the same. *)
Lemma ParseUint32_Atoi s v :
  strconv_ParseUint32 s = Some v -> strconv_Atoi s = Some v.
Proof.
  intros Hv. pose proof (ParseUint32_range _ _ Hv) as [Hlo Hhi].
  unfold strconv_ParseUint32 in Hv.
  destruct (parse_digits s) as [w|] eqn:Hw; [|done].
  destruct (w <? 2 ^ 32); [|done]. injection Hv as ->.
  destruct (parse_digits_unsigned _ _ Hw) as (c & rest & -> & Hm & Hp).
  unfold strconv_Atoi. rewrite Hm, Hp. simpl. rewrite Hw.
  assert (Hin : (- 2 ^ 63 <=? v) && (v <? 2 ^ 63) = true).
  { apply andb_true_iff. split; [apply Z.leb_le|apply Z.ltb_lt]; lia. }
  by rewrite Hin.
Qed.

Lemma Atoi_Itoa g : 0 <= g < 2 ^ 32 -> strconv_Atoi (strconv_Itoa g) = Some g.
Proof. intros Hg. apply ParseUint32_Atoi. by apply ParseUint32_Itoa. Qed.

Lemma Itoa_nonempty g v :
  strconv_ParseUint32 (strconv_Itoa g) = Some v ->
  String.eqb (strconv_Itoa g) "" = false.
Proof.
  intros Hv. destruct (strconv_Itoa g); [done|reflexivity].
Qed.

(** ** The calls of the operating system *)

Section CallFacts.
Context `{JSON} {A : Type}.
Implicit Types s : state A.

Lemma volumeExists_dir s path mode g :
  faults s SysStat path = false ->
  fs s !! path = Some (Dir mode g) ->
  volumeExists path s = (Ok (true, g), log (EvStat path) s).
Proof. intros Hf Hd. unfold volumeExists, os_Stat. by rewrite Hf, Hd. Qed.

Lemma volumeExists_absent s path :
  faults s SysStat path = false ->
  fs s !! path = None ->
  volumeExists path s = (Ok (false, 0), log (EvStat path) s).
Proof. intros Hf Hd. unfold volumeExists, os_Stat. by rewrite Hf, Hd. Qed.

Lemma readVolumeMetadata_absent s dir :
  faults s SysReadFile (getMetaDataPath dir) = false ->
  fs s !! getMetaDataPath dir = None ->
  readVolumeMetadata dir s = (Ok None, log (EvReadFile (getMetaDataPath dir)) s).
Proof.
  intros Hf Hd. unfold readVolumeMetadata, ioutil_ReadFile. by rewrite Hf, Hd.
Qed.

Lemma readVolumeMetadata_file s dir mode content :
  faults s SysReadFile (getMetaDataPath dir) = false ->
  fs s !! getMetaDataPath dir = Some (File mode content) ->
  readVolumeMetadata dir s =
    (match json_Unmarshal content with
     | Some md => Ok (Some md)
     | None => Err ErrUnmarshal
     end, log (EvReadFile (getMetaDataPath dir)) s).
Proof.
  intros Hf Hd. unfold readVolumeMetadata, ioutil_ReadFile. rewrite Hf, Hd.
  simpl. by destruct (json_Unmarshal content).
Qed.

End CallFacts.

(** ** Provisioning against a directory that exists *)

Section ReuseProperties.
Context `{JSON} {A : Type} `{GidAllocator A}.
Implicit Types s : state A.

(** [Provision] on an existing directory, up to the validation of its
    metadata. *)
Lemma Provision_existing p options s volumePath mode existingGid md :
  pvc_Selector (PVC options) = None ->
  reuseVolumesOption options = Ok true ->
  getLocalPath p options = Ok volumePath ->
  faults s SysStat volumePath = false ->
  fs s !! volumePath = Some (Dir mode existingGid) ->
  readVolumeMetadata volumePath (log (EvStat volumePath) s)
    = (Ok md, inspected volumePath s) ->
  forall e,
  validatePreexistingVolume options md volumePath existingGid = Err e ->
  Provision p options s = (Err e, inspected volumePath s).
Proof.
  intros Hsel Hreuse Hpath Hstat Hdir Hread e Hval.
  unfold Provision. rewrite Hsel, Hpath, Hreuse. unfold bind, lift. simpl.
  rewrite (volumeExists_dir _ _ _ _ Hstat Hdir). simpl.
  rewrite Hread. by rewrite Hval.
Qed.

Lemma GidAsUInt_nonempty md n :
  GidAsUInt md = Some n -> String.eqb (GID md) "" = false.
Proof. unfold GidAsUInt. by destruct (GID md). Qed.

(** C3: a reuse-mode request against an existing directory whose
    metadata names another storage class, claim name or claim namespace
    fails with an ownership-mismatch error; the file system and the
    allocator are as before, and the request has only read the status of
    the directory and its metadata file. *)
Theorem Provision_ownership_mismatch
    p options s volumePath mode existingGid fmode content md :
  pvc_Selector (PVC options) = None ->
  reuseVolumesOption options = Ok true ->
  getLocalPath p options = Ok volumePath ->
  faults s SysStat volumePath = false ->
  fs s !! volumePath = Some (Dir mode existingGid) ->
  faults s SysReadFile (getMetaDataPath volumePath) = false ->
  fs s !! getMetaDataPath volumePath = Some (File fmode content) ->
  json_Unmarshal content = Some md ->
  StorageClassName md <> GetPersistentVolumeClaimClass (PVC options)
  \/ PVCName md <> pvc_Name (PVC options)
  \/ PVCNamespace md <> pvc_Namespace (PVC options) ->
  exists e s',
    Provision p options s = (Err e, s') /\
    kind_of e = OwnershipMismatch /\
    fs s' = fs s /\ alloc s' = alloc s /\
    trace s' = EvReadFile (getMetaDataPath volumePath)
                 :: EvStat volumePath :: trace s.
Proof.
  intros Hsel Hreuse Hpath Hstat Hdir Hfault Hfile Hjson Hdiff.
  assert (Hread : readVolumeMetadata volumePath (log (EvStat volumePath) s)
                  = (Ok (Some md), inspected volumePath s)).
  { rewrite (readVolumeMetadata_file _ _ fmode content) by done.
    by rewrite Hjson. }
  assert (Hval : exists e,
    validatePreexistingVolume options (Some md) volumePath existingGid = Err e
    /\ kind_of e = OwnershipMismatch).
  { unfold validatePreexistingVolume.
    destruct (String.eqb_spec (StorageClassName md)
                (GetPersistentVolumeClaimClass (PVC options))) as [Hc|Hc];
      simpl; [|by eexists].
    destruct (String.eqb_spec (PVCName md) (pvc_Name (PVC options)))
      as [Hn|Hn]; simpl; [|by eexists].
    destruct (String.eqb_spec (PVCNamespace md) (pvc_Namespace (PVC options)))
      as [Hns|Hns]; simpl; [|by eexists].
    by destruct Hdiff as [?|[?|?]]. }
  destruct Hval as (e & Hval & Hkind).
  exists e, (inspected volumePath s). split; [|done].
  by apply (Provision_existing p options s volumePath mode existingGid (Some md)).
Qed.

(** C5: a reuse-mode request against an existing directory without a
    metadata file: the read of the metadata gives no record and no
    error, and provisioning fails with a missing-metadata error; with a
    metadata file that does not parse, the read is an error and so is
    provisioning.  Neither changes the file system or the allocator. *)
Theorem Provision_missing_metadata p options s volumePath mode existingGid :
  pvc_Selector (PVC options) = None ->
  reuseVolumesOption options = Ok true ->
  getLocalPath p options = Ok volumePath ->
  faults s SysStat volumePath = false ->
  fs s !! volumePath = Some (Dir mode existingGid) ->
  faults s SysReadFile (getMetaDataPath volumePath) = false ->
  (fs s !! getMetaDataPath volumePath = None ->
     (readVolumeMetadata volumePath (log (EvStat volumePath) s)).1 = Ok None /\
     exists e s',
       Provision p options s = (Err e, s') /\
       kind_of e = MissingMetadata /\
       fs s' = fs s /\ alloc s' = alloc s)
  /\
  (forall fmode content,
     fs s !! getMetaDataPath volumePath = Some (File fmode content) ->
     json_Unmarshal content = None ->
     (readVolumeMetadata volumePath (log (EvStat volumePath) s)).1
       = Err ErrUnmarshal /\
     exists s',
       Provision p options s
         = (Err (ErrReadMetadata volumePath ErrUnmarshal), s') /\
       fs s' = fs s /\ alloc s' = alloc s).
Proof.
  intros Hsel Hreuse Hpath Hstat Hdir Hfault. split.
  - intros Hnone.
    assert (Hread : readVolumeMetadata volumePath (log (EvStat volumePath) s)
                    = (Ok None, inspected volumePath s))
      by by rewrite readVolumeMetadata_absent.
    rewrite Hread. split; [done|].
    exists (ErrNoMetadata volumePath), (inspected volumePath s).
    split; [|done].
    by apply (Provision_existing p options s volumePath mode existingGid None).
  - intros fmode content Hfile Hjson.
    assert (Hread : readVolumeMetadata volumePath (log (EvStat volumePath) s)
                    = (Err ErrUnmarshal, inspected volumePath s)).
    { rewrite (readVolumeMetadata_file _ _ fmode content) by done.
      by rewrite Hjson. }
    rewrite Hread. split; [done|].
    exists (inspected volumePath s). split; [|done].
    unfold Provision. rewrite Hsel, Hpath, Hreuse. unfold bind, lift. simpl.
    rewrite (volumeExists_dir _ _ _ _ Hstat Hdir). simpl.
    by rewrite Hread.
Qed.

(** C4, as the code has it: a reuse-mode request against an existing
    directory whose metadata matches the claim and records a GID that
    is a decimal 32-bit unsigned number [n] (what [GidAsUInt] reads):
    when [n] is not the group of the directory the request fails with a
    GID-inconsistency error; when it is, the volume carries [n], as its
    decimal numeral, as its GID and as its only annotation, and the
    allocator has not been called: its state is as before and the
    request has only read the status of the directory and its metadata
    file. *)
Theorem Provision_recorded_gid
    p options s volumePath mode existingGid fmode content md n :
  pvc_Selector (PVC options) = None ->
  reuseVolumesOption options = Ok true ->
  getLocalPath p options = Ok volumePath ->
  faults s SysStat volumePath = false ->
  fs s !! volumePath = Some (Dir mode existingGid) ->
  faults s SysReadFile (getMetaDataPath volumePath) = false ->
  fs s !! getMetaDataPath volumePath = Some (File fmode content) ->
  json_Unmarshal content = Some md ->
  StorageClassName md = GetPersistentVolumeClaimClass (PVC options) ->
  PVCName md = pvc_Name (PVC options) ->
  PVCNamespace md = pvc_Namespace (PVC options) ->
  GidAsUInt md = Some n ->
  GID md <> "" /\
  (n <> existingGid ->
     exists e s',
       Provision p options s = (Err e, s') /\
       kind_of e = GIDInconsistency /\
       fs s' = fs s /\ alloc s' = alloc s)
  /\
  (n = existingGid ->
     exists pv s',
       Provision p options s = (Ok pv, s') /\
       (exists gidstr,
          pv_Annotations pv = {[ VolumeGidAnnotationKey := gidstr ]} /\
          gidstr = strconv_Itoa n /\ strconv_Atoi gidstr = Some n) /\
       fs s' = fs s /\ alloc s' = alloc s /\
       trace s' = EvReadFile (getMetaDataPath volumePath)
                    :: EvStat volumePath :: trace s).
Proof.
  intros Hsel Hreuse Hpath Hstat Hdir Hfault Hfile Hjson Hclass Hname Hns Hgid.
  pose proof (GidAsUInt_nonempty _ _ Hgid) as Hne.
  assert (Hread : readVolumeMetadata volumePath (log (EvStat volumePath) s)
                  = (Ok (Some md), inspected volumePath s)).
  { rewrite (readVolumeMetadata_file _ _ fmode content) by done.
    by rewrite Hjson. }
  assert (Hval : validatePreexistingVolume options (Some md) volumePath
                   existingGid
                 = if existingGid =? n then Ok tt
                   else Err (ErrExistingGid volumePath existingGid n)).
  { unfold validatePreexistingVolume.
    rewrite Hclass, Hname, Hns, !String.eqb_refl, Hne, Hgid. simpl.
    by destruct (existingGid =? n). }
  split; [by intros Hempty; rewrite Hempty in Hne|]. split.
  - intros Hdiff. apply Z.eqb_neq in Hdiff. rewrite Z.eqb_sym in Hdiff.
    rewrite Hdiff in Hval.
    exists (ErrExistingGid volumePath existingGid n), (inspected volumePath s).
    split; [|done].
    by apply (Provision_existing p options s volumePath mode existingGid
                (Some md)).
  - intros <-. rewrite Z.eqb_refl in Hval.
    assert (Hremote : exists remotePath,
              getRemotePath p options = Ok remotePath).
    { unfold getLocalPath in Hpath. unfold getRemotePath.
      destruct (getDirectoryName options); [by eexists|done]. }
    destruct Hremote as [remotePath Hremote].
    eexists _, (inspected volumePath s). split; [|split; [|done]].
    + unfold Provision. rewrite Hsel, Hpath, Hreuse. unfold bind, lift. simpl.
      rewrite (volumeExists_dir _ _ _ _ Hstat Hdir). simpl.
      rewrite Hread, Hval, Hne. simpl.
      rewrite (ParseUint32_Atoi _ _ Hgid), Z.eqb_refl. unfold ret.
      rewrite Hremote. reflexivity.
    + exists (strconv_Itoa n). split; [done|]. split; [done|].
      apply Atoi_Itoa. by apply (ParseUint32_range _ _ Hgid).
Qed.

End ReuseProperties.

Lemma Provision_ownership_mismatch_witness :
  exists e s',
    Provision Concrete.provisioner Concrete.reuse_options Concrete.s_other
    = (Err e, s') /\
    kind_of e = OwnershipMismatch /\
    fs s' = fs Concrete.s_other /\ alloc s' = alloc Concrete.s_other /\
    trace s' = EvReadFile (getMetaDataPath Concrete.claim_dir)
                 :: EvStat Concrete.claim_dir :: trace Concrete.s_other.
Proof.
  apply (Provision_ownership_mismatch Concrete.provisioner
           Concrete.reuse_options Concrete.s_other Concrete.claim_dir
           (volume_perm (Some 2000)) 2000 perm_0600
           (default "" (Concrete.marshal Concrete.md_other)) Concrete.md_other);
    try reflexivity.
  right. right. vm_compute. discriminate.
Defined.

Lemma Provision_missing_metadata_witness :
  ((readVolumeMetadata Concrete.claim_dir
      (log (EvStat Concrete.claim_dir) Concrete.s_nofile)).1 = Ok None /\
   exists e s',
     Provision Concrete.provisioner Concrete.reuse_options Concrete.s_nofile
       = (Err e, s') /\
     kind_of e = MissingMetadata /\
     fs s' = fs Concrete.s_nofile /\ alloc s' = alloc Concrete.s_nofile)
  /\
  ((readVolumeMetadata Concrete.claim_dir
      (log (EvStat Concrete.claim_dir) Concrete.s_garbage)).1
     = Err ErrUnmarshal /\
   exists s',
     Provision Concrete.provisioner Concrete.reuse_options Concrete.s_garbage
       = (Err (ErrReadMetadata Concrete.claim_dir ErrUnmarshal), s') /\
     fs s' = fs Concrete.s_garbage /\ alloc s' = alloc Concrete.s_garbage).
Proof.
  split.
  - refine (proj1 (Provision_missing_metadata Concrete.provisioner
                     Concrete.reuse_options Concrete.s_nofile
                     Concrete.claim_dir (volume_perm (Some 2000)) 2000
                     _ _ _ _ _ _) _); reflexivity.
  - refine (proj2 (Provision_missing_metadata Concrete.provisioner
                     Concrete.reuse_options Concrete.s_garbage
                     Concrete.claim_dir (volume_perm (Some 2000)) 2000
                     _ _ _ _ _ _) perm_0600 "{" _ _); reflexivity.
Defined.

Lemma Provision_recorded_gid_witness :
  (exists e s',
     Provision Concrete.provisioner Concrete.reuse_options
       Concrete.s_wrong_group = (Err e, s') /\
     kind_of e = GIDInconsistency /\
     fs s' = fs Concrete.s_wrong_group /\
     alloc s' = alloc Concrete.s_wrong_group)
  /\
  (exists pv s',
     Provision Concrete.provisioner Concrete.reuse_options Concrete.s_claim_a
       = (Ok pv, s') /\
     (exists gidstr,
        pv_Annotations pv = {[ VolumeGidAnnotationKey := gidstr ]} /\
        gidstr = "2000" /\ strconv_Atoi gidstr = Some 2000) /\
     fs s' = fs Concrete.s_claim_a /\ alloc s' = alloc Concrete.s_claim_a /\
     trace s' = EvReadFile (getMetaDataPath Concrete.claim_dir)
                  :: EvStat Concrete.claim_dir :: trace Concrete.s_claim_a).
Proof.
  split.
  - refine (proj1 (proj2 (Provision_recorded_gid Concrete.provisioner
              Concrete.reuse_options Concrete.s_wrong_group Concrete.claim_dir
              (volume_perm (Some 3000)) 3000 perm_0600
              (default "" (Concrete.marshal Concrete.md_claim_a))
              Concrete.md_claim_a 2000 _ _ _ _ _ _ _ _ _ _ _ _)) _);
      try reflexivity.
    discriminate.
  - refine (proj2 (proj2 (Provision_recorded_gid Concrete.provisioner
              Concrete.reuse_options Concrete.s_claim_a Concrete.claim_dir
              (volume_perm (Some 2000)) 2000 perm_0600
              (default "" (Concrete.marshal Concrete.md_claim_a))
              Concrete.md_claim_a 2000 _ _ _ _ _ _ _ _ _ _ _ _)) _);
      reflexivity.
Defined.

(** C4, as the claim has it, fails: the metadata of the claim records
    the GID [20x0], which is not empty, is no number and so is not the
    group [0] of the directory.  The request is refused, by the check of
    [Provision] for an invalid GID value, and not with a
    GID-inconsistency error. *)
Lemma Provision_recorded_gid_no_number :
  let s := Concrete.s_unreadable_gid in
  let r := Provision Concrete.provisioner Concrete.reuse_options s in
  fs s !! Concrete.claim_dir = Some (Dir (volume_perm (Some 0)) 0) /\
  (readVolumeMetadata Concrete.claim_dir s).1
    = Ok (Some Concrete.md_bad_gid) /\
  GID Concrete.md_bad_gid = "20x0" /\
  strconv_Atoi "20x0" = None /\
  r.1 = Err (ErrInvalidMetadataGid "20x0") /\
  kind_of (ErrInvalidMetadataGid "20x0") = OtherError /\
  fs r.2 = fs s /\ alloc r.2 = alloc s.
Proof. vm_compute. repeat split. Qed.

(** ** Path translation *)

(** C9: the local path of a directory name is the mount point joined
    with it, and its remote path is the mount source without the server
    prefix, cleaned, joined with it; with the mount source
    [fs.example.com:/export] of the server [fs.example.com] mounted at
    [/mnt/efs], the directory name [claim-a-ns1] has the local path
    [/mnt/efs/claim-a-ns1] and the remote path [/export/claim-a-ns1]. *)
Theorem path_translation p options dirname :
  getDirectoryName options = Ok dirname ->
  (getLocalPath p options = Ok (path_Join [mountpoint p; dirname]) /\
   getRemotePath p options =
     Ok (path_Join
           [path_Clean (strings_Replace1 (source p) (dnsName p +:+ ":") "");
            dirname]))
  /\
  (source p = "fs.example.com:/export" -> dnsName p = "fs.example.com" ->
   mountpoint p = "/mnt/efs" -> dirname = "claim-a-ns1" ->
   getLocalPath p options = Ok "/mnt/efs/claim-a-ns1" /\
   getRemotePath p options = Ok "/export/claim-a-ns1").
Proof.
  intros Hdir. unfold getLocalPath, getRemotePath, sourcePath. rewrite Hdir.
  split; [done|]. intros -> -> -> ->. split; reflexivity.
Qed.

Lemma path_translation_witness :
  getLocalPath Concrete.provisioner Concrete.reuse_options
    = Ok "/mnt/efs/claim-a-ns1" /\
  getRemotePath Concrete.provisioner Concrete.reuse_options
    = Ok "/export/claim-a-ns1".
Proof.
  refine (proj2 (path_translation Concrete.provisioner Concrete.reuse_options
                   "claim-a-ns1" _) _ _ _ _); reflexivity.
Defined.

(** ** The reclaim scan *)

Section ReclaimProperties.
Context `{JSON}.
Implicit Types s : state MinMaxAllocator.

Lemma readVolumeMetadata_state {A} dir (s : state A) :
  (readVolumeMetadata dir s).2 = log (EvReadFile (getMetaDataPath dir)) s.
Proof.
  unfold readVolumeMetadata, ioutil_ReadFile.
  destruct (faults s SysReadFile (getMetaDataPath dir)); [done|].
  destruct (fs s !! getMetaDataPath dir) as [[]|]; simpl; try done.
  by destruct (json_Unmarshal content).
Qed.

(** An entry that is passed over leaves the table as it is. *)
Lemma reclaim_entry_passed_over f classname entry s :
  passed_over f classname entry s ->
  fs (reclaim_entry f classname entry s) = fs s /\
  alloc (reclaim_entry f classname entry s) = alloc s.
Proof.
  unfold passed_over, reclaim_entry. destruct entry as [name isdir].
  cbn [fst snd]. set (mddir := path_Join [BasePath f; name]).
  destruct isdir; cbn [negb]; [|done].
  pose proof (readVolumeMetadata_state mddir s) as Hs.
  destruct (readVolumeMetadata mddir s)
    as [[[md|]|err] s']; cbn [fst snd] in *; subst s'; try done.
  intros Hskip.
  destruct (String.eqb_spec (GID md) "") as [Hg|Hg]; [done|].
  destruct (String.eqb_spec (StorageClassName md) classname) as [Hc|Hc];
    simpl; [|done].
  destruct Hskip as [?|[?|Hskip]]; [done..|].
  destruct (strconv_Atoi (GID md)) as [gid|]; [|done].
  unfold gidtable_Allocate. simpl.
  destruct (negb _); [done|]. by rewrite bool_decide_eq_true_2.
Qed.

(** What an entry does to the table depends on the files, the failing
    calls and the table, and not on the log. *)
Lemma reclaim_entry_same f classname entry s1 s2 :
  fs s1 = fs s2 -> faults s1 = faults s2 -> alloc s1 = alloc s2 ->
  fs (reclaim_entry f classname entry s1)
    = fs (reclaim_entry f classname entry s2) /\
  faults (reclaim_entry f classname entry s1)
    = faults (reclaim_entry f classname entry s2) /\
  alloc (reclaim_entry f classname entry s1)
    = alloc (reclaim_entry f classname entry s2).
Proof.
  intros Hfs Hf Ha. unfold reclaim_entry. destruct (negb entry.2); [done|].
  generalize (path_Join [BasePath f; entry.1]). intros mddir.
  unfold readVolumeMetadata, ioutil_ReadFile. rewrite Hfs, Hf.
  destruct (faults s2 SysReadFile (getMetaDataPath mddir)); [done|].
  destruct (fs s2 !! getMetaDataPath mddir) as [[mode g|mode c]|];
    cbn [IsNotExist]; try done.
  destruct (json_Unmarshal c) as [md|]; [|done].
  destruct (String.eqb (GID md) ""); [done|].
  destruct (negb _); [done|].
  destruct (strconv_Atoi (GID md)) as [gid|]; [|done].
  cbn [alloc log]. rewrite Ha.
  by destruct (gidtable_Allocate gid (alloc s2)) as [[[]|] t].
Qed.

Lemma reclaim_entries_same f classname entries s1 s2 :
  fs s1 = fs s2 -> faults s1 = faults s2 -> alloc s1 = alloc s2 ->
  alloc (reclaim_entries f classname entries s1)
    = alloc (reclaim_entries f classname entries s2).
Proof.
  revert s1 s2. induction entries as [|entry entries IH]; intros s1 s2 ???.
  - done.
  - destruct (reclaim_entry_same f classname entry s1 s2) as (? & ? & ?);
      [done..|].
    by apply IH.
Qed.

(** The scan reads the file system and does not change it. *)
Lemma reclaim_entry_fs f classname entry s :
  fs (reclaim_entry f classname entry s) = fs s /\
  faults (reclaim_entry f classname entry s) = faults s.
Proof.
  unfold reclaim_entry. destruct (negb entry.2); [done|].
  generalize (path_Join [BasePath f; entry.1]). intros mddir.
  pose proof (readVolumeMetadata_state mddir s) as Hs.
  destruct (readVolumeMetadata mddir s) as [[[md|]|err] s'];
    cbn [snd] in Hs; subst s'; try done.
  destruct (String.eqb (GID md) ""); [done|].
  destruct (negb _); [done|].
  destruct (strconv_Atoi (GID md)) as [gid|]; [|done].
  by destruct (gidtable_Allocate gid _) as [[[]|] t].
Qed.

Lemma reclaim_entries_fs f classname entries s :
  fs (reclaim_entries f classname entries s) = fs s.
Proof.
  revert s. induction entries as [|entry entries IH]; intros s; [done|].
  cbn. unfold reclaim_entries in IH. rewrite IH.
  apply reclaim_entry_fs.
Qed.

(** C7: [Reclaim] returns an error when the listing of the base path
    fails, and only then; otherwise it goes through all the entries of
    the listing and never changes the file system.  An entry whose
    metadata cannot be read or is missing, has no GID, another storage
    class, a GID that is no number, or a GID that is in the table
    already, is passed over and the scan goes on: the table at the end
    of the scan is the one of the scan of the listing without that
    entry. *)
Theorem Reclaim_continues f classname s :
  (forall err s',
     ioutil_ReadDir (BasePath f) s = (Err err, s') ->
     Reclaim f classname s = (Err err, s'))
  /\
  (forall entries s',
     ioutil_ReadDir (BasePath f) s = (Ok entries, s') ->
     Reclaim f classname s = (Ok tt, reclaim_entries f classname entries s') /\
     fs (reclaim_entries f classname entries s') = fs s)
  /\
  (forall before entry after st,
     passed_over f classname entry (reclaim_entries f classname before st) ->
     alloc (reclaim_entries f classname (before ++ entry :: after)%list st)
     = alloc (reclaim_entries f classname (before ++ after)%list st)).
Proof.
  split; [|split].
  - intros err s' Hls. unfold Reclaim. by rewrite Hls.
  - intros entries s' Hls. unfold Reclaim. rewrite Hls. split; [done|].
    rewrite reclaim_entries_fs. unfold ioutil_ReadDir in Hls.
    destruct (faults s SysReadDir (BasePath f)); [done|].
    destruct (fs s !! BasePath f) as [[]|]; by inversion Hls.
  - intros before entry after st Hskip. unfold reclaim_entries in *.
    rewrite !fold_left_app. cbn [fold_left].
    set (mid := fold_left _ before st) in *.
    destruct (reclaim_entry_passed_over f classname entry mid Hskip)
      as [Hfs Ha].
    apply (reclaim_entries_same f classname after); [done| |done].
    apply reclaim_entry_fs.
Qed.

End ReclaimProperties.

(** Two directories that claim the GID 2000 for the same class: the GID
    is allocated once, the second directory is passed over with its
    conflict, and the scan ends without error with the GID of the
    directory after them in the table as well. *)
Example Reclaim_conflict :
  let r := Reclaim (newFileSystemReclaimer "/mnt/efs") "efs"
             (Concrete.state_of Concrete.fleet Concrete.no_faults ∅) in
  r.1 = Ok tt /\
  used (alloc r.2) = {[2000; 2003]} /\
  List.filter is_allocate (trace r.2)
    = [EvAllocate 2003; EvAllocate 2000; EvAllocate 2000].
Proof. vm_compute. repeat split. Qed.

(** ** Options and paths *)

Lemma gidAllocateOption_error options e :
  gidAllocateOption options = Err e ->
  exists value key, e = ErrInvalidGidAllocate value key.
Proof.
  unfold gidAllocateOption.
  assert (Hgen : forall l acc,
    (forall e', acc = Err e' -> exists value key, e' = ErrInvalidGidAllocate value key) ->
    fold_left
      (fun acc kv =>
         match acc with
         | Err err => Err err
         | Ok gidAllocate =>
             if String.eqb (strings_ToLower kv.1) "gidallocate" then
               match strconv_ParseBool kv.2 with
               | None => Err (ErrInvalidGidAllocate kv.2 kv.1)
               | Some b => Ok b
               end
             else Ok gidAllocate
         end) l acc = Err e ->
    exists value key, e = ErrInvalidGidAllocate value key).
  { induction l as [|kv l IH]; intros acc Hacc; simpl.
    - apply Hacc.
    - apply IH. intros e'. destruct acc as [b|e0]; [|by apply Hacc].
      destruct (String.eqb _ _); [|done].
      destruct (strconv_ParseBool kv.2); [done|]. intros [= <-]. eauto. }
  apply Hgen. done.
Qed.

Lemma append_nonempty a b : b <> "" -> a +:+ b <> "".
Proof. destruct a; [done|]. simpl. done. Qed.

Lemma path_Clean_nonempty q : path_Clean q <> "".
Proof.
  unfold path_Clean. destruct (String.eqb q ""); [done|].
  destruct (is_rooted q); [done|].
  by destruct (String.eqb_spec (join_slash (clean_elems q)) "").
Qed.

Lemma getDirectoryName_nonempty options dirname :
  getDirectoryName options = Ok dirname -> dirname <> "".
Proof.
  unfold getDirectoryName. destruct (reuseVolumesOption options) as [[]|]; [| |done].
  - intros [= <-]. apply append_nonempty, append_nonempty. done.
  - intros [= <-]. apply append_nonempty. done.
Qed.

Lemma getLocalPath_nonempty p options volumePath :
  getLocalPath p options = Ok volumePath -> volumePath <> "".
Proof.
  unfold getLocalPath. destruct (getDirectoryName options) as [dirname|] eqn:Hd; [|done].
  intros [= <-]. apply getDirectoryName_nonempty in Hd.
  unfold path_Join.
  destruct (String.eqb_spec (mountpoint p) ""); [|apply path_Clean_nonempty].
  destruct (String.eqb_spec dirname ""); [done|apply path_Clean_nonempty].
Qed.

(** ** Creating a volume *)

Section CreateProperties.
Context {A : Type}.
Implicit Types s : state A.

Lemma mkdir_all_ok mask gid p above perm (m m' : gmap string node) :
  mkdir_all mask gid (p :: above) perm m = (None, m') ->
  exists mode g, m' !! p = Some (Dir mode g).
Proof.
  simpl. destruct (m !! p) as [[mode g|mode c]|] eqn:Hp.
  - intros [= <-]. eauto.
  - done.
  - destruct (mkdir_all mask gid above perm m) as [[e|] m'']; [done|].
    unfold mkdir_one. destruct (m'' !! p); [done|].
    intros [= <-]. rewrite lookup_insert_eq. eauto.
Qed.

Lemma os_MkdirAll_ok path perm s s1 :
  os_MkdirAll path perm s = (Ok tt, s1) ->
  path <> "" /\ faults s1 = faults s /\ alloc s1 = alloc s /\
  trace s1 = EvMkdirAll path perm :: trace s /\
  exists mode g, fs s1 !! path = Some (Dir mode g).
Proof.
  unfold os_MkdirAll. destruct (faults s SysMkdirAll path); [done|].
  destruct (String.eqb_spec path "") as [->|Hne]; [done|].
  destruct (mkdir_all _ _ _ _ _) as [[e|] m] eqn:Hm; [done|].
  intros [= <-]. repeat split; try done.
  by apply mkdir_all_ok in Hm.
Qed.

Lemma os_Chmod_state path perm s :
  faults (os_Chmod path perm s).2 = faults s /\
  alloc (os_Chmod path perm s).2 = alloc s /\
  trace (os_Chmod path perm s).2 = EvChmod path perm :: trace s.
Proof.
  unfold os_Chmod. destruct (faults s SysChmod path); [done|].
  by destruct (fs s !! path) as [[]|].
Qed.

Lemma exec_chgrp_state group path s :
  faults (exec_chgrp group path s).2 = faults s /\
  alloc (exec_chgrp group path s).2 = alloc s /\
  trace (exec_chgrp group path s).2 = EvChgrp group path :: trace s.
Proof.
  unfold exec_chgrp. destruct (faults s SysChgrp path); [done|].
  destruct (strconv_ParseUint32 group); [|done].
  by destruct (fs s !! path) as [[]|].
Qed.

Lemma under_refl path : under path path = true.
Proof. unfold under. by rewrite String.eqb_refl. Qed.


Lemma os_RemoveAll_trace path s :
  trace (os_RemoveAll path s).2 = EvRemoveAll path :: trace s /\
  alloc (os_RemoveAll path s).2 = alloc s.
Proof.
  unfold os_RemoveAll. destruct (String.eqb path ""); [done|].
  destruct (endsWithDot path); [done|].
  by destruct (faults s SysRemoveAll path).
Qed.

(** [createVolume] on a directory that exists: it looks for nothing,
    fails only with the error of a failing call, and otherwise sets the
    mode of the directory and, with a GID, its group. *)
Lemma createVolume_existing p path gid s mode g0 :
  path <> "" ->
  fs s !! path = Some (Dir mode g0) ->
  (exists evs, trace (createVolume p path gid s).2 = (evs ++ trace s)%list /\
               Forall (fun ev => is_lookup ev = false) evs) /\
  alloc (createVolume p path gid s).2 = alloc s /\
  (forall e, (createVolume p path gid s).1 = Err e ->
             e = ErrOS EIO \/ e = ErrChgrp path) /\
  (faults s SysMkdirAll path = false -> faults s SysChmod path = false ->
   match gid with
   | None =>
       (createVolume p path gid s).1 = Ok tt /\
       fs (createVolume p path gid s).2 = <[path := Dir perm_0777 g0]> (fs s) /\
       trace (createVolume p path gid s).2
         = EvChmod path perm_0777 :: EvMkdirAll path perm_0777 :: trace s
   | Some g =>
       faults s SysChgrp path = false -> 0 <= g < 2 ^ 32 ->
       (createVolume p path gid s).1 = Ok tt /\
       fs (createVolume p path gid s).2
         = <[path := Dir (volume_perm gid) g]> (fs s) /\
       trace (createVolume p path gid s).2
         = EvChgrp (strconv_Itoa g) path :: EvChmod path (volume_perm gid)
             :: EvMkdirAll path (volume_perm gid) :: trace s
   end).
Proof.
  intros Hne Hdir. apply String.eqb_neq in Hne.
  unfold createVolume, bind, os_MkdirAll. rewrite Hne.
  cbn [mkdir_all]. rewrite Hdir.
  destruct (faults s SysMkdirAll path) eqn:Hf1.
  { cbn. repeat split; try done.
    - exists [EvMkdirAll path (volume_perm gid)]. split; [done|].
      repeat constructor.
    - intros e [= <-]. by left. }
  unfold os_Chmod. cbn [faults log fs set_fs].
  destruct (faults s SysChmod path) eqn:Hf2.
  { cbn [fst snd].
    pose proof (os_RemoveAll_trace path
      (log (EvChmod path (volume_perm gid))
         (set_fs (fs s) (log (EvMkdirAll path (volume_perm gid)) s)))) as [Ht Ha].
    rewrite Ht, Ha. repeat split; try done.
    - exists [EvRemoveAll path; EvChmod path (volume_perm gid);
              EvMkdirAll path (volume_perm gid)].
      split; [done|]. repeat constructor.
    - intros e [= <-]. by left. }
  rewrite Hdir. destruct gid as [g|]; [|cbn; repeat split; try done].
  2:{ exists [EvChmod path perm_0777; EvMkdirAll path perm_0777].
      split; [done|]. repeat constructor. }
  unfold exec_chgrp. cbn [faults log fs set_fs].
  rewrite lookup_insert_eq.
  destruct (faults s SysChgrp path) eqn:Hf3.
  { cbn [fst snd].
    match goal with |- context [os_RemoveAll path ?st] =>
      pose proof (os_RemoveAll_trace path st) as [Ht Ha]; rewrite Ht, Ha end.
    repeat split; try done.
    - eexists [_; _; _; _]. split; [done|]. repeat constructor.
    - intros e [= <-]. by right. }
  destruct (strconv_ParseUint32 (strconv_Itoa g)) as [g'|] eqn:Hg.
  - apply ParseUint32_Itoa_inv in Hg as [-> Hr]. cbn.
    repeat split; try done.
    + eexists [_; _; _]. split; [done|]. repeat constructor.
    + by rewrite insert_insert_eq.
  - cbn [fst snd].
    match goal with |- context [os_RemoveAll path ?st] =>
      pose proof (os_RemoveAll_trace path st) as [Ht Ha]; rewrite Ht, Ha end.
    repeat split; try done.
    + eexists [_; _; _; _]. split; [done|]. repeat constructor.
    + intros e [= <-]. by right.
    + by rewrite ParseUint32_Itoa in Hg.
    + by rewrite ParseUint32_Itoa in Hg.
    + by rewrite ParseUint32_Itoa in Hg.
Qed.


End CreateProperties.



(** ** Provisioning without reuse *)

Section Ephemeral.
Context `{JSON} {A : Type} `{GidAllocator A}.
Implicit Types s : state A.

Lemma getRemotePath_ok p options volumePath :
  getLocalPath p options = Ok volumePath ->
  exists remotePath, getRemotePath p options = Ok remotePath.
Proof.
  unfold getLocalPath, getRemotePath.
  destruct (getDirectoryName options); [by eexists|done].
Qed.

(** C10, as the code has it: a request that does not reuse volumes and
    whose path holds a directory makes no call that looks for the
    directory or at a metadata file, and does not fail with an
    already-exists or file-type error.  When its calls do not fail it
    succeeds and the mode of the directory is overwritten: with [0777]
    when no GID is allocated, and then the group of the directory stays
    as it was; with [0771] and the set-group-ID bit when one is, and
    then the group becomes that GID. *)
Theorem Provision_ephemeral_existing p options s volumePath mode g0 :
  pvc_Selector (PVC options) = None ->
  reuseVolumesOption options = Ok false ->
  getLocalPath p options = Ok volumePath ->
  fs s !! volumePath = Some (Dir mode g0) ->
  (exists evs, trace (Provision p options s).2 = (evs ++ trace s)%list /\
               Forall (fun ev => is_lookup ev = false) evs) /\
  (forall e, (Provision p options s).1 = Err e ->
     kind_of e <> UnexpectedFileType /\
     e <> ErrOS EEXIST /\ e <> ErrOS ENOTDIR) /\
  (faults s SysMkdirAll volumePath = false ->
   faults s SysChmod volumePath = false ->
   (gidAllocateOption options = Ok false ->
    exists pv,
      (Provision p options s).1 = Ok pv /\
      pv_Annotations pv = ∅ /\
      fs (Provision p options s).2
        = <[volumePath := Dir perm_0777 g0]> (fs s)) /\
   (gidAllocateOption options = Ok true ->
    forall g a,
      allocator_AllocateNext options (alloc s) = (inr g, a) ->
      0 <= g < 2 ^ 32 ->
      faults s SysChgrp volumePath = false ->
      exists pv,
        (Provision p options s).1 = Ok pv /\
        pv_Annotations pv !! VolumeGidAnnotationKey = Some (strconv_Itoa g) /\
        fs (Provision p options s).2
          = <[volumePath := Dir (Z.lor perm_0771 ModeSetgid) g]> (fs s))).
Proof.
  intros Hsel Hreuse Hpath Hdir.
  pose proof (getLocalPath_nonempty _ _ _ Hpath) as Hne.
  destruct (getRemotePath_ok _ _ _ Hpath) as [remotePath Hremote].
  unfold Provision. rewrite Hsel, Hpath, Hreuse, Hremote.
  unfold bind, lift, ret. cbn [fst snd].
  destruct (gidAllocateOption options) as [[]|e0] eqn:Hga.
  - (* a GID is allocated *)
    unfold AllocateNext.
    destruct (allocator_AllocateNext options (alloc s)) as [[msg|g] a] eqn:Hal.
    { cbn. split; [|split].
      - exists [EvAllocateNext]. split; [done|]. repeat constructor.
      - by intros e [= <-].
      - intros _ _. split; [done|]. intros _ g a' [=]. }
    set (s1 := set_alloc a (log EvAllocateNext s)).
    destruct (createVolume_existing p volumePath (Some g) s1 mode g0 Hne Hdir)
      as ((evs & Hevs & Hlook) & _ & Herr & Hok).
    destruct (createVolume p volumePath (Some g) s1) as [[[]|e1] s2];
      cbn [fst snd] in *.
    + split; [|split].
      * exists (evs ++ [EvAllocateNext])%list. split.
        { rewrite Hevs. by rewrite <- app_assoc. }
        apply Forall_app. split; [done|]. repeat constructor.
      * done.
      * intros Hf1 Hf2. split; [done|]. intros _ g' a' [= <- <-] Hr Hf3.
        destruct (Hok Hf1 Hf2 Hf3 Hr) as (_ & Hfs & _).
        eexists. split; [done|]. split; [apply lookup_singleton_eq|done].
    + split; [|split].
      * exists (evs ++ [EvAllocateNext])%list. split.
        { rewrite Hevs. by rewrite <- app_assoc. }
        apply Forall_app. split; [done|]. repeat constructor.
      * intros e [= <-]. by destruct (Herr e1 eq_refl) as [->| ->].
      * intros Hf1 Hf2. split; [done|]. intros _ g' a' [= <- <-] Hr Hf3.
        by destruct (Hok Hf1 Hf2 Hf3 Hr) as (? & _).
  - (* no GID *)
    destruct (createVolume_existing p volumePath None s mode g0 Hne Hdir)
      as ((evs & Hevs & Hlook) & _ & Herr & Hok).
    destruct (createVolume p volumePath None s) as [[[]|e1] s2];
      cbn [fst snd] in *.
    + split; [by exists evs|]. split; [done|].
      intros Hf1 Hf2. split; [|done]. intros _.
      destruct (Hok Hf1 Hf2) as (_ & Hfs & _). by eexists.
    + split; [by exists evs|]. split.
      * intros e [= <-]. by destruct (Herr e1 eq_refl) as [->| ->].
      * intros Hf1 Hf2. by destruct (Hok Hf1 Hf2) as (? & _).
  - cbn. split; [|split].
    + by exists [].
    + intros e [= <-].
      by destruct (gidAllocateOption_error _ _ Hga) as (v & k & ->).
    + done.
Qed.
End Ephemeral.

Lemma Provision_ephemeral_existing_witness :
  let s := Concrete.s_ephemeral Concrete.ephemeral_options in
  exists pv,
    (Provision Concrete.provisioner Concrete.ephemeral_options s).1 = Ok pv /\
    pv_Annotations pv !! VolumeGidAnnotationKey = Some (strconv_Itoa 2000) /\
    fs (Provision Concrete.provisioner Concrete.ephemeral_options s).2
      = <[Concrete.ephemeral_dir := Dir (Z.lor perm_0771 ModeSetgid) 2000]>
          (fs s).
Proof.
  intros s.
  pose proof (Provision_ephemeral_existing Concrete.provisioner
                Concrete.ephemeral_options s Concrete.ephemeral_dir 493 1234
                eq_refl eq_refl eq_refl eq_refl) as (_ & _ & Hok).
  destruct (Hok eq_refl eq_refl) as [_ Hgid].
  apply (Hgid eq_refl 2000 (Concrete.table {[2000]})); [reflexivity|lia|reflexivity].
Defined.

(** C10, as the claim has it, fails: with the parameter gidAllocate set
    to false the request succeeds on the directory that exists and
    overwrites its mode, and the group of the directory stays as it
    was. *)
Lemma Provision_ephemeral_keeps_group :
  let s := Concrete.s_ephemeral Concrete.ephemeral_no_gid in
  let r := Provision Concrete.provisioner Concrete.ephemeral_no_gid s in
  fs s !! Concrete.ephemeral_dir = Some (Dir 493 1234) /\
  (exists pv, r.1 = Ok pv) /\
  fs r.2 !! Concrete.ephemeral_dir = Some (Dir perm_0777 1234).
Proof. vm_compute. repeat split. by eexists. Qed.

(** ** Provisioning the same claim twice *)

Section Twice.
Context `{JSON} {A : Type} `{GidAllocator A}.
Implicit Types s : state A.

Lemma volumeExists_inv path s b g s' :
  volumeExists path s = (Ok (b, g), s') ->
  s' = log (EvStat path) s /\
  if b then exists mode, fs s !! path = Some (Dir mode g)
  else True.
Proof.
  unfold volumeExists, os_Stat. destruct (faults s SysStat path).
  { cbn. done. }
  destruct (fs s !! path) as [[mode g'|mode c]|]; cbn.
  - intros [= <- <- <-]. eauto.
  - done.
  - by intros [= <- <- <-].
Qed.

Lemma createVolume_ok p path gid s s' :
  createVolume p path gid s = (Ok tt, s') ->
  exists mode gd,
    fs s' !! path = Some (Dir mode gd) /\
    forall g, gid = Some g -> gd = g /\ 0 <= g < 2 ^ 32.
Proof.
  unfold createVolume, bind.
  destruct (os_MkdirAll path (volume_perm gid) s) as [[[]|e1] s1] eqn:Hmk;
    [|done].
  destruct (os_MkdirAll_ok _ _ _ _ Hmk) as (_ & _ & _ & _ & mode & g0 & Hdir).
  unfold os_Chmod. destruct (faults s1 SysChmod path); [done|].
  rewrite Hdir. destruct gid as [g|].
  - unfold exec_chgrp. cbn [faults log fs set_fs].
    destruct (faults s1 SysChgrp path); [done|].
    rewrite lookup_insert_eq.
    destruct (strconv_ParseUint32 (strconv_Itoa g)) as [g'|] eqn:Hg; [|done].
    apply ParseUint32_Itoa_inv in Hg as [-> Hr].
    intros [= <-]. cbn. rewrite lookup_insert_eq.
    eexists _, _. split; [done|]. by intros ? [= <-].
  - intros [= <-]. cbn. rewrite lookup_insert_eq.
    eexists _, _. split; [done|]. done.
Qed.

Lemma writeVolumeMetadata_keeps_dir dir md path s mode g :
  fs s !! path = Some (Dir mode g) ->
  fs (writeVolumeMetadata dir md s).2 !! path = Some (Dir mode g).
Proof.
  intros Hdir. unfold writeVolumeMetadata.
  destruct (json_MarshalIndent md) as [c|]; [|done].
  unfold ioutil_WriteFile. generalize (getMetaDataPath dir). intros mdpath.
  destruct (faults s SysWriteFile mdpath); [done|].
  destruct (fs s !! mdpath) as [[m g'|m c']|] eqn:Hmd; [done| |].
  - cbn. rewrite lookup_insert_ne; [done|]. intros Heq. congruence.
  - assert (Hne : mdpath <> path) by (intros Heq; congruence).
    destruct (parent_paths mdpath) as [|d ?].
    { cbn. by rewrite lookup_insert_ne. }
    destruct (fs s !! d) as [[]|]; cbn; try done.
    by rewrite lookup_insert_ne.
Qed.

Lemma validate_ok_inv options md volumePath existingGid :
  validatePreexistingVolume options (Some md) volumePath existingGid = Ok tt ->
  String.eqb (GID md) "" = false -> 0 <= existingGid < 2 ^ 32.
Proof.
  unfold validatePreexistingVolume.
  destruct (negb _); [done|]. destruct (_ || _); [done|].
  intros Hv Hne. rewrite Hne in Hv. cbn in Hv.
  destruct (existingGid =? default 0 (GidAsUInt md)) eqn:Heq; [|done].
  apply Z.eqb_eq in Heq. rewrite Heq. unfold GidAsUInt.
  destruct (strconv_ParseUint32 (GID md)) eqn:Hp; cbn.
  - by apply ParseUint32_range in Hp.
  - lia.
Qed.

(** What a successful reuse-mode request leaves behind. *)
Lemma Provision_reuse_inv p options s pv1 s1 volumePath :
  reuseVolumesOption options = Ok true ->
  getLocalPath p options = Ok volumePath ->
  Provision p options s = (Ok pv1, s1) ->
  pvc_Selector (PVC options) = None /\
  exists gid remotePath,
    getRemotePath p options = Ok remotePath /\
    pv_NFS pv1 = {| Server := dnsName p; Path := remotePath;
                    ReadOnly := false |} /\
    pv_Annotations pv1 =
      match gid with
      | Some g => {[ VolumeGidAnnotationKey := strconv_Itoa g ]}
      | None => ∅
      end /\
    exists mode gd,
      fs s1 !! volumePath = Some (Dir mode gd) /\
      forall g, gid = Some g -> gd = g /\ 0 <= g < 2 ^ 32.
Proof.
  intros Hreuse Hpath. unfold Provision.
  destruct (pvc_Selector (PVC options)); [done|].
  destruct (getRemotePath_ok _ _ _ Hpath) as [remotePath Hremote].
  rewrite Hpath, Hreuse, Hremote. unfold bind, lift, ret. cbn [fst snd].
  destruct (volumeExists volumePath s) as [[[b eg]|e0] sa] eqn:Hex; [|done].
  apply volumeExists_inv in Hex as [-> Hb]. cbn [fst snd].
  destruct b.
  - destruct Hb as [mode Hdir].
    pose proof (readVolumeMetadata_state volumePath (log (EvStat volumePath) s))
      as Hst.
    destruct (readVolumeMetadata volumePath (log (EvStat volumePath) s))
      as [[md|e1] sb]; [|done]. cbn [snd] in Hst. subst sb.
    destruct (validatePreexistingVolume options md volumePath eg)
      as [[]|e2] eqn:Hval; [|done].
    destruct md as [md|]; [|done].
    destruct (String.eqb (GID md) "") eqn:Hg; cbn [negb].
    + intros [= <- <-]. split; [done|]. exists None, remotePath.
      repeat split; try done. exists mode, eg. split; [done|]. done.
    + destruct (strconv_Atoi (GID md)) as [n|]; [|done].
      destruct (eg =? n); [|done]. intros [= <- <-]. split; [done|].
      exists (Some eg), remotePath. repeat split; try done.
      exists mode, eg. split; [done|]. intros g [= <-]. split; [done|].
      by apply (validate_ok_inv _ _ _ _ Hval).
  - destruct (gidAllocateOption options) as [ga|e1]; [|done].
    set (alloc_step := if ga then _ else _).
    destruct (alloc_step (log (EvStat volumePath) s)) as [[gid|e2] sb]; [|done].
    destruct (createVolume p volumePath gid sb) as [[[]|e3] sc] eqn:Hcv; [|done].
    apply createVolume_ok in Hcv as (mode & gd & Hdir & Hgid).
    unfold ignore_error. cbn [fst snd].
    intros [= <- <-]. split; [done|]. exists gid, remotePath.
    repeat split; try done. exists mode, gd. split; [|done].
    by apply writeVolumeMetadata_keeps_dir.
Qed.

(** A reuse-mode request on a directory whose metadata is that of the
    claim and whose recorded GID, if there is one, is its group. *)
Lemma Provision_reuse_ok
    p options s volumePath remotePath mode existingGid fmode content md :
  pvc_Selector (PVC options) = None ->
  reuseVolumesOption options = Ok true ->
  getLocalPath p options = Ok volumePath ->
  getRemotePath p options = Ok remotePath ->
  faults s SysStat volumePath = false ->
  fs s !! volumePath = Some (Dir mode existingGid) ->
  faults s SysReadFile (getMetaDataPath volumePath) = false ->
  fs s !! getMetaDataPath volumePath = Some (File fmode content) ->
  json_Unmarshal content = Some md ->
  StorageClassName md = GetPersistentVolumeClaimClass (PVC options) ->
  PVCName md = pvc_Name (PVC options) ->
  PVCNamespace md = pvc_Namespace (PVC options) ->
  GID md = "" \/ GidAsUInt md = Some existingGid ->
  exists pv,
    Provision p options s = (Ok pv, inspected volumePath s) /\
    pv_NFS pv = {| Server := dnsName p; Path := remotePath;
                   ReadOnly := false |} /\
    pv_Annotations pv =
      if String.eqb (GID md) "" then ∅
      else {[ VolumeGidAnnotationKey := strconv_Itoa existingGid ]}.
Proof.
  intros Hsel Hreuse Hpath Hremote Hstat Hdir Hfault Hfile Hjson
    Hclass Hname Hns Hgid.
  assert (Hread : readVolumeMetadata volumePath (log (EvStat volumePath) s)
                  = (Ok (Some md), inspected volumePath s)).
  { rewrite (readVolumeMetadata_file _ _ fmode content) by done.
    by rewrite Hjson. }
  unfold Provision. rewrite Hsel, Hpath, Hreuse, Hremote.
  unfold bind, lift, ret. cbn [fst snd].
  rewrite (volumeExists_dir _ _ _ _ Hstat Hdir). cbn [fst snd].
  rewrite Hread. unfold validatePreexistingVolume.
  rewrite Hclass, Hname, Hns, !String.eqb_refl. cbn [negb orb].
  destruct (String.eqb_spec (GID md) "") as [Hempty|Hne]; cbn [negb].
  - eexists. split; [done|]. done.
  - destruct Hgid as [?|Hgid]; [done|].
    rewrite Hgid. cbn [default]. rewrite Z.eqb_refl. cbn [negb].
    rewrite (ParseUint32_Atoi _ _ Hgid), Z.eqb_refl.
    eexists. split; [done|]. done.
Qed.

Lemma getLocalPath_same_claim p options options' :
  PVC options' = PVC options ->
  Parameters options' = Parameters options ->
  reuseVolumesOption options = Ok true ->
  reuseVolumesOption options' = Ok true /\
  getLocalPath p options' = getLocalPath p options /\
  getRemotePath p options' = getRemotePath p options.
Proof.
  intros Hpvc Hpar Hreuse.
  assert (Hreuse' : reuseVolumesOption options' = Ok true).
  { unfold reuseVolumesOption in *. by rewrite Hpar. }
  split; [done|].
  unfold getLocalPath, getRemotePath, getDirectoryName.
  by rewrite Hreuse, Hreuse', Hpvc, Hpar.
Qed.

(** The second request succeeds when the status of the directory and
    the metadata file can be read and the file holds the record of the
    claim. *)
Lemma Provision_again_ok
    p options options' s pv1 s1 s1' volumePath fmode content :
  PVC options' = PVC options ->
  Parameters options' = Parameters options ->
  reuseVolumesOption options = Ok true ->
  getLocalPath p options = Ok volumePath ->
  Provision p options s = (Ok pv1, s1) ->
  fs s1' = fs s1 ->
  faults s1' SysStat volumePath = false ->
  faults s1' SysReadFile (getMetaDataPath volumePath) = false ->
  fs s1 !! getMetaDataPath volumePath = Some (File fmode content) ->
  json_Unmarshal content =
    Some (claimMetadata options
            (default "" (pv_Annotations pv1 !! VolumeGidAnnotationKey))) ->
  getLocalPath p options' = Ok volumePath /\
  exists pv2 s2,
    Provision p options' s1' = (Ok pv2, s2) /\
    pv_NFS pv2 = pv_NFS pv1 /\
    pv_Annotations pv2 = pv_Annotations pv1 /\
    fs s2 = fs s1' /\ alloc s2 = alloc s1' /\
    trace s2 = EvReadFile (getMetaDataPath volumePath)
                 :: EvStat volumePath :: trace s1' /\
    List.filter is_change (trace s2) = List.filter is_change (trace s1').
Proof.
  intros Hpvc Hpar Hreuse Hpath Hfirst Hfs Hstat Hfault Hfile Hjson.
  destruct (getLocalPath_same_claim p _ _ Hpvc Hpar Hreuse)
    as (Hreuse' & Hpath' & Hremote').
  rewrite Hpath in Hpath'. split; [done|].
  destruct (Provision_reuse_inv _ _ _ _ _ _ Hreuse Hpath Hfirst)
    as (Hsel & gid & remotePath & Hremote & Hnfs & Hann & mode & gd
        & Hdir & Hgid).
  rewrite Hremote in Hremote'.
  rewrite <- Hfs in Hdir, Hfile. rewrite <- Hpvc in Hsel.
  set (md := claimMetadata options
               (default "" (pv_Annotations pv1 !! VolumeGidAnnotationKey)))
    in *.
  assert (Hmd : GID md = "" /\ gid = None
                \/ exists g, gid = Some g /\ GID md = strconv_Itoa g).
  { subst md. rewrite Hann. destruct gid as [g|].
    - right. exists g. split; [done|]. unfold claimMetadata. cbn [GID].
      by rewrite lookup_singleton_eq.
    - left. split; [|done]. unfold claimMetadata. cbn [GID].
      by rewrite lookup_empty. }
  destruct (Provision_reuse_ok p options' s1' volumePath remotePath mode gd
              fmode content md) as (pv2 & Hsecond & Hnfs2 & Hann2);
    try done.
  - by rewrite Hpvc.
  - by rewrite Hpvc.
  - by rewrite Hpvc.
  - destruct Hmd as [[? _]|(g & -> & Hg)]; [by left|right].
    destruct (Hgid g eq_refl) as [-> Hr]. unfold GidAsUInt. rewrite Hg.
    by apply ParseUint32_Itoa.
  - exists pv2, (inspected volumePath s1'). split; [done|].
    split; [by rewrite Hnfs, Hnfs2|]. split; [|done].
    rewrite Hann2, Hann.
    destruct Hmd as [[-> ->]|(g & -> & Hg)]; [done|].
    destruct (Hgid g eq_refl) as [-> Hr]. rewrite Hg.
    by rewrite (Itoa_nonempty g g) by (by apply ParseUint32_Itoa).
Qed.

(** A reuse-mode request on a directory that exists, whatever comes of
    it, changes nothing and returns no other remote path than that of
    the claim. *)
Lemma Provision_reuse_readonly
    p options s volumePath remotePath mode g r s2 :
  reuseVolumesOption options = Ok true ->
  getLocalPath p options = Ok volumePath ->
  getRemotePath p options = Ok remotePath ->
  fs s !! volumePath = Some (Dir mode g) ->
  Provision p options s = (r, s2) ->
  fs s2 = fs s /\ alloc s2 = alloc s /\
  List.filter is_change (trace s2) = List.filter is_change (trace s) /\
  forall pv, r = Ok pv ->
    pv_NFS pv = {| Server := dnsName p; Path := remotePath;
                   ReadOnly := false |}.
Proof.
  intros Hreuse Hpath Hremote Hdir. unfold Provision.
  destruct (pvc_Selector (PVC options)); [by intros [= <- <-]|].
  rewrite Hpath, Hreuse, Hremote. unfold bind, lift, ret. cbn [fst snd].
  unfold volumeExists, os_Stat.
  destruct (faults s SysStat volumePath); [by intros [= <- <-]|].
  rewrite Hdir. cbn [fst snd].
  pose proof (readVolumeMetadata_state volumePath (log (EvStat volumePath) s))
    as Hst.
  destruct (readVolumeMetadata volumePath (log (EvStat volumePath) s))
    as [[md|e1] sb]; cbn [snd] in Hst; subst sb; [|by intros [= <- <-]].
  destruct (validatePreexistingVolume options md volumePath g) as [[]|e2];
    [|by intros [= <- <-]].
  destruct md as [md|]; [|by intros [= <- <-]].
  destruct (negb (String.eqb (GID md) "")).
  - destruct (strconv_Atoi (GID md)) as [n|]; [|by intros [= <- <-]].
    destruct (g =? n); [|by intros [= <- <-]].
    intros [= <- <-]. repeat split; try done. by intros pv [= <-].
  - intros [= <- <-]. repeat split; try done. by intros pv [= <-].
Qed.

(** X29: a request in reuse mode that [Provision] has answered with a
    volume, and a second request with the same claim and parameters on
    the file system that the first has left.  The local path is the
    same; whatever comes of the second call, it makes no directory,
    allocates no GID
    and writes no metadata (it changes neither the file system nor the
    allocator), and a volume that it returns has the remote path of the
    first.  It does return one, with the same GID, after reading only
    the status of the directory and its metadata file, when these two
    reads do not fail and the metadata file holds the record of the
    claim. *)
Theorem Provision_twice p options options' s pv1 s1 s1' volumePath :
  PVC options' = PVC options ->
  Parameters options' = Parameters options ->
  reuseVolumesOption options = Ok true ->
  getLocalPath p options = Ok volumePath ->
  Provision p options s = (Ok pv1, s1) ->
  fs s1' = fs s1 ->
  getLocalPath p options' = Ok volumePath /\
  (forall r s2,
     Provision p options' s1' = (r, s2) ->
     fs s2 = fs s1' /\ alloc s2 = alloc s1' /\
     List.filter is_change (trace s2) = List.filter is_change (trace s1') /\
     forall pv2, r = Ok pv2 -> pv_NFS pv2 = pv_NFS pv1)
  /\
  (forall fmode content,
     faults s1' SysStat volumePath = false ->
     faults s1' SysReadFile (getMetaDataPath volumePath) = false ->
     fs s1 !! getMetaDataPath volumePath = Some (File fmode content) ->
     json_Unmarshal content =
       Some (claimMetadata options
               (default "" (pv_Annotations pv1 !! VolumeGidAnnotationKey))) ->
     exists pv2 s2,
       Provision p options' s1' = (Ok pv2, s2) /\
       pv_NFS pv2 = pv_NFS pv1 /\
       pv_Annotations pv2 = pv_Annotations pv1 /\
       trace s2 = EvReadFile (getMetaDataPath volumePath)
                    :: EvStat volumePath :: trace s1').
Proof.
  intros Hpvc Hpar Hreuse Hpath Hfirst Hfs.
  destruct (getLocalPath_same_claim p _ _ Hpvc Hpar Hreuse)
    as (Hreuse' & Hpath' & Hremote').
  rewrite Hpath in Hpath'. split; [done|]. split.
  - intros r s2 Hsecond.
    destruct (Provision_reuse_inv _ _ _ _ _ _ Hreuse Hpath Hfirst)
      as (_ & gid & remotePath & Hremote & Hnfs & _ & mode & gd & Hdir & _).
    rewrite Hremote in Hremote'. rewrite <- Hfs in Hdir. rewrite Hnfs.
    by apply (Provision_reuse_readonly p options' s1' volumePath remotePath
                mode gd r s2).
  - intros fmode content Hstat Hfault Hfile Hjson.
    destruct (Provision_again_ok p options options' s pv1 s1 s1' volumePath
                fmode content) as (_ & pv2 & s2 & Hsecond & ? & ? & _ & _ & ? & _);
      try done.
    by exists pv2, s2.
Qed.

End Twice.

Lemma Provision_twice_witness :
  Provision Concrete.provisioner Concrete.reuse_options Concrete.s_fresh
    = (Ok Concrete.first_volume, Concrete.s_first) /\
  getLocalPath Concrete.provisioner Concrete.reuse_options
    = Ok Concrete.claim_dir /\
  (forall r s2,
     Provision Concrete.provisioner Concrete.reuse_options Concrete.s_first
       = (r, s2) ->
     fs s2 = fs Concrete.s_first /\ alloc s2 = alloc Concrete.s_first /\
     List.filter is_change (trace s2)
       = List.filter is_change (trace Concrete.s_first) /\
     forall pv2, r = Ok pv2 -> pv_NFS pv2 = pv_NFS Concrete.first_volume) /\
  exists pv2 s2,
    Provision Concrete.provisioner Concrete.reuse_options Concrete.s_first
      = (Ok pv2, s2) /\
    pv_NFS pv2 = pv_NFS Concrete.first_volume /\
    pv_Annotations pv2 = pv_Annotations Concrete.first_volume /\
    trace s2 = EvReadFile (getMetaDataPath Concrete.claim_dir)
                 :: EvStat Concrete.claim_dir :: trace Concrete.s_first.
Proof.
  assert (Hfirst : Provision Concrete.provisioner Concrete.reuse_options
                     Concrete.s_fresh
                   = (Ok Concrete.first_volume, Concrete.s_first))
    by (vm_compute; reflexivity).
  split; [exact Hfirst|].
  destruct (Provision_twice Concrete.provisioner Concrete.reuse_options
              Concrete.reuse_options Concrete.s_fresh Concrete.first_volume
              Concrete.s_first Concrete.s_first Concrete.claim_dir
              eq_refl eq_refl eq_refl eq_refl Hfirst eq_refl)
    as (Hpath & Hany & Hok).
  split; [exact Hpath|]. split; [exact Hany|].
  apply (Hok perm_0600 (default "" (Concrete.marshal Concrete.md_claim_a)));
    vm_compute; reflexivity.
Defined.

(** C8 fails on the code: a first request for [claim_a] whose metadata
    write fails is answered with the volume all the same (the defect of
    C2), and the directory is left without a metadata file.  The same
    claim provisioned again, with nothing deleted in between and with no
    call failing any more, is refused for the missing metadata, under
    the same volume name and under another: the second call yields no
    paths at all. *)
Lemma Provision_twice_lost_metadata :
  let first := Provision Concrete.provisioner Concrete.reuse_options
                 Concrete.s_write_fails in
  let healthy : state MinMaxAllocator :=
    State (fs first.2) Concrete.no_faults (umask first.2) (egid first.2)
      (alloc first.2) (trace first.2) in
  first.1 = Ok Concrete.first_volume /\
  getLocalPath Concrete.provisioner Concrete.reuse_options
    = Ok Concrete.claim_dir /\
  Path (pv_NFS Concrete.first_volume) = "/export/claim-a-ns1" /\
  fs first.2 !! Concrete.claim_dir = Some (Dir (volume_perm (Some 2000)) 2000) /\
  fs first.2 !! getMetaDataPath Concrete.claim_dir = None /\
  (Provision Concrete.provisioner Concrete.reuse_options healthy).1
    = Err (ErrNoMetadata Concrete.claim_dir) /\
  PVC Concrete.second_options = PVC Concrete.reuse_options /\
  (Provision Concrete.provisioner Concrete.second_options healthy).1
    = Err (ErrNoMetadata Concrete.claim_dir) /\
  kind_of (ErrNoMetadata Concrete.claim_dir) = MissingMetadata.
Proof. vm_compute. repeat split. Qed.

(** ** Deleting a volume *)

Section DeleteProperties.
Context `{JSON} {A : Type} `{GidAllocator A}.
Implicit Types s : state A.

(** When the release of the GID has gone through, a volume of another
    server, or one whose path does not start with the exported root, is
    refused with a path-mismatch error before any removal. *)
Lemma Delete_path_mismatch p volume s a :
  allocator_Release volume (alloc s) = (None, a) ->
  Server (pv_NFS volume) <> dnsName p
  \/ strings_HasPrefix (Path (pv_NFS volume)) (sourcePath p) = false ->
  exists e,
    Delete p volume s = (Err e, set_alloc a (log EvRelease s)) /\
    kind_of e = PathMismatch.
Proof.
  intros Hrel Hforeign. unfold Delete, bind, Release, lift. rewrite Hrel.
  unfold getLocalPathToDelete.
  destruct (String.eqb_spec (Server (pv_NFS volume)) (dnsName p)) as [Hs|Hs];
    cbn [negb]; [|by eexists].
  destruct Hforeign as [?|Hpre]; [done|]. rewrite Hpre. by eexists.
Qed.

End DeleteProperties.

(** C1 fails on the code: the path [/export2/claim-b-ns1] is not below
    the exported root [/export], but it starts with its letters;
    [Delete] does not fail, and removes the directory [2/claim-b-ns1] of
    the mount and what is in it. *)
Lemma Delete_sibling_export :
  let volume := Concrete.foreign_volume in
  let s := Concrete.s_sibling in
  let r := Delete Concrete.provisioner volume s in
  Server (pv_NFS volume) = dnsName Concrete.provisioner /\
  sourcePath Concrete.provisioner = "/export" /\
  under "/export" (Path (pv_NFS volume)) = false /\
  r.1 = Ok tt /\
  head (trace r.2) = Some (EvRemoveAll "/mnt/efs/2/claim-b-ns1") /\
  fs s !! "/mnt/efs/2/claim-b-ns1" = Some (Dir 511 0) /\
  fs s !! "/mnt/efs/2/claim-b-ns1/data" = Some (File 420 "x") /\
  fs r.2 !! "/mnt/efs/2/claim-b-ns1" = None /\
  fs r.2 !! "/mnt/efs/2/claim-b-ns1/data" = None.
Proof. vm_compute. repeat split. Qed.

(** ** Writing the metadata *)

Section WriteProperties.
Context `{JSON} {A : Type} `{GidAllocator A}.
Implicit Types s : state A.

(** [writeVolumeMetadata] itself returns the error of a failing write. *)
Lemma writeVolumeMetadata_fails dir md s contents :
  json_MarshalIndent md = Some contents ->
  faults s SysWriteFile (getMetaDataPath dir) = true ->
  (writeVolumeMetadata dir md s).1 = Err (ErrOS EIO).
Proof.
  intros Hm Hf. unfold writeVolumeMetadata, ioutil_WriteFile.
  by rewrite Hm, Hf.
Qed.

(** A reuse-mode request that makes its directory returns the volume
    whatever [writeVolumeMetadata] returns. *)
Lemma Provision_write_result_dropped
    p options s volumePath remotePath gidAllocate gid s2 s3 :
  pvc_Selector (PVC options) = None ->
  reuseVolumesOption options = Ok true ->
  getLocalPath p options = Ok volumePath ->
  getRemotePath p options = Ok remotePath ->
  faults s SysStat volumePath = false ->
  fs s !! volumePath = None ->
  gidAllocateOption options = Ok gidAllocate ->
  (if gidAllocate
   then exists g, gid = Some g /\
          AllocateNext options (log (EvStat volumePath) s) = (Ok g, s2)
   else gid = None /\ s2 = log (EvStat volumePath) s) ->
  createVolume p volumePath gid s2 = (Ok tt, s3) ->
  exists pv,
    Provision p options s =
      (Ok pv,
       (writeVolumeMetadata volumePath
          (claimMetadata options
             match gid with Some g => strconv_Itoa g | None => "" end)
          s3).2).
Proof.
  intros Hsel Hreuse Hpath Hremote Hstat Hnone Hga Hgid Hcreate.
  unfold Provision. rewrite Hsel, Hpath, Hreuse, Hremote.
  unfold bind, lift, ret. cbn [fst snd].
  rewrite (volumeExists_absent _ _ Hstat Hnone). cbn [fst snd].
  rewrite Hga. destruct gidAllocate.
  - destruct Hgid as (g & -> & Hal). rewrite Hal, Hcreate.
    unfold ignore_error. by eexists.
  - destruct Hgid as [-> ->]. rewrite Hcreate.
    unfold ignore_error. by eexists.
Qed.

End WriteProperties.

(** C2 fails on the code: [writeVolumeMetadata] returns the error of a
    failing write, and [Provision] does not look at it: the request
    succeeds, the directory is there without a metadata file, and the
    next request of the same claim is refused for the missing
    metadata. *)
Lemma Provision_drops_write_error :
  let s := Concrete.s_write_fails in
  let r := Provision Concrete.provisioner Concrete.reuse_options s in
  (writeVolumeMetadata Concrete.claim_dir Concrete.md_claim_a s).1
    = Err (ErrOS EIO) /\
  r.1 = Ok Concrete.first_volume /\
  head (trace r.2) =
    Some (EvWriteFile (getMetaDataPath Concrete.claim_dir)
            (default "" (Concrete.marshal Concrete.md_claim_a)) perm_0600) /\
  fs r.2 !! Concrete.claim_dir = Some (Dir (volume_perm (Some 2000)) 2000) /\
  fs r.2 !! getMetaDataPath Concrete.claim_dir = None /\
  (Provision Concrete.provisioner Concrete.reuse_options r.2).1
    = Err (ErrNoMetadata Concrete.claim_dir).
Proof. vm_compute. repeat split. Qed.

(** * Further properties *)

(** ** Cleaned paths *)

Lemma split_slash_nonnil s : split_slash s <> [].
Proof. destruct s as [|c s]; [done|]. simpl. destruct (Ascii.eqb c "/"); [done|]. by destruct (split_slash s). Qed.

Lemma split_slash_app' a b :
  split_slash (a +:+ String "/" b) = (split_slash a ++ split_slash b)%list.
Proof.
  induction a as [|c a IH]; [done|]. simpl.
  rewrite IH. destruct (Ascii.eqb c "/"); [done|].
  pose proof (split_slash_nonnil a). by destruct (split_slash a).
Qed.

Lemma split_slash_app a b :
  split_slash (a +:+ "/" +:+ b) = (split_slash a ++ split_slash b)%list.
Proof. apply split_slash_app'. Qed.

Lemma join_split s : join_slash (split_slash s) = s.
Proof.
  induction s as [|c s IH]; [done|]. cbn [split_slash].
  destruct (Ascii.eqb_spec c "/") as [->|Hc].
  - pose proof (split_slash_nonnil s). simpl.
    destruct (split_slash s) eqn:E; [done|]. by rewrite IH.
  - pose proof (split_slash_nonnil s).
    destruct (split_slash s) as [|h t] eqn:E; [done|].
    destruct t; simpl in *; by rewrite <- IH.
Qed.

Lemma split_slash_elems s : Forall slash_free (split_slash s).
Proof.
  induction s as [|c s IH]; [by repeat constructor|]. cbn [split_slash].
  destruct (Ascii.eqb_spec c "/") as [->|Hc].
  - by constructor.
  - pose proof (split_slash_nonnil s).
    destruct (split_slash s) as [|h t]; [done|].
    inversion IH as [|?? Hh Ht]; subst. constructor; [|done].
    unfold slash_free in *. cbn [split_slash].
    apply Ascii.eqb_neq in Hc. by rewrite Hc, Hh.
Qed.

Lemma split_join l :
  l <> [] -> Forall slash_free l -> split_slash (join_slash l) = l.
Proof.
  induction l as [|x l IH]; [done|]. intros _ Hl.
  inversion Hl as [|?? Hx Hl']; subst.
  destruct l as [|y l]; [done|].
  change (join_slash (x :: y :: l)) with (x +:+ "/" +:+ join_slash (y :: l)).
  rewrite split_slash_app, Hx, IH; done.
Qed.

Lemma is_name_spec e :
  is_name e = true <->
  e <> "" /\ e <> "." /\ e <> ".." /\ slash_free e.
Proof.
  unfold is_name, slash_free.
  rewrite !andb_true_iff, !negb_true_iff, !String.eqb_neq, bool_decide_eq_true.
  tauto.
Qed.

Lemma clean_step_name rooted out e :
  is_name e = true -> clean_step rooted out e = e :: out.
Proof.
  intros (H1 & H2 & H3 & _)%is_name_spec. unfold clean_step.
  apply String.eqb_neq in H1, H2, H3. by rewrite H1, H2, H3.
Qed.

Lemma clean_fold_names rooted names out :
  Forall (fun e => is_name e = true) names ->
  fold_left (clean_step rooted) names out = (rev names ++ out)%list.
Proof.
  revert out. induction names as [|e names IH]; intros out Hn; [done|].
  inversion Hn; subst. cbn [fold_left]. rewrite clean_step_name by done.
  rewrite IH by done. cbn [rev]. by rewrite <- app_assoc.
Qed.

Lemma rev_replicate {X} n (x : X) : rev (replicate n x) = replicate n x.
Proof.
  induction n as [|n IH]; [done|]. cbn [replicate rev]. rewrite IH.
  symmetry. apply replicate_cons_app.
Qed.

Lemma cleaned_nil rooted : cleaned rooted [].
Proof. exists 0%nat, []. done. Qed.

Lemma clean_step_cleaned rooted out e :
  slash_free e -> cleaned rooted (rev out) ->
  cleaned rooted (rev (clean_step rooted out e)).
Proof.
  intros He (n & names & Hout & Hn & Hr). unfold clean_step.
  destruct (String.eqb_spec e ""); [by exists n, names|].
  destruct (String.eqb_spec e "."); [by exists n, names|].
  destruct (String.eqb_spec e "..") as [->|Hdd].
  - destruct out as [|top below].
    + destruct rooted; [by exists n, names|].
      exists 1%nat, []. done.
    + cbn [rev] in Hout.
      destruct names as [|x names _] using rev_ind.
      * (* the output is all dots *)
        rewrite app_nil_r in Hout.
        destruct n as [|n]; [by destruct (rev below)|].
        rewrite replicate_S_end in Hout.
        apply app_inj_tail in Hout as [Hb ->]. cbn.
        exists (S (S n)), []. rewrite app_nil_r. repeat split; [|done|].
        -- rewrite Hb. by rewrite <- !replicate_S_end.
        -- intros Hroot. by specialize (Hr Hroot).
      * rewrite app_assoc in Hout. apply app_inj_tail in Hout as [Hb ->].
        apply Forall_app in Hn as [Hn Hx]. inversion Hx as [|?? Hname _]; subst.
        apply is_name_spec in Hname as (_ & _ & Hne%String.eqb_neq & _).
        rewrite Hne. by exists n, names.
  - exists n, (names ++ [e])%list. repeat split; try done.
    + cbn [rev]. by rewrite Hout, app_assoc.
    + apply Forall_app. split; [done|]. repeat constructor.
      by apply is_name_spec.
Qed.

Lemma clean_fold_cleaned rooted l out :
  Forall slash_free l -> cleaned rooted (rev out) ->
  cleaned rooted (rev (fold_left (clean_step rooted) l out)).
Proof.
  revert out. induction l as [|e l IH]; intros out Hl Hout; [done|].
  inversion Hl; subst. cbn [fold_left]. apply IH; [done|].
  by apply clean_step_cleaned.
Qed.

Lemma clean_elems_cleaned p : cleaned (is_rooted p) (clean_elems p).
Proof.
  unfold clean_elems. apply clean_fold_cleaned; [apply split_slash_elems|].
  apply cleaned_nil.
Qed.

Lemma clean_fold_dots n out :
  out = replicate (length out) ".." ->
  fold_left (clean_step false) (replicate n "..") out
  = (replicate n ".." ++ out)%list.
Proof.
  revert out. induction n as [|n IH]; intros out Hout; [done|].
  cbn [replicate fold_left].
  assert (Hstep : clean_step false out ".." = ".." :: out).
  { unfold clean_step. cbn. destruct out as [|top ?]; [done|].
    cbn in Hout. by injection Hout as -> _. }
  rewrite Hstep, IH.
  - change (".." :: out) with ([".."] ++ out)%list.
    by rewrite app_assoc, <- replicate_cons_app.
  - cbn. by rewrite <- Hout.
Qed.

(** Cleaned elements go through the scan as they are. *)
Lemma clean_fold_cleaned_id rooted elems :
  cleaned rooted elems ->
  fold_left (clean_step rooted) elems [] = rev elems.
Proof.
  intros (n & names & -> & Hn & Hr). rewrite fold_left_app.
  assert (Hdots : fold_left (clean_step rooted) (replicate n "..") []
                  = replicate n "..").
  { destruct rooted; [by rewrite Hr|].
    rewrite clean_fold_dots by done. apply app_nil_r. }
  rewrite Hdots, clean_fold_names by done.
  by rewrite rev_app_distr, rev_replicate.
Qed.

Lemma path_Clean_render p :
  path_Clean p = render (is_rooted p) (clean_elems p).
Proof.
  unfold path_Clean, render. destruct (String.eqb_spec p "") as [->|Hp]; done.
Qed.

Lemma append_assoc a b c : (a +:+ b) +:+ c = a +:+ (b +:+ c).
Proof.
  induction a as [|x a IH]; [done|].
  change (String x ((a +:+ b) +:+ c) = String x (a +:+ (b +:+ c))).
  by rewrite IH.
Qed.

Lemma append_nil_r a : a +:+ "" = a.
Proof.
  induction a as [|x a IH]; [done|].
  change (String x (a +:+ "") = String x a). by rewrite IH.
Qed.

Lemma join_slash_cons x l :
  l <> [] -> join_slash (x :: l) = x +:+ "/" +:+ join_slash l.
Proof. by destruct l. Qed.

Lemma join_slash_snoc l d :
  l <> [] -> join_slash (l ++ [d]) = join_slash l +:+ "/" +:+ d.
Proof.
  induction l as [|x l IH]; [done|]. intros _.
  destruct l as [|y l]; [reflexivity|].
  change ((x :: y :: l) ++ [d])%list with (x :: y :: (l ++ [d]))%list.
  rewrite join_slash_cons by done.
  change (y :: (l ++ [d]))%list with ((y :: l) ++ [d])%list.
  rewrite IH by done.
  rewrite (join_slash_cons x (y :: l)) by done.
  by rewrite !append_assoc.
Qed.

Lemma cleaned_first rooted x l :
  cleaned rooted (x :: l) -> x <> "" /\ slash_free x.
Proof.
  intros (n & names & Hl & Hn & _). destruct n as [|n].
  - destruct names as [|y names]; [done|]. injection Hl as -> ->.
    inversion Hn as [|?? Hx _]; subst.
    by apply is_name_spec in Hx as (? & _ & _ & ?).
  - injection Hl as -> _. done.
Qed.

Lemma cleaned_slash_free rooted l : cleaned rooted l -> Forall slash_free l.
Proof.
  intros (n & names & -> & Hn & _). apply Forall_app. split.
  - by apply Forall_replicate.
  - eapply Forall_impl; [exact Hn|]. intros e He.
    by apply is_name_spec in He as (_ & _ & _ & ?).
Qed.

Lemma join_slash_nonempty rooted l :
  cleaned rooted l -> l <> [] -> join_slash l <> "".
Proof.
  destruct l as [|x l]; [done|]. intros Hc _.
  destruct (cleaned_first _ _ _ Hc) as [Hx _].
  destruct l; [done|]. rewrite join_slash_cons by done. by destruct x.
Qed.

Lemma is_rooted_slash_free x rest :
  x <> "" -> slash_free x -> is_rooted (x +:+ rest) = false.
Proof.
  destruct x as [|c x]; [done|]. intros _. unfold slash_free. simpl.
  destruct (Ascii.eqb c "/"); [|done].
  pose proof (split_slash_nonnil x). by destruct (split_slash x).
Qed.

(** The elements of a cleaned path are those it was written from. *)
Lemma render_elems rooted l :
  cleaned rooted l ->
  is_rooted (render rooted l) = rooted /\
  clean_elems (render rooted l) = l.
Proof.
  intros Hc. pose proof (cleaned_slash_free _ _ Hc) as Hsf.
  unfold render. destruct rooted.
  - split; [done|]. unfold clean_elems.
    change (is_rooted ("/" +:+ join_slash l)) with true.
    change (split_slash ("/" +:+ join_slash l))
      with ("" :: split_slash (join_slash l)).
    cbn [fold_left]. change (clean_step true [] "") with (@nil string).
    destruct l as [|x l]; [done|].
    rewrite split_join by done. rewrite clean_fold_cleaned_id by done.
    apply rev_involutive.
  - destruct l as [|x l]; [done|].
    pose proof (join_slash_nonempty _ _ Hc) as Hne.
    apply String.eqb_neq in Hne; [|done]. rewrite Hne.
    destruct (cleaned_first _ _ _ Hc) as [Hx Hsx].
    assert (Hroot : is_rooted (join_slash (x :: l)) = false).
    { destruct l; [|rewrite join_slash_cons by done];
        [rewrite <- (append_nil_r x)|]; by apply is_rooted_slash_free. }
    split; [done|]. unfold clean_elems. rewrite Hroot.
    rewrite split_join by done. rewrite clean_fold_cleaned_id by done.
    apply rev_involutive.
Qed.

(** [path.Clean] of a cleaned path is that path. *)
Lemma path_Clean_idempotent p : path_Clean (path_Clean p) = path_Clean p.
Proof.
  rewrite (path_Clean_render (path_Clean p)), (path_Clean_render p).
  destruct (render_elems _ _ (clean_elems_cleaned p)) as [-> ->]. done.
Qed.

Lemma is_rooted_app q rest : q <> "" -> is_rooted (q +:+ rest) = is_rooted q.
Proof. by destruct q. Qed.

Lemma is_rooted_name d : is_name d = true -> is_rooted d = false.
Proof.
  intros (Hne & _ & _ & Hsf)%is_name_spec.
  rewrite <- (append_nil_r d). by apply is_rooted_slash_free.
Qed.

(** A name joined to a path is one more element. *)
Lemma path_Join_name q d :
  is_name d = true ->
  path_Join [q; d] = render (is_rooted q) (clean_elems q ++ [d]).
Proof.
  intros Hd. pose proof Hd as (Hne & _ & _ & Hsf)%is_name_spec.
  unfold path_Join. destruct (String.eqb_spec q "") as [->|Hq].
  - apply String.eqb_neq in Hne. rewrite Hne.
    rewrite path_Clean_render. change (join_slash [d]) with d.
    rewrite is_rooted_name by done. unfold clean_elems.
    rewrite is_rooted_name by done. rewrite Hsf. cbn [fold_left].
    by rewrite clean_step_name.
  - rewrite path_Clean_render.
    change (join_slash [q; d]) with (q +:+ "/" +:+ d).
    rewrite is_rooted_app by done. f_equal.
    unfold clean_elems. rewrite is_rooted_app by done.
    rewrite split_slash_app, Hsf, fold_left_app. cbn [fold_left].
    by rewrite clean_step_name.
Qed.

Lemma cleaned_snoc rooted l d :
  cleaned rooted l -> is_name d = true -> cleaned rooted (l ++ [d]).
Proof.
  intros (n & names & -> & Hn & Hr) Hd. exists n, (names ++ [d])%list.
  rewrite app_assoc. repeat split; [|done].
  apply Forall_app. split; [done|]. by repeat constructor.
Qed.

Lemma render_snoc rooted l m :
  cleaned rooted l -> l <> [] ->
  render rooted (l ++ [m]) = render rooted l +:+ "/" +:+ m.
Proof.
  intros Hc Hl. unfold render. rewrite join_slash_snoc by done.
  pose proof (join_slash_nonempty _ _ Hc Hl) as Hne.
  destruct rooted; [by rewrite append_assoc|].
  apply String.eqb_neq in Hne as Hne'. rewrite Hne'.
  destruct (join_slash l) as [|c j]; [done|]. done.
Qed.

Lemma render_nonempty rooted l : render rooted l <> "".
Proof.
  unfold render. destruct rooted; [done|].
  by destruct (String.eqb_spec (join_slash l) "").
Qed.

(** The shape of a path made by joining a name to a directory. *)
Lemma path_Join_name_shape q d :
  is_name d = true ->
  exists elems,
    cleaned (is_rooted q) elems /\ elems <> [] /\
    path_Join [q; d] = render (is_rooted q) elems /\
    (clean_elems q = [] /\ elems = [d] \/
     clean_elems q <> [] /\
     path_Join [q; d] = path_Clean q +:+ "/" +:+ d).
Proof.
  intros Hd. exists (clean_elems q ++ [d])%list.
  pose proof (clean_elems_cleaned q) as Hc.
  split; [by apply cleaned_snoc|]. split; [by destruct (clean_elems q)|].
  split; [by apply path_Join_name|].
  destruct (clean_elems q) as [|x l] eqn:E; [by left|right].
  split; [done|]. rewrite path_Join_name by done. rewrite E.
  rewrite render_snoc by done. by rewrite path_Clean_render, E.
Qed.

(** The path of the metadata file of a cleaned directory. *)
Lemma getMetaDataPath_cleaned rooted elems :
  cleaned rooted elems -> elems <> [] ->
  getMetaDataPath (render rooted elems)
  = render rooted elems +:+ "/" +:+ metadataFile.
Proof.
  intros Hc Hne. unfold getMetaDataPath.
  rewrite path_Join_name by done.
  destruct (render_elems _ _ Hc) as [-> ->]. by apply render_snoc.
Qed.

Lemma parent_paths_snoc q m :
  q <> "" -> slash_free m ->
  parent_paths (q +:+ "/" +:+ m) = q :: parent_paths q.
Proof.
  intros Hq Hm. unfold parent_paths. rewrite split_slash_app, Hm.
  set (S := split_slash q). rewrite length_app. cbn [length].
  pose proof (split_slash_nonnil q) as Hnil. fold S in Hnil.
  assert (Hlen : (length S + 1 - 1 = Datatypes.S (length S - 1))%nat).
  { destruct S; [done|]. cbn. lia. }
  rewrite Hlen, seq_S, rev_app_distr. cbn [rev app map].
  replace (1 + (length S - 1))%nat with (length S) by (destruct S; [done|cbn; lia]).
  rewrite take_app_length. subst S. rewrite join_split.
  rewrite filter_cons_True by done. f_equal. f_equal.
  apply map_ext_in. intros k Hk. apply in_rev, in_seq in Hk.
  f_equal. rewrite take_app_le; [done|]. lia.
Qed.

Lemma strip_prefix_app a b : strip_prefix a (a +:+ b) = Some b.
Proof.
  induction a as [|c a IH]; [done|].
  change (String c a +:+ b) with (String c (a +:+ b)). cbn [strip_prefix].
  by rewrite Ascii.eqb_refl.
Qed.

Lemma HasPrefix_app a b : strings_HasPrefix (a +:+ b) a = true.
Proof.
  unfold strings_HasPrefix. induction a as [|c a IH]; [by destruct b|].
  change (String c a +:+ b) with (String c (a +:+ b)). cbn [String.prefix].
  destruct (ascii_dec c c); done.
Qed.

Lemma Replace1_prefix s old new rest :
  strip_prefix old s = Some rest -> strings_Replace1 s old new = new +:+ rest.
Proof. intros Hs. destruct s; cbn [strings_Replace1]; by rewrite Hs. Qed.

(** The exported root of a mount source that is the server, a colon and
    a path is that path, cleaned. *)
Lemma sourcePath_of_source p x :
  source p = dnsName p +:+ ":" +:+ x -> sourcePath p = path_Clean x.
Proof.
  intros Hs. unfold sourcePath. rewrite Hs.
  rewrite <- append_assoc.
  by rewrite (Replace1_prefix _ _ "" x) by apply strip_prefix_app.
Qed.

Lemma clean_elems_double_slash q d :
  q <> "" ->
  path_Clean (q +:+ "/" +:+ "/" +:+ d) = path_Clean (q +:+ "/" +:+ d).
Proof.
  intros Hq. rewrite !path_Clean_render, !is_rooted_app by done. f_equal.
  unfold clean_elems. rewrite !is_rooted_app by done.
  rewrite !split_slash_app, !fold_left_app. done.
Qed.

(** The remote path that [Provision] publishes for a directory name
    translates back to the local path of that name. *)
Lemma getLocalPathToDelete_provisioned p d ro :
  mountpoint p <> "" ->
  is_rooted (sourcePath p) = true ->
  is_name d = true ->
  getLocalPathToDelete p
    {| Server := dnsName p; Path := path_Join [sourcePath p; d];
       ReadOnly := ro |}
  = Ok (path_Join [mountpoint p; d]).
Proof.
  intros Hmp Hroot Hd. unfold getLocalPathToDelete. cbn [Server Path].
  rewrite String.eqb_refl. cbn [negb].
  destruct (path_Join_name_shape (sourcePath p) d Hd)
    as (elems & Hc & Hne & Hr & Hshape).
  rewrite Hroot in *.
  assert (Hsp : sourcePath p = render true (clean_elems (sourcePath p))).
  { unfold sourcePath at 1. rewrite <- path_Clean_idempotent.
    fold (sourcePath p). by rewrite path_Clean_render, Hroot. }
  destruct Hshape as [[Hnil ->]|[Hcons Hjoin]].
  - rewrite Hnil in Hsp. change (render true []) with "/" in Hsp.
    rewrite Hr, Hsp. change (render true [d]) with ("/" +:+ d).
    rewrite HasPrefix_app. cbn [negb].
    by rewrite (Replace1_prefix _ _ "" d) by apply strip_prefix_app.
  - rewrite Hjoin. unfold sourcePath at 1 4 5.
    rewrite path_Clean_idempotent. fold (sourcePath p).
    rewrite HasPrefix_app. cbn [negb].
    rewrite (Replace1_prefix _ _ "" ("/" +:+ d)) by apply strip_prefix_app.
    change ("" +:+ "/" +:+ d) with ("/" +:+ d).
    unfold path_Join. apply String.eqb_neq in Hmp. rewrite Hmp.
    change (join_slash [mountpoint p; "/" +:+ d])
      with (mountpoint p +:+ "/" +:+ "/" +:+ d).
    change (join_slash [mountpoint p; d]) with (mountpoint p +:+ "/" +:+ d).
    f_equal. apply clean_elems_double_slash. by apply String.eqb_neq.
Qed.

(** A volume whose path is the exported root itself translates to the
    mount point. *)
Lemma getLocalPathToDelete_root p ro :
  mountpoint p <> "" ->
  getLocalPathToDelete p
    {| Server := dnsName p; Path := sourcePath p; ReadOnly := ro |}
  = Ok (path_Clean (mountpoint p)).
Proof.
  intros Hmp. unfold getLocalPathToDelete. cbn [Server Path].
  rewrite String.eqb_refl. cbn [negb].
  rewrite <- (append_nil_r (sourcePath p)) at 1.
  rewrite HasPrefix_app. cbn [negb].
  assert (Hstrip : strip_prefix (sourcePath p) (sourcePath p) = Some "").
  { rewrite <- (append_nil_r (sourcePath p)) at 2. apply strip_prefix_app. }
  rewrite (Replace1_prefix _ _ "" "" Hstrip).
  change ("" +:+ "") with "". unfold path_Join.
  apply String.eqb_neq in Hmp as Hmp'. rewrite Hmp'.
  change (join_slash [mountpoint p; ""]) with (mountpoint p +:+ "/" +:+ "").
  f_equal. rewrite !path_Clean_render, is_rooted_app by done. f_equal.
  unfold clean_elems. rewrite is_rooted_app by done.
  by rewrite split_slash_app, fold_left_app.
Qed.

(** ** The paths of a volume *)

Lemma bind_ok_inv {A X Y} (m : M A X) (k : X -> M A Y) s y s' :
  bind m k s = (Ok y, s') ->
  exists x s0, m s = (Ok x, s0) /\ k x s0 = (Ok y, s').
Proof. unfold bind. destruct (m s) as [[x|e] s0]; [eauto|done]. Qed.

Lemma append_neq a c b : a +:+ String c b <> a.
Proof.
  intros Heq. assert (Hlen : String.length (a +:+ String c b) = String.length a)
    by by rewrite Heq.
  clear Heq. induction a as [|x a IH]; [done|].
  change (String x a +:+ String c b) with (String x (a +:+ String c b)) in Hlen.
  cbn [String.length] in Hlen. apply IH. lia.
Qed.

Lemma parent_paths_name d : slash_free d -> parent_paths d = [].
Proof. intros Hd. unfold parent_paths. by rewrite Hd. Qed.

Lemma parent_paths_root_name d : slash_free d -> parent_paths ("/" +:+ d) = [].
Proof.
  intros Hd. unfold parent_paths.
  change (split_slash ("/" +:+ d)) with ("" :: split_slash d). by rewrite Hd.
Qed.

Lemma endsWithDot_snoc q d :
  is_name d = true -> endsWithDot (q +:+ "/" +:+ d) = false.
Proof.
  intros (_ & Hdot & _ & Hsf)%is_name_spec. unfold endsWithDot.
  rewrite split_slash_app, Hsf, rev_app_distr. cbn.
  by apply String.eqb_neq.
Qed.

(** What is known of the path made by joining a name to a directory. *)
Lemma path_Join_name_facts q d :
  is_name d = true ->
  path_Join [q; d] <> "" /\
  path_Join [q; d] <> "/" /\
  endsWithDot (path_Join [q; d]) = false /\
  getMetaDataPath (path_Join [q; d])
    = path_Join [q; d] +:+ "/" +:+ metadataFile /\
  (parent_paths (path_Join [q; d]) = [] \/
   exists above, parent_paths (path_Join [q; d]) = path_Clean q :: above).
Proof.
  intros Hd. pose proof Hd as (Hne & Hdot & _ & Hsf)%is_name_spec.
  destruct (path_Join_name_shape q d Hd) as (elems & Hc & Hnil & Hr & Hshape).
  split; [rewrite Hr; apply render_nonempty|].
  split.
  { destruct Hshape as [[_ ->]|[_ ->]].
    - rewrite Hr. unfold render. destruct (is_rooted q).
      + change (join_slash [d]) with d. by destruct d.
      + change (join_slash [d]) with d. apply String.eqb_neq in Hne as Hne'.
        rewrite Hne'. intros ->. done.
    - pose proof (path_Clean_nonempty q) as Hq.
      destruct (path_Clean q) as [|c x]; [done|].
      change (String c x +:+ "/" +:+ d) with (String c (x +:+ "/" +:+ d)).
      intros [= _ Hx]. by destruct x. }
  split; [|split; [rewrite Hr; by apply getMetaDataPath_cleaned|]].
  - destruct Hshape as [[_ ->]|[_ ->]]; [|by apply endsWithDot_snoc].
    rewrite Hr. unfold render, endsWithDot. apply String.eqb_neq in Hdot.
    destruct (is_rooted q).
    + change (split_slash ("/" +:+ join_slash [d])) with ("" :: split_slash d).
      by rewrite Hsf.
    + change (join_slash [d]) with d. apply String.eqb_neq in Hne.
      by rewrite Hne, Hsf.
  - destruct Hshape as [[_ ->]|[_ ->]].
    + left. rewrite Hr. unfold render. destruct (is_rooted q).
      * by apply parent_paths_root_name.
      * change (join_slash [d]) with d. apply String.eqb_neq in Hne.
        rewrite Hne. by apply parent_paths_name.
    + right. eexists. apply parent_paths_snoc; [|done].
      apply path_Clean_nonempty.
Qed.

Lemma slash_free_cons c a :
  slash_free (String c a) <-> c <> "/"%char /\ slash_free a.
Proof.
  unfold slash_free. cbn [split_slash].
  destruct (Ascii.eqb_spec c "/") as [->|Hc].
  - split; [intros [=]|by intros [? _]].
  - pose proof (split_slash_nonnil a).
    destruct (split_slash a) as [|h t] eqn:E; [done|]. split.
    + intros [= -> ->]. done.
    + intros [_ [= -> ->]]. done.
Qed.

Lemma slash_free_app a b : slash_free a -> slash_free b -> slash_free (a +:+ b).
Proof.
  intros Ha Hb. induction a as [|c a IH]; [done|].
  apply slash_free_cons in Ha as [Hc Ha].
  change (String c a +:+ b) with (String c (a +:+ b)).
  apply slash_free_cons. split; [done|by apply IH].
Qed.

(** A string with a dash in it is none of the elements that
    [path.Clean] drops. *)
Lemma dash_not_dots a b :
  a +:+ "-" +:+ b <> "" /\ a +:+ "-" +:+ b <> "." /\ a +:+ "-" +:+ b <> "..".
Proof.
  destruct a as [|c1 [|c2 a]].
  - change ("" +:+ "-" +:+ b) with (String "-" b). repeat split; done.
  - change (String c1 "" +:+ "-" +:+ b) with (String c1 (String "-" b)).
    repeat split; done.
  - change (String c1 (String c2 a) +:+ "-" +:+ b)
      with (String c1 (String c2 (a +:+ "-" +:+ b))).
    repeat split; try done. intros [= _ _ Heq].
    by destruct a.
Qed.

Lemma dashed_name a b :
  slash_free a -> slash_free b -> is_name (a +:+ "-" +:+ b) = true.
Proof.
  intros Ha Hb. apply is_name_spec.
  destruct (dash_not_dots a b) as (? & ? & ?). repeat split; try done.
  apply slash_free_app; [done|]. by apply (slash_free_app "-").
Qed.

(** X1: the directory name of a request is a single path element, one
    that [path.Clean] keeps as it is, when the names it is made of (of
    the claim, its namespace, the volume and the volume prefix) have no
    slash. *)
Theorem getDirectoryName_path_element options d :
  getDirectoryName options = Ok d ->
  slash_free (pvc_Name (PVC options)) ->
  slash_free (pvc_Namespace (PVC options)) ->
  slash_free (PVName options) ->
  (forall pfx, Parameters options !! "volumePrefix" = Some pfx ->
               slash_free pfx) ->
  is_name d = true.
Proof.
  intros Hd Hname Hns Hpv Hpfx. unfold getDirectoryName in Hd.
  destruct (reuseVolumesOption options) as [[]|]; [| |done].
  - injection Hd as <-.
    destruct (Parameters options !! "volumePrefix") as [pfx|] eqn:Hp.
    + destruct (String.eqb_spec pfx "") as [->|Hne]; cbn [negb].
      * by apply dashed_name.
      * rewrite append_assoc. apply dashed_name; [by apply Hpfx|].
        by apply slash_free_app; [|apply (slash_free_app "-")].
    + by apply dashed_name.
  - injection Hd as <-. by apply dashed_name.
Qed.

(** X2: without reuse, two requests of one claim with different volume names
    get different directories. *)
Theorem getDirectoryName_ephemeral_distinct options options' d d' :
  reuseVolumesOption options = Ok false ->
  reuseVolumesOption options' = Ok false ->
  pvc_Name (PVC options') = pvc_Name (PVC options) ->
  PVName options' <> PVName options ->
  getDirectoryName options = Ok d ->
  getDirectoryName options' = Ok d' ->
  d' <> d.
Proof.
  intros Hr Hr' Hname Hpv. unfold getDirectoryName. rewrite Hr, Hr', Hname.
  intros [= <-] [= <-] Heq. apply Hpv.
  apply (inj (String.app _)) in Heq. by apply (inj (String.app "-")) in Heq.
Qed.

(** X3: in reuse mode two claims can have one directory: the claim [n-m] of
    the namespace [k] and the claim [n] of the namespace [m-k]. *)
Theorem getDirectoryName_reuse_collision options options' n m k :
  reuseVolumesOption options = Ok true ->
  reuseVolumesOption options' = Ok true ->
  Parameters options' !! "volumePrefix" = Parameters options !! "volumePrefix" ->
  pvc_Name (PVC options) = n +:+ "-" +:+ m ->
  pvc_Namespace (PVC options) = k ->
  pvc_Name (PVC options') = n ->
  pvc_Namespace (PVC options') = m +:+ "-" +:+ k ->
  getDirectoryName options' = getDirectoryName options.
Proof.
  intros Hr Hr' Hpfx Hn Hk Hn' Hk'. unfold getDirectoryName.
  rewrite Hr, Hr', Hpfx, Hn, Hk, Hn', Hk'. by rewrite !append_assoc.
Qed.

(** X4: the remote path of a request, taken back by [getLocalPathToDelete],
    is the local path of the request. *)
Theorem remote_path_round_trip p options d ro :
  getDirectoryName options = Ok d ->
  is_name d = true ->
  mountpoint p <> "" ->
  is_rooted (sourcePath p) = true ->
  exists localPath remotePath,
    getLocalPath p options = Ok localPath /\
    getRemotePath p options = Ok remotePath /\
    getLocalPathToDelete p
      {| Server := dnsName p; Path := remotePath; ReadOnly := ro |}
    = Ok localPath.
Proof.
  intros Hd Hname Hmp Hroot. unfold getLocalPath, getRemotePath. rewrite Hd.
  eexists _, _. split; [done|]. split; [done|].
  by apply getLocalPathToDelete_provisioned.
Qed.

Lemma child_name_app base name :
  is_name name = true -> child_name base (dir_prefix base +:+ name) = Some name.
Proof.
  intros (Hne & _ & _ & Hsf)%is_name_spec. unfold child_name.
  rewrite strip_prefix_app. apply String.eqb_neq in Hne. by rewrite Hne, Hsf.
Qed.

(** The path of a name under a rooted directory. *)
Lemma path_Join_child q d :
  is_name d = true -> is_rooted q = true ->
  path_Join [q; d] = dir_prefix (path_Clean q) +:+ d.
Proof.
  intros Hname Hroot.
  destruct (path_Join_name_shape q d Hname)
    as (elems & _ & _ & Hr & [[Hnil ->]|[Hnil Hj]]).
  - rewrite Hr, path_Clean_render, Hnil, Hroot. reflexivity.
  - rewrite Hj. unfold dir_prefix.
    destruct (String.eqb_spec (path_Clean q) "/") as [Heq|_];
      [|by rewrite append_assoc].
    exfalso. apply Hnil. rewrite path_Clean_render, Hroot in Heq.
    unfold render in Heq.
    destruct (clean_elems q) as [|x l] eqn:E; [done|].
    pose proof (clean_elems_cleaned q) as Hc. rewrite E in Hc.
    pose proof (join_slash_nonempty _ _ Hc Hnil) as Hj'.
    change ("/" +:+ join_slash (x :: l)) with (String "/" (join_slash (x :: l)))
      in Heq. by injection Heq.
Qed.

(** X5: the local path of a request whose directory name is a single
    path element, under a mount point that is an absolute path, is an
    immediate entry of the mount point, by the directory name, and the
    metadata file is an immediate entry of it. *)
Theorem getLocalPath_child p options d :
  getDirectoryName options = Ok d ->
  is_name d = true ->
  is_rooted (mountpoint p) = true ->
  exists volumePath,
    getLocalPath p options = Ok volumePath /\
    child_name (path_Clean (mountpoint p)) volumePath = Some d /\
    child_name volumePath (getMetaDataPath volumePath) = Some metadataFile /\
    under (path_Clean (mountpoint p)) volumePath = true /\
    under volumePath (getMetaDataPath volumePath) = true.
Proof.
  intros Hd Hname Hroot. unfold getLocalPath. rewrite Hd.
  eexists. split; [done|].
  destruct (path_Join_name_facts (mountpoint p) d Hname)
    as (_ & Hnr & _ & Hmd & _).
  pose proof (path_Join_child (mountpoint p) d Hname Hroot) as Hvp.
  assert (Hmdp : getMetaDataPath (path_Join [mountpoint p; d])
                 = dir_prefix (path_Join [mountpoint p; d]) +:+ metadataFile).
  { rewrite Hmd. unfold dir_prefix. apply String.eqb_neq in Hnr.
    by rewrite Hnr, append_assoc. }
  split; [rewrite Hvp; by apply child_name_app|].
  split; [rewrite Hmdp; by apply child_name_app|].
  split.
  - rewrite Hvp. unfold under. by rewrite HasPrefix_app, orb_true_r.
  - rewrite Hmdp. unfold under. by rewrite HasPrefix_app, orb_true_r.
Qed.

Lemma getDirectoryName_path_element_witness :
  is_name "vol-claim-a-ns1" = true.
Proof.
  apply (getDirectoryName_path_element
           (Concrete.options_with
              {[ "reuseVolumes" := "true"; "volumePrefix" := "vol" ]})
           "vol-claim-a-ns1"); try reflexivity.
  intros pfx Hpfx. vm_compute in Hpfx. injection Hpfx as <-. reflexivity.
Defined.

Lemma getDirectoryName_ephemeral_distinct_witness :
  "claim-a-pvc-5678" <> "claim-a-pvc-1234".
Proof.
  apply (getDirectoryName_ephemeral_distinct Concrete.ephemeral_options
           (Concrete.request Concrete.claim_a "pvc-5678" ∅)
           "claim-a-pvc-1234" "claim-a-pvc-5678"); try reflexivity.
  vm_compute. discriminate.
Defined.

Lemma getDirectoryName_reuse_collision_witness :
  getDirectoryName
    (Concrete.request (Concrete.claim_of "a" "b-c") "pvc-2"
       {[ "reuseVolumes" := "true" ]})
  = getDirectoryName
      (Concrete.request (Concrete.claim_of "a-b" "c") "pvc-1"
         {[ "reuseVolumes" := "true" ]}).
Proof.
  apply (getDirectoryName_reuse_collision _ _ "a" "b" "c"); reflexivity.
Defined.

Lemma remote_path_round_trip_witness :
  exists localPath remotePath,
    getLocalPath Concrete.provisioner Concrete.reuse_options = Ok localPath /\
    getRemotePath Concrete.provisioner Concrete.reuse_options
      = Ok remotePath /\
    getLocalPathToDelete Concrete.provisioner
      {| Server := dnsName Concrete.provisioner; Path := remotePath;
         ReadOnly := false |}
    = Ok localPath.
Proof.
  apply (remote_path_round_trip Concrete.provisioner Concrete.reuse_options
           "claim-a-ns1" false); try reflexivity.
  vm_compute. discriminate.
Defined.

Lemma getLocalPath_child_witness :
  exists volumePath,
    getLocalPath Concrete.provisioner Concrete.reuse_options
      = Ok volumePath /\
    child_name (path_Clean (mountpoint Concrete.provisioner)) volumePath
      = Some "claim-a-ns1" /\
    child_name volumePath (getMetaDataPath volumePath) = Some metadataFile /\
    under (path_Clean (mountpoint Concrete.provisioner)) volumePath = true /\
    under volumePath (getMetaDataPath volumePath) = true.
Proof.
  apply (getLocalPath_child Concrete.provisioner Concrete.reuse_options
           "claim-a-ns1"); reflexivity.
Defined.
(** ** A first request *)

Section Fresh.
Context `{JSON} {A : Type} `{GidAllocator A}.
Implicit Types s : state A.

(** [createVolume] where there is nothing yet and no call fails. *)
Lemma createVolume_fresh p path gid s :
  (forall call q, faults s call q = false) ->
  path <> "" ->
  fs s !! path = None ->
  (parent_paths path = [] \/
   exists q above m g,
     parent_paths path = q :: above /\ fs s !! q = Some (Dir m g)) ->
  (forall g, gid = Some g -> 0 <= g < 2 ^ 32) ->
  createVolume p path gid s =
    (Ok tt,
     State (<[path := Dir (volume_perm gid) (default (egid s) gid)]> (fs s))
       (faults s) (umask s) (egid s) (alloc s)
       (match gid with
        | Some g => [EvChgrp (strconv_Itoa g) path]
        | None => []
        end ++ EvChmod path (volume_perm gid)
            :: EvMkdirAll path (volume_perm gid) :: trace s)%list).
Proof.
  intros Hf Hne Hnone Hpar Hgid. apply String.eqb_neq in Hne.
  unfold createVolume, bind, os_MkdirAll. rewrite Hf, Hne.
  cbn [mkdir_all]. rewrite Hnone.
  assert (Hmk : mkdir_all (umask s) (egid s) (parent_paths path)
                  (volume_perm gid) (fs s) = (None, fs s)).
  { destruct Hpar as [->|(q & above & m & g & -> & Hq)]; [done|].
    cbn [mkdir_all]. by rewrite Hq. }
  rewrite Hmk. unfold mkdir_one. rewrite Hnone.
  unfold os_Chmod. cbn [faults log fs set_fs]. rewrite Hf.
  rewrite lookup_insert_eq. destruct gid as [g|].
  - unfold exec_chgrp. cbn [faults log fs set_fs]. rewrite Hf.
    rewrite lookup_insert_eq, ParseUint32_Itoa by by apply Hgid.
    unfold set_fs, log. cbn. by rewrite !insert_insert_eq.
  - unfold set_fs, log. cbn. by rewrite !insert_insert_eq.
Qed.

(** A reuse-mode request with a GID for a claim whose directory is not
    there, when no call fails. *)
Lemma Provision_first_run p options s d g a contents m0 g0 :
  pvc_Selector (PVC options) = None ->
  reuseVolumesOption options = Ok true ->
  getDirectoryName options = Ok d ->
  is_name d = true ->
  gidAllocateOption options = Ok true ->
  allocator_AllocateNext options (alloc s) = (inr g, a) ->
  0 <= g < 2 ^ 32 ->
  json_MarshalIndent (claimMetadata options (strconv_Itoa g)) = Some contents ->
  (forall call q, faults s call q = false) ->
  fs s !! path_Clean (mountpoint p) = Some (Dir m0 g0) ->
  fs s !! path_Join [mountpoint p; d] = None ->
  fs s !! getMetaDataPath (path_Join [mountpoint p; d]) = None ->
  exists pv s',
    Provision p options s = (Ok pv, s') /\
    pv_NFS pv = {| Server := dnsName p; Path := path_Join [sourcePath p; d];
                   ReadOnly := false |} /\
    pv_Annotations pv = {[ VolumeGidAnnotationKey := strconv_Itoa g ]} /\
    fs s' =
      <[getMetaDataPath (path_Join [mountpoint p; d]) :=
          File (Z.land perm_0600 (Z.lnot (umask s))) contents]>
        (<[path_Join [mountpoint p; d] := Dir (Z.lor perm_0771 ModeSetgid) g]>
           (fs s)) /\
    alloc s' = a /\ faults s' = faults s /\
    List.filter is_change (trace s') =
      ([EvWriteFile (getMetaDataPath (path_Join [mountpoint p; d])) contents
          perm_0600;
        EvChgrp (strconv_Itoa g) (path_Join [mountpoint p; d]);
        EvChmod (path_Join [mountpoint p; d]) (Z.lor perm_0771 ModeSetgid);
        EvMkdirAll (path_Join [mountpoint p; d]) (Z.lor perm_0771 ModeSetgid);
        EvAllocateNext] ++ List.filter is_change (trace s))%list.
Proof.
  intros Hsel Hreuse Hdir Hname Hga Hal Hr Hjson Hf Hmount Hnone Hmd.
  set (vp := path_Join [mountpoint p; d]) in *.
  destruct (path_Join_name_facts (mountpoint p) d Hname)
    as (Hne & _ & _ & Hmdpath & Hpar). fold vp in Hne, Hmdpath, Hpar.
  unfold Provision, getLocalPath, getRemotePath.
  rewrite Hsel, Hdir, Hreuse. fold vp.
  unfold bind, lift, ret. cbn [fst snd].
  rewrite (volumeExists_absent _ _ (Hf _ _) Hnone). cbn [fst snd].
  rewrite Hga. unfold AllocateNext. cbn [alloc log]. rewrite Hal.
  set (s1 := set_alloc a (log EvAllocateNext (log (EvStat vp) s))).
  rewrite (createVolume_fresh p vp (Some g) s1); try done.
  2:{ destruct Hpar as [?|[above Hp]]; [by left|right].
      by exists (path_Clean (mountpoint p)), above, m0, g0. }
  2:{ by intros ? [= <-]. }
  unfold ignore_error, writeVolumeMetadata. rewrite Hjson.
  unfold ioutil_WriteFile, s1, set_alloc, log.
  cbn [faults fs umask egid alloc trace default]. rewrite Hf.
  assert (Hneq : vp <> getMetaDataPath vp).
  { rewrite Hmdpath. intros Heq. symmetry in Heq. by apply append_neq in Heq. }
  rewrite lookup_insert_ne, Hmd by done.
  replace (parent_paths (getMetaDataPath vp)) with (vp :: parent_paths vp)
    by (rewrite Hmdpath; symmetry; by apply parent_paths_snoc).
  rewrite lookup_insert_eq. cbn [fst snd].
  eexists _, _. split; [done|]. cbn. done.
Qed.

(** X6: a reuse-mode request without a selector, with gidAllocate on,
    for a claim whose directory name is a single path element and whose
    directory and metadata file are not there, under a mount point that
    is a directory, succeeds when the allocator gives a GID that is a
    32-bit unsigned number, the record can be marshalled and no call
    fails.  The volume has the server
    of the provisioner, the remote path of the claim and the GID as its
    annotation; the file system has gained the directory, with the mode
    [0771] and the set-group-ID bit and the GID as its group, and the
    metadata file with the record of the claim, and nothing else; and
    the calls that change something are the allocation, the making of
    the directory, the change of its mode and its group, and the write
    of the file, in this order. *)
Theorem Provision_fresh p options s d g a contents m0 g0 :
  pvc_Selector (PVC options) = None ->
  reuseVolumesOption options = Ok true ->
  getDirectoryName options = Ok d ->
  is_name d = true ->
  gidAllocateOption options = Ok true ->
  allocator_AllocateNext options (alloc s) = (inr g, a) ->
  0 <= g < 2 ^ 32 ->
  json_MarshalIndent (claimMetadata options (strconv_Itoa g)) = Some contents ->
  (forall call q, faults s call q = false) ->
  fs s !! path_Clean (mountpoint p) = Some (Dir m0 g0) ->
  fs s !! path_Join [mountpoint p; d] = None ->
  fs s !! getMetaDataPath (path_Join [mountpoint p; d]) = None ->
  exists pv s',
    Provision p options s = (Ok pv, s') /\
    pv_NFS pv = {| Server := dnsName p; Path := path_Join [sourcePath p; d];
                   ReadOnly := false |} /\
    pv_Annotations pv = {[ VolumeGidAnnotationKey := strconv_Itoa g ]} /\
    fs s' =
      <[getMetaDataPath (path_Join [mountpoint p; d]) :=
          File (Z.land perm_0600 (Z.lnot (umask s))) contents]>
        (<[path_Join [mountpoint p; d] := Dir (Z.lor perm_0771 ModeSetgid) g]>
           (fs s)) /\
    alloc s' = a /\ faults s' = faults s /\
    List.filter is_change (trace s') =
      ([EvWriteFile (getMetaDataPath (path_Join [mountpoint p; d])) contents
          perm_0600;
        EvChgrp (strconv_Itoa g) (path_Join [mountpoint p; d]);
        EvChmod (path_Join [mountpoint p; d]) (Z.lor perm_0771 ModeSetgid);
        EvMkdirAll (path_Join [mountpoint p; d]) (Z.lor perm_0771 ModeSetgid);
        EvAllocateNext] ++ List.filter is_change (trace s))%list.
Proof. apply Provision_first_run. Qed.

End Fresh.

Lemma Provision_fresh_witness :
  exists pv s',
    Provision Concrete.provisioner Concrete.reuse_options Concrete.s_fresh
      = (Ok pv, s') /\
    pv_NFS pv = {| Server := "fs.example.com"; Path := "/export/claim-a-ns1";
                   ReadOnly := false |} /\
    pv_Annotations pv = {[ VolumeGidAnnotationKey := "2000" ]} /\
    fs s' = Concrete.volume_fs 2000 (Some (Concrete.sidecar Concrete.md_claim_a)) /\
    alloc s' = Concrete.table {[2000]}.
Proof.
  destruct (Provision_fresh Concrete.provisioner Concrete.reuse_options
              Concrete.s_fresh "claim-a-ns1" 2000 (Concrete.table {[2000]})
              (default "" (Concrete.marshal Concrete.md_claim_a)) 493 0)
    as (pv & s' & Hrun & Hnfs & Hgid & Hfs & Ha & _);
    try reflexivity; [lia|].
  exists pv, s'. split; [exact Hrun|]. split; [exact Hnfs|].
  split; [exact Hgid|]. split; [|exact Ha].
  rewrite Hfs. vm_compute. reflexivity.
Defined.
(** ** Deleting a volume that was provisioned *)

Lemma endsWithDot_rooted q : is_rooted q = true -> endsWithDot (path_Clean q) = false.
Proof.
  intros Hroot. rewrite path_Clean_render, Hroot.
  pose proof (clean_elems_cleaned q) as Hc. rewrite Hroot in Hc.
  pose proof (cleaned_slash_free _ _ Hc) as Hsf.
  destruct Hc as (n & names & Hl & Hnames & Hn). rewrite (Hn eq_refl) in Hl.
  cbn [replicate app] in Hl. rewrite Hl in *. clear Hl Hn.
  unfold render, endsWithDot.
  change (split_slash ("/" +:+ join_slash names))
    with ("" :: split_slash (join_slash names)).
  destruct names as [|x names _] using rev_ind; [done|].
  rewrite split_join; [|by destruct names|done].
  change ("" :: (names ++ [x])%list) with (("" :: names) ++ [x])%list.
  rewrite rev_app_distr. cbn [rev app].
  apply Forall_app in Hnames as [_ Hx]. inversion Hx as [|?? Hname _]; subst.
  apply is_name_spec in Hname as (_ & Hdot & _). by apply String.eqb_neq.
Qed.

Section Deleted.
Context `{JSON} {A : Type} `{GidAllocator A}.
Implicit Types s : state A.

(** Every volume that [Provision] returns has the server of the
    provisioner and the remote path of the request. *)
Lemma Provision_ok_nfs p options s pv s1 :
  Provision p options s = (Ok pv, s1) ->
  exists volumePath remotePath,
    getLocalPath p options = Ok volumePath /\
    getRemotePath p options = Ok remotePath /\
    pv_NFS pv = {| Server := dnsName p; Path := remotePath;
                   ReadOnly := false |}.
Proof.
  unfold Provision. destruct (pvc_Selector (PVC options)); [done|].
  intros (volumePath & sa & Hvp & Hrest)%bind_ok_inv.
  apply bind_ok_inv in Hrest as (reuse & sb & _ & Hrest).
  apply bind_ok_inv in Hrest as (found & sc & _ & Hrest).
  apply bind_ok_inv in Hrest as (gid & sd & _ & Hrest).
  apply bind_ok_inv in Hrest as (remotePath & se & Hremote & Hrest).
  unfold lift in Hvp, Hremote. injection Hvp as Hvp _.
  injection Hremote as Hremote _. injection Hrest as <- _.
  by exists volumePath, remotePath.
Qed.

(** [Delete] once the GID is released and the path is translated. *)
Lemma Delete_removes p volume s path a :
  allocator_Release volume (alloc s) = (None, a) ->
  getLocalPathToDelete p (pv_NFS volume) = Ok path ->
  path <> "" -> endsWithDot path = false ->
  faults s SysRemoveAll path = false ->
  exists s2,
    Delete p volume s = (Ok tt, s2) /\ alloc s2 = a /\
    fs s2 = filter (fun kv => under path kv.1 = false) (fs s).
Proof.
  intros Hrel Hpath Hne Hdot Hf. unfold Delete, bind, Release, lift.
  rewrite Hrel, Hpath. unfold os_RemoveAll. cbn [faults log set_alloc].
  apply String.eqb_neq in Hne. rewrite Hne, Hdot, Hf. by eexists.
Qed.

Lemma under_metadata path :
  path <> "/" -> under path (path +:+ "/" +:+ metadataFile) = true.
Proof.
  intros Hp. unfold under, dir_prefix. apply String.eqb_neq in Hp.
  rewrite Hp, <- append_assoc, HasPrefix_app. apply orb_true_r.
Qed.

Lemma lookup_RemoveAll path (m : gmap string node) k :
  filter (fun kv => under path kv.1 = false) m !! k
  = if under path k then None else m !! k.
Proof.
  rewrite map_lookup_filter. destruct (m !! k) as [n|] eqn:Hk; cbn.
  - destruct (under path k) eqn:Hu.
    + by rewrite option_guard_False by (cbn; congruence).
    + by rewrite option_guard_True.
  - by destruct (under path k).
Qed.

(** X7: [Delete] of a volume that [Provision] has returned for a request
    removes the local directory of the request with all that is in it,
    and nothing else, when the release of the GID and the removal do not
    fail. *)
Theorem Delete_provisioned p options s pv s1 d s1' a :
  Provision p options s = (Ok pv, s1) ->
  getDirectoryName options = Ok d ->
  is_name d = true ->
  mountpoint p <> "" ->
  is_rooted (sourcePath p) = true ->
  allocator_Release pv (alloc s1') = (None, a) ->
  faults s1' SysRemoveAll (path_Join [mountpoint p; d]) = false ->
  getLocalPath p options = Ok (path_Join [mountpoint p; d]) /\
  exists s2,
    Delete p pv s1' = (Ok tt, s2) /\ alloc s2 = a /\
    forall k,
      fs s2 !! k
      = if under (path_Join [mountpoint p; d]) k then None else fs s1' !! k.
Proof.
  intros Hprov Hdir Hname Hmp Hroot Hrel Hf.
  split; [unfold getLocalPath; by rewrite Hdir|].
  destruct (Provision_ok_nfs _ _ _ _ _ Hprov)
    as (volumePath & remotePath & _ & Hremote & Hnfs).
  unfold getRemotePath in Hremote. rewrite Hdir in Hremote.
  injection Hremote as <-.
  destruct (path_Join_name_facts (mountpoint p) d Hname)
    as (Hne & _ & Hdot & _ & _).
  destruct (Delete_removes p pv s1' (path_Join [mountpoint p; d]) a)
    as (s2 & Hdel & Ha & Hfs); try done.
  { rewrite Hnfs. by apply getLocalPathToDelete_provisioned. }
  exists s2. split; [done|]. split; [done|].
  intros k. rewrite Hfs. apply lookup_RemoveAll.
Qed.

(** X8: a first reuse-mode request (no selector, gidAllocate on) for a
    claim whose directory name is a single path element, on a mount
    where nothing is at the path of the claim's directory or below it,
    with a mount point that is a directory and an exported root that is
    an absolute path, when the allocator gives a GID that is a 32-bit
    unsigned number, the record can be marshalled and no call fails,
    followed by [Delete] of the volume it returns, when the release of
    the GID does not fail: the file system is as it was before the
    request. *)
Theorem Provision_then_Delete p options s d g a contents m0 g0 :
  pvc_Selector (PVC options) = None ->
  reuseVolumesOption options = Ok true ->
  getDirectoryName options = Ok d ->
  is_name d = true ->
  gidAllocateOption options = Ok true ->
  allocator_AllocateNext options (alloc s) = (inr g, a) ->
  0 <= g < 2 ^ 32 ->
  json_MarshalIndent (claimMetadata options (strconv_Itoa g)) = Some contents ->
  (forall call q, faults s call q = false) ->
  fs s !! path_Clean (mountpoint p) = Some (Dir m0 g0) ->
  (forall k, under (path_Join [mountpoint p; d]) k = true -> fs s !! k = None) ->
  mountpoint p <> "" ->
  is_rooted (sourcePath p) = true ->
  exists pv s1,
    Provision p options s = (Ok pv, s1) /\
    forall a',
      allocator_Release pv (alloc s1) = (None, a') ->
      exists s2,
        Delete p pv s1 = (Ok tt, s2) /\ fs s2 = fs s /\ alloc s2 = a'.
Proof.
  intros Hsel Hreuse Hdir Hname Hga Hal Hr Hjson Hf Hmount Hfree Hmp Hroot.
  set (vp := path_Join [mountpoint p; d]) in *.
  destruct (path_Join_name_facts (mountpoint p) d Hname)
    as (Hne & Hnotroot & Hdot & Hmdpath & _).
  fold vp in Hne, Hnotroot, Hdot, Hmdpath.
  assert (Hunder : under vp (getMetaDataPath vp) = true)
    by (rewrite Hmdpath; by apply under_metadata).
  destruct (Provision_first_run p options s d g a contents m0 g0)
    as (pv & s1 & Hprov & Hnfs & _ & Hfs & Ha & Hfaults & _); try done.
  { apply Hfree, under_refl. }
  { by apply Hfree. }
  fold vp in Hfs. exists pv, s1. split; [done|]. intros a' Hrel.
  destruct (Delete_removes p pv s1 vp a') as (s2 & Hdel & Ha2 & Hfs2);
    try done.
  { rewrite Hnfs. by apply getLocalPathToDelete_provisioned. }
  { by rewrite Hfaults. }
  exists s2. repeat split; try done.
  apply map_eq. intros k. rewrite Hfs2, lookup_RemoveAll, Hfs.
  destruct (under vp k) eqn:Hk; [symmetry; by apply Hfree|].
  rewrite !lookup_insert_ne; [done| |]; intros Hkey; subst k;
    [rewrite under_refl in Hk | rewrite Hunder in Hk]; discriminate.
Qed.

(** X9: [getLocalPathToDelete] does not guard the exported root: for a
    volume of the provisioner's server whose path is the exported root
    itself, under a mount point that is not empty, it gives the mount
    point, cleaned; and [Delete], once the GID is released, calls
    [os.RemoveAll] on the mount point itself, the directory that holds
    the volumes of all claims.  What that call removes and returns is
    the operating system's matter, and is not stated here. *)
Theorem Delete_export_root p volume s a ro :
  pv_NFS volume
    = {| Server := dnsName p; Path := sourcePath p; ReadOnly := ro |} ->
  mountpoint p <> "" ->
  allocator_Release volume (alloc s) = (None, a) ->
  getLocalPathToDelete p (pv_NFS volume) = Ok (path_Clean (mountpoint p)) /\
  trace (Delete p volume s).2
    = EvRemoveAll (path_Clean (mountpoint p)) :: EvRelease :: trace s.
Proof.
  intros Hnfs Hmp Hrel.
  assert (Hpath : getLocalPathToDelete p (pv_NFS volume)
                  = Ok (path_Clean (mountpoint p)))
    by (rewrite Hnfs; by apply getLocalPathToDelete_root).
  split; [done|].
  unfold Delete, bind, Release, lift. rewrite Hrel, Hpath.
  by destruct (os_RemoveAll_trace (path_Clean (mountpoint p))
                 (set_alloc a (log EvRelease s))) as [-> _].
Qed.

End Deleted.

Lemma Delete_provisioned_witness :
  getLocalPath Concrete.provisioner Concrete.reuse_options
    = Ok (path_Join [mountpoint Concrete.provisioner; "claim-a-ns1"]) /\
  exists s2,
    Delete Concrete.provisioner Concrete.first_volume Concrete.s_first
      = (Ok tt, s2) /\
    alloc s2 = Concrete.table ∅ /\
    forall k,
      fs s2 !! k
      = if under (path_Join [mountpoint Concrete.provisioner; "claim-a-ns1"]) k
        then None else fs Concrete.s_first !! k.
Proof.
  apply (Delete_provisioned Concrete.provisioner Concrete.reuse_options
           Concrete.s_fresh Concrete.first_volume Concrete.s_first
           "claim-a-ns1" Concrete.s_first (Concrete.table ∅));
    try reflexivity.
  vm_compute. discriminate.
Defined.

(** Nothing is at the path of the directory of [claim_a] or below it on
    the empty mount. *)
Lemma mount_only_free k :
  under Concrete.claim_dir k = true -> Concrete.mount_only !! k = None.
Proof.
  intros Hk. unfold Concrete.mount_only.
  destruct (decide (k = "/mnt")) as [->|Hmnt]; [by vm_compute in Hk|].
  destruct (decide (k = "/mnt/efs")) as [->|Hefs]; [by vm_compute in Hk|].
  rewrite lookup_insert_ne by done. by apply lookup_singleton_ne.
Qed.

Lemma Provision_then_Delete_witness :
  exists pv s1 s2,
    Provision Concrete.provisioner Concrete.reuse_options Concrete.s_fresh
      = (Ok pv, s1) /\
    Delete Concrete.provisioner pv s1 = (Ok tt, s2) /\
    fs s2 = fs Concrete.s_fresh /\ alloc s2 = Concrete.table ∅.
Proof.
  destruct (Provision_then_Delete Concrete.provisioner Concrete.reuse_options
              Concrete.s_fresh "claim-a-ns1" 2000 (Concrete.table {[2000]})
              (default "" (Concrete.marshal Concrete.md_claim_a)) 493 0)
    as (pv & s1 & Hrun & Hdelete); try reflexivity.
  - lia.
  - apply mount_only_free.
  - vm_compute. discriminate.
  - assert (Hfirst : Provision Concrete.provisioner Concrete.reuse_options
                       Concrete.s_fresh
                     = (Ok Concrete.first_volume, Concrete.s_first))
      by (vm_compute; reflexivity).
    rewrite Hfirst in Hrun. injection Hrun as <- <-.
    destruct (Hdelete (Concrete.table ∅)) as (s2 & Hdel & Hfs & Ha);
      [vm_compute; reflexivity|].
    exists Concrete.first_volume, Concrete.s_first, s2.
    split; [exact Hfirst|]. split; [exact Hdel|]. split; [exact Hfs|exact Ha].
Defined.

Lemma Delete_export_root_witness :
  getLocalPathToDelete Concrete.provisioner (pv_NFS Concrete.root_volume)
    = Ok "/mnt/efs" /\
  trace (Delete Concrete.provisioner Concrete.root_volume Concrete.s_first).2
    = EvRemoveAll "/mnt/efs" :: EvRelease :: trace Concrete.s_first.
Proof.
  apply (Delete_export_root Concrete.provisioner Concrete.root_volume
           Concrete.s_first (Concrete.table {[2000]}) false);
    try reflexivity.
  vm_compute. discriminate.
Defined.

(** ** Requests that are refused *)

Section Refused.
Context `{JSON} {A : Type} `{GidAllocator A}.
Implicit Types s : state A.

(** X10: a request with a selector, or with a value of [reuseVolumes] that is
    no boolean, is refused before any call is made: the state is as
    before. *)
Theorem Provision_rejected p options s :
  pvc_Selector (PVC options) <> None \/
  (exists value, Parameters options !! "reuseVolumes" = Some value /\
                 strconv_ParseBool value = None) ->
  exists e,
    Provision p options s = (Err e, s) /\
    match pvc_Selector (PVC options) with
    | Some _ => e = ErrSelectorNotSupported
    | None =>
        exists value, Parameters options !! "reuseVolumes" = Some value /\
                      e = ErrInvalidReuseVolumes value
    end.
Proof.
  intros Hcase. unfold Provision.
  destruct (pvc_Selector (PVC options)) as [sel|] eqn:Hsel.
  { by exists ErrSelectorNotSupported. }
  destruct Hcase as [?|(value & Hv & Hb)]; [done|].
  exists (ErrInvalidReuseVolumes value).
  unfold bind, lift, getLocalPath, getDirectoryName, reuseVolumesOption.
  rewrite Hv, Hb. split; [done|]. by exists value.
Qed.

(** X11: a reuse-mode request whose path holds a regular file is refused with
    the error for an unexpected file type, after reading the status of
    the path and nothing else. *)
Theorem Provision_regular_file p options s volumePath mode content :
  pvc_Selector (PVC options) = None ->
  reuseVolumesOption options = Ok true ->
  getLocalPath p options = Ok volumePath ->
  faults s SysStat volumePath = false ->
  fs s !! volumePath = Some (File mode content) ->
  Provision p options s
    = (Err (ErrIsFile volumePath), log (EvStat volumePath) s) /\
  kind_of (ErrIsFile volumePath) = UnexpectedFileType.
Proof.
  intros Hsel Hreuse Hpath Hstat Hfile. split; [|done].
  unfold Provision. rewrite Hsel, Hpath, Hreuse.
  unfold bind, lift, volumeExists, os_Stat. by rewrite Hstat, Hfile.
Qed.

End Refused.

Lemma Provision_rejected_witness :
  exists e,
    Provision Concrete.provisioner
      (Concrete.options_with {[ "reuseVolumes" := "maybe" ]}) Concrete.s_fresh
      = (Err e, Concrete.s_fresh) /\
    match pvc_Selector
            (PVC (Concrete.options_with {[ "reuseVolumes" := "maybe" ]})) with
    | Some _ => e = ErrSelectorNotSupported
    | None =>
        exists value,
          Parameters (Concrete.options_with {[ "reuseVolumes" := "maybe" ]})
            !! "reuseVolumes" = Some value /\
          e = ErrInvalidReuseVolumes value
    end.
Proof.
  apply (Provision_rejected Concrete.provisioner
           (Concrete.options_with {[ "reuseVolumes" := "maybe" ]})
           Concrete.s_fresh).
  right. exists "maybe". split; reflexivity.
Defined.

Lemma Provision_regular_file_witness :
  Provision Concrete.provisioner Concrete.reuse_options
    Concrete.s_regular_file
    = (Err (ErrIsFile Concrete.claim_dir),
       log (EvStat Concrete.claim_dir) Concrete.s_regular_file) /\
  kind_of (ErrIsFile Concrete.claim_dir) = UnexpectedFileType.
Proof.
  apply (Provision_regular_file Concrete.provisioner Concrete.reuse_options
           Concrete.s_regular_file Concrete.claim_dir 420 "x");
    reflexivity.
Defined.

(** ** The gidAllocate parameter *)

Lemma gid_step_other l acc :
  Forall (fun kv => strings_ToLower kv.1 <> "gidallocate") l ->
  fold_left gid_step l acc = acc.
Proof.
  intros Hl. revert acc. induction Hl as [|kv l Hkv _ IH]; intros acc; [done|].
  cbn [fold_left]. rewrite IH. destruct acc as [b|e]; [|done].
  unfold gid_step. apply String.eqb_neq in Hkv. by rewrite Hkv.
Qed.

(** X12: when the names of the parameters are ASCII and none of them is
    gidallocate in some case of letters, a GID is allocated. *)
Theorem gidAllocateOption_default options :
  (forall k v, Parameters options !! k = Some v ->
               ascii_only k = true /\ strings_ToLower k <> "gidallocate") ->
  gidAllocateOption options = Ok true.
Proof.
  intros Hno. unfold gidAllocateOption. apply (gid_step_other _ (Ok true)).
  apply Forall_forall. intros [k v] Hkv%elem_of_map_to_list.
  by destruct (Hno _ _ Hkv).
Qed.

(** X13: when the names of the parameters are ASCII, the one parameter
    whose name is gidallocate in some case of letters decides, in
    whatever order the parameters are visited: its value as a boolean,
    and an error when it is none. *)
Theorem gidAllocateOption_key options k v :
  (forall k' v', Parameters options !! k' = Some v' -> ascii_only k' = true) ->
  Parameters options !! k = Some v ->
  strings_ToLower k = "gidallocate" ->
  (forall k' v', Parameters options !! k' = Some v' ->
                 strings_ToLower k' = "gidallocate" -> k' = k) ->
  gidAllocateOption options =
    match strconv_ParseBool v with
    | Some b => Ok b
    | None => Err (ErrInvalidGidAllocate v k)
    end.
Proof.
  intros _ Hkv Hlow Huniq. unfold gidAllocateOption.
  change (fold_left gid_step (map_to_list (Parameters options)) (Ok true) =
          match strconv_ParseBool v with
          | Some b => Ok b
          | None => Err (ErrInvalidGidAllocate v k)
          end).
  pose proof (NoDup_map_to_list (Parameters options)) as Hnd.
  assert (Hall : forall kv, kv ∈ map_to_list (Parameters options) ->
            strings_ToLower kv.1 = "gidallocate" -> kv = (k, v)).
  { intros [k' v'] Hin%elem_of_map_to_list Hl. cbn in Hl.
    pose proof (Huniq _ _ Hin Hl) as ->. congruence. }
  apply elem_of_map_to_list, list_elem_of_split in Hkv as (l1 & l2 & Hl).
  rewrite Hl in Hnd, Hall. rewrite Hl.
  apply NoDup_app in Hnd as (_ & Hdisj & Hnd2).
  apply NoDup_cons in Hnd2 as [Hnot2 _].
  assert (H1 : Forall (fun kv => strings_ToLower kv.1 <> "gidallocate") l1).
  { apply Forall_forall. intros kv Hin Hlow'.
    apply (Hdisj kv Hin). rewrite (Hall kv); [left|set_solver|done]. }
  assert (H2 : Forall (fun kv => strings_ToLower kv.1 <> "gidallocate") l2).
  { apply Forall_forall. intros kv Hin Hlow'.
    apply Hnot2. rewrite <- (Hall kv); [done|set_solver|done]. }
  rewrite fold_left_app, (gid_step_other l1) by done.
  cbn [fold_left]. rewrite (gid_step_other l2) by done.
  unfold gid_step. cbn [fst snd]. rewrite Hlow. done.
Qed.

Lemma gidAllocateOption_default_witness :
  gidAllocateOption Concrete.reuse_options = Ok true.
Proof.
  apply (gidAllocateOption_default Concrete.reuse_options).
  intros k v Hk. cbn [Parameters Concrete.reuse_options Concrete.options_with] in Hk.
  apply lookup_singleton_Some in Hk as [<- _].
  split; [reflexivity|]. vm_compute. discriminate.
Defined.

Lemma gidAllocateOption_key_witness :
  gidAllocateOption (Concrete.options_with {[ "GidAllocate" := "false" ]})
    = Ok false.
Proof.
  apply (gidAllocateOption_key
           (Concrete.options_with {[ "GidAllocate" := "false" ]})
           "GidAllocate" "false"); try reflexivity.
  - intros k' v' Hk. cbn [Parameters Concrete.options_with] in Hk.
    apply lookup_singleton_Some in Hk as [<- _]. reflexivity.
  - intros k' v' Hk _. cbn [Parameters Concrete.options_with] in Hk.
    apply lookup_singleton_Some in Hk as [<- _]. reflexivity.
Defined.

(** ** Requests that create a directory *)

Section Creating.
Context `{JSON} {A : Type} `{GidAllocator A}.
Implicit Types s : state A.

Ltac to_creation Hsel Hpath Hcreate :=
  let Hreuse := fresh "Hreuse" in
  let Hstat := fresh "Hstat" in
  let Hnone := fresh "Hnone" in
  unfold Provision; rewrite Hsel, Hpath;
  destruct Hcreate as [Hreuse|(Hreuse & Hstat & Hnone)]; rewrite Hreuse;
  unfold bind, lift, ret; cbn [fst snd];
  [|rewrite (volumeExists_absent _ _ Hstat Hnone); cbn [fst snd]].

(** X14: a value of the gidAllocate parameter that is no boolean is an error
    of the request; nothing has been allocated, made or written. *)
Theorem Provision_invalid_gidAllocate p options s volumePath e :
  pvc_Selector (PVC options) = None ->
  getLocalPath p options = Ok volumePath ->
  to_create options volumePath s ->
  gidAllocateOption options = Err e ->
  exists s',
    Provision p options s = (Err e, s') /\
    fs s' = fs s /\ alloc s' = alloc s /\
    List.filter is_change (trace s') = List.filter is_change (trace s).
Proof.
  intros Hsel Hpath Hcreate Hga.
  to_creation Hsel Hpath Hcreate; rewrite Hga; by eexists.
Qed.

(** X15: when the allocator gives no GID the request fails with its error,
    and no directory has been made. *)
Theorem Provision_allocation_fails p options s volumePath msg a :
  pvc_Selector (PVC options) = None ->
  getLocalPath p options = Ok volumePath ->
  to_create options volumePath s ->
  gidAllocateOption options = Ok true ->
  allocator_AllocateNext options (alloc s) = (inl msg, a) ->
  exists s',
    Provision p options s = (Err (ErrAllocator msg), s') /\
    fs s' = fs s /\ alloc s' = a /\
    List.filter is_change (trace s')
      = EvAllocateNext :: List.filter is_change (trace s).
Proof.
  intros Hsel Hpath Hcreate Hga Hal.
  to_creation Hsel Hpath Hcreate; rewrite Hga; unfold AllocateNext;
    cbn [alloc log]; rewrite Hal; by eexists.
Qed.

Lemma os_MkdirAll_state path perm s :
  faults (os_MkdirAll path perm s).2 = faults s /\
  alloc (os_MkdirAll path perm s).2 = alloc s /\
  trace (os_MkdirAll path perm s).2 = EvMkdirAll path perm :: trace s.
Proof.
  unfold os_MkdirAll. destruct (faults s SysMkdirAll path); [done|].
  destruct (String.eqb path ""); [done|].
  by destruct (mkdir_all _ _ _ _ _) as [[e|] m].
Qed.

(** [createVolume] leaves the allocator alone. *)
Lemma createVolume_state p path gid s :
  alloc (createVolume p path gid s).2 = alloc s /\
  (In EvRelease (trace (createVolume p path gid s).2) ->
   In EvRelease (trace s)).
Proof.
  unfold createVolume, bind.
  destruct (os_MkdirAll_state path (volume_perm gid) s) as (_ & Ha1 & Ht1).
  destruct (os_MkdirAll path (volume_perm gid) s) as [[[]|e1] s1];
    cbn [fst snd] in *.
  2:{ rewrite Ha1, Ht1. split; [done|]. by intros [|]. }
  destruct (os_Chmod_state path (volume_perm gid) s1) as (_ & Ha2 & Ht2).
  destruct (os_Chmod path (volume_perm gid) s1) as [[[]|e2] s2];
    cbn [fst snd] in *.
  2:{ destruct (os_RemoveAll_trace path s2) as [-> ->].
      rewrite Ha2, Ht2, Ha1, Ht1. split; [done|].
      intros [|[|[|]]]; done. }
  destruct gid as [g|]; cbn [fst snd].
  2:{ rewrite Ha2, Ht2, Ha1, Ht1. split; [done|]. intros [|[|]]; done. }
  destruct (exec_chgrp_state (strconv_Itoa g) path s2) as (_ & Ha3 & Ht3).
  destruct (exec_chgrp (strconv_Itoa g) path s2) as [[[]|e3] s3];
    cbn [fst snd] in *.
  - rewrite Ha3, Ht3, Ha2, Ht2, Ha1, Ht1. split; [done|].
    intros [|[|[|]]]; done.
  - destruct (os_RemoveAll_trace path s3) as [-> ->].
    rewrite Ha3, Ht3, Ha2, Ht2, Ha1, Ht1. split; [done|].
    intros [|[|[|[|]]]]; done.
Qed.

Lemma writeVolumeMetadata_state dir md s :
  alloc (writeVolumeMetadata dir md s).2 = alloc s /\
  (In EvRelease (trace (writeVolumeMetadata dir md s).2) ->
   In EvRelease (trace s)).
Proof.
  unfold writeVolumeMetadata. destruct (json_MarshalIndent md); [|done].
  unfold ioutil_WriteFile. generalize (getMetaDataPath dir). intros mdpath.
  destruct (faults s SysWriteFile mdpath).
  { split; [done|]. by intros [|]. }
  destruct (fs s !! mdpath) as [[]|].
  1,2: split; [done|]; by intros [|].
  destruct (parent_paths mdpath) as [|d ?].
  { split; [done|]; by intros [|]. }
  destruct (fs s !! d) as [[]|]; (split; [done|]; by intros [|]).
Qed.

(** X16: a GID that [Provision] has allocated stays allocated, whether the
    request succeeds or fails afterwards: the state of the allocator is
    the one that the allocation has left, and [Release] is not called. *)
Theorem Provision_allocation_kept p options s volumePath g a r s' :
  pvc_Selector (PVC options) = None ->
  getLocalPath p options = Ok volumePath ->
  to_create options volumePath s ->
  gidAllocateOption options = Ok true ->
  allocator_AllocateNext options (alloc s) = (inr g, a) ->
  Provision p options s = (r, s') ->
  alloc s' = a /\
  (In EvRelease (trace s') -> In EvRelease (trace s)).
Proof.
  intros Hsel Hpath Hcreate Hga Hal.
  destruct (getRemotePath_ok _ _ _ Hpath) as [remotePath Hremote].
  to_creation Hsel Hpath Hcreate; rewrite Hga; unfold AllocateNext;
    cbn [alloc log]; rewrite Hal; cbn [fst snd].
  - set (s1 := set_alloc a _).
    destruct (createVolume_state p volumePath (Some g) s1) as [Ha Ht].
    destruct (createVolume p volumePath (Some g) s1) as [[[]|e] s2];
      cbn [fst snd] in *.
    + rewrite Hremote. intros [= _ <-]. split; [done|].
      intros Hin%Ht. by destruct Hin.
    + intros [= _ <-]. split; [done|]. intros Hin%Ht. by destruct Hin.
  - set (s1 := set_alloc a _).
    destruct (createVolume_state p volumePath (Some g) s1) as [Ha Ht].
    destruct (createVolume p volumePath (Some g) s1) as [[[]|e] s2];
      cbn [fst snd] in *.
    + unfold ignore_error. cbn [fst snd]. rewrite Hremote.
      set (md := claimMetadata _ _).
      destruct (writeVolumeMetadata_state volumePath md s2) as [Ha' Ht'].
      intros [= _ <-]. split; [by rewrite Ha', Ha|].
      intros Hin%Ht'%Ht. destruct Hin as [|[|]]; done.
    + intros [= _ <-]. split; [done|]. intros Hin%Ht.
      destruct Hin as [|[|]]; done.
Qed.

End Creating.

Lemma Provision_invalid_gidAllocate_witness :
  exists s',
    Provision Concrete.provisioner
      (Concrete.options_with {[ "gidAllocate" := "perhaps" ]}) Concrete.s_fresh
      = (Err (ErrInvalidGidAllocate "perhaps" "gidAllocate"), s') /\
    fs s' = fs Concrete.s_fresh /\ alloc s' = alloc Concrete.s_fresh /\
    List.filter is_change (trace s')
      = List.filter is_change (trace Concrete.s_fresh).
Proof.
  apply (Provision_invalid_gidAllocate Concrete.provisioner
           (Concrete.options_with {[ "gidAllocate" := "perhaps" ]})
           Concrete.s_fresh Concrete.ephemeral_dir); try reflexivity.
  left. reflexivity.
Defined.

Lemma Provision_allocation_fails_witness :
  exists s',
    Provision Concrete.provisioner Concrete.reuse_options Concrete.s_full
      = (Err (ErrAllocator "range full"), s') /\
    fs s' = fs Concrete.s_full /\ alloc s' = alloc Concrete.s_full /\
    List.filter is_change (trace s')
      = EvAllocateNext :: List.filter is_change (trace Concrete.s_full).
Proof.
  apply (Provision_allocation_fails Concrete.provisioner
           Concrete.reuse_options Concrete.s_full Concrete.claim_dir);
    try reflexivity.
  right. repeat split; reflexivity.
Defined.

Lemma Provision_allocation_kept_witness :
  let run := Provision Concrete.provisioner Concrete.reuse_options
               Concrete.s_mkdir_fails in
  run.1 = Err (ErrOS EIO) /\
  alloc run.2 = Concrete.table {[2000]} /\
  (In EvRelease (trace run.2) -> In EvRelease (trace Concrete.s_mkdir_fails)).
Proof.
  intros run. split; [vm_compute; reflexivity|].
  apply (Provision_allocation_kept Concrete.provisioner
           Concrete.reuse_options Concrete.s_mkdir_fails Concrete.claim_dir
           2000 (Concrete.table {[2000]}) run.1 run.2); try reflexivity.
  right. repeat split; reflexivity.
Defined.

(** ** A recorded GID that is no group id *)

Section RecordedGid.
Context `{JSON} {A : Type} `{GidAllocator A}.
Implicit Types s : state A.

(** X17: a reuse-mode request against an existing directory whose metadata
    is that of the claim, with a GID that is not a 32-bit unsigned
    number: the validation takes the recorded GID to be 0.  The request
    fails with a GID inconsistency that names 0 when the group of the
    directory is another; when the group is 0 the validation passes, and
    the request fails all the same unless [strconv.Atoi] reads the
    recorded GID as 0. *)
Theorem Provision_gid_not_unsigned
    p options s volumePath mode existingGid fmode content md :
  pvc_Selector (PVC options) = None ->
  reuseVolumesOption options = Ok true ->
  getLocalPath p options = Ok volumePath ->
  faults s SysStat volumePath = false ->
  fs s !! volumePath = Some (Dir mode existingGid) ->
  faults s SysReadFile (getMetaDataPath volumePath) = false ->
  fs s !! getMetaDataPath volumePath = Some (File fmode content) ->
  json_Unmarshal content = Some md ->
  StorageClassName md = GetPersistentVolumeClaimClass (PVC options) ->
  PVCName md = pvc_Name (PVC options) ->
  PVCNamespace md = pvc_Namespace (PVC options) ->
  GID md <> "" ->
  GidAsUInt md = None ->
  (existingGid <> 0 ->
     Provision p options s
       = (Err (ErrExistingGid volumePath existingGid 0),
          inspected volumePath s))
  /\
  (existingGid = 0 ->
     validatePreexistingVolume options (Some md) volumePath existingGid
       = Ok tt /\
     (strconv_Atoi (GID md) <> Some 0 ->
      exists e,
        Provision p options s = (Err e, inspected volumePath s) /\
        (e = ErrInvalidMetadataGid (GID md) \/
         e = ErrDirectoryGid volumePath 0 (GID md)))).
Proof.
  intros Hsel Hreuse Hpath Hstat Hdir Hfault Hfile Hjson Hclass Hname Hns
    Hne Hgid.
  apply String.eqb_neq in Hne.
  assert (Hread : readVolumeMetadata volumePath (log (EvStat volumePath) s)
                  = (Ok (Some md), inspected volumePath s)).
  { rewrite (readVolumeMetadata_file _ _ fmode content) by done.
    by rewrite Hjson. }
  assert (Hval : validatePreexistingVolume options (Some md) volumePath
                   existingGid
                 = if existingGid =? 0 then Ok tt
                   else Err (ErrExistingGid volumePath existingGid 0)).
  { unfold validatePreexistingVolume.
    rewrite Hclass, Hname, Hns, !String.eqb_refl, Hne, Hgid. simpl.
    by destruct (existingGid =? 0). }
  split.
  - intros Hdiff. apply Z.eqb_neq in Hdiff. rewrite Hdiff in Hval.
    by apply (Provision_existing p options s volumePath mode existingGid
                (Some md)).
  - intros ->. split; [done|]. intros Hatoi.
    unfold Provision. rewrite Hsel, Hpath, Hreuse. unfold bind, lift. simpl.
    rewrite (volumeExists_dir _ _ _ _ Hstat Hdir). simpl.
    rewrite Hread, Hval, Hne. simpl.
    destruct (strconv_Atoi (GID md)) as [k|].
    + destruct k as [|k|k]; [done| |];
        (eexists; split; [reflexivity|by right]).
    + eexists. split; [reflexivity|by left].
Qed.

End RecordedGid.

Lemma Provision_gid_not_unsigned_witness :
  Provision Concrete.provisioner Concrete.reuse_options Concrete.s_bad_gid
    = (Err (ErrExistingGid Concrete.claim_dir 2000 0),
       inspected Concrete.claim_dir Concrete.s_bad_gid).
Proof.
  refine (proj1 (Provision_gid_not_unsigned Concrete.provisioner
            Concrete.reuse_options Concrete.s_bad_gid Concrete.claim_dir
            (volume_perm (Some 2000)) 2000 perm_0600
            (default "" (Concrete.marshal Concrete.md_bad_gid))
            Concrete.md_bad_gid _ _ _ _ _ _ _ _ _ _ _ _ _) _);
    try reflexivity; discriminate.
Defined.

(** ** The directory that [createVolume] makes *)

Section Made.
Context `{JSON} {A : Type} `{GidAllocator A}.
Implicit Types s : state A.

(** X18: after [createVolume] has succeeded the path holds a directory whose
    mode is the one asked for, whatever the umask: [0777] without a GID,
    and [0771] with the set-group-ID bit and the GID as its group with
    one. *)
Theorem createVolume_mode p path gid s s' :
  createVolume p path gid s = (Ok tt, s') ->
  exists gd,
    fs s' !! path = Some (Dir (volume_perm gid) gd) /\
    match gid with
    | Some g =>
        gd = g /\ volume_perm gid = Z.lor perm_0771 ModeSetgid /\
        Z.testbit (volume_perm gid) 22 = true
    | None => volume_perm gid = perm_0777
    end.
Proof.
  unfold createVolume, bind.
  destruct (os_MkdirAll path (volume_perm gid) s) as [[[]|e1] s1] eqn:Hmk;
    [|done].
  destruct (os_MkdirAll_ok _ _ _ _ Hmk) as (_ & _ & _ & _ & mode & g0 & Hdir).
  unfold os_Chmod. destruct (faults s1 SysChmod path); [done|].
  rewrite Hdir. destruct gid as [g|].
  - unfold exec_chgrp. cbn [faults log fs set_fs].
    destruct (faults s1 SysChgrp path); [done|].
    rewrite lookup_insert_eq.
    destruct (strconv_ParseUint32 (strconv_Itoa g)) as [g'|] eqn:Hg; [|done].
    apply ParseUint32_Itoa_inv in Hg as [-> Hr].
    intros [= <-]. cbn [fs set_fs log]. rewrite lookup_insert_eq.
    eexists. split; [done|]. done.
  - intros [= <-]. cbn [fs set_fs log]. rewrite lookup_insert_eq.
    eexists. split; [done|]. done.
Qed.

End Made.

Lemma createVolume_mode_witness :
  exists gd,
    fs (createVolume Concrete.provisioner Concrete.claim_dir (Some 2000)
          Concrete.s_fresh).2 !! Concrete.claim_dir
    = Some (Dir (volume_perm (Some 2000)) gd) /\
    gd = 2000 /\
    volume_perm (Some 2000) = Z.lor perm_0771 ModeSetgid /\
    Z.testbit (volume_perm (Some 2000)) 22 = true.
Proof.
  apply (createVolume_mode Concrete.provisioner Concrete.claim_dir (Some 2000)
           Concrete.s_fresh).
  vm_compute. reflexivity.
Defined.

(** ** The metadata file *)

Section Stored.
Context `{JSON} {A : Type}.
Implicit Types s : state A.

Lemma writeVolumeMetadata_ok dir md s s1 :
  writeVolumeMetadata dir md s = (Ok tt, s1) ->
  exists c mode,
    json_MarshalIndent md = Some c /\
    fs s1 !! getMetaDataPath dir = Some (File mode c) /\
    faults s1 = faults s /\
    (fs s !! getMetaDataPath dir = None ->
     mode = Z.land perm_0600 (Z.lnot (umask s))) /\
    (forall m0 c0, fs s !! getMetaDataPath dir = Some (File m0 c0) ->
                   mode = m0) /\
    (forall m0 g0, fs s !! getMetaDataPath dir <> Some (Dir m0 g0)).
Proof.
  unfold writeVolumeMetadata. destruct (json_MarshalIndent md) as [c|]; [|done].
  unfold ioutil_WriteFile. generalize (getMetaDataPath dir). intros mdpath.
  destruct (faults s SysWriteFile mdpath); [done|].
  destruct (fs s !! mdpath) as [[m g'|m c']|] eqn:Hmd; [done| |].
  - intros [= <-]. cbn. rewrite lookup_insert_eq.
    exists c, m. repeat split; try done. by intros ?? [= <- _].
  - destruct (parent_paths mdpath) as [|d ?].
    { intros [= <-]. cbn. rewrite lookup_insert_eq.
      eexists c, _. repeat split; done. }
    destruct (fs s !! d) as [[]|]; try done.
    intros [= <-]. cbn. rewrite lookup_insert_eq.
    eexists c, _. repeat split; done.
Qed.

(** X19: what [writeVolumeMetadata] has written, [readVolumeMetadata] reads
    back, when the decoder undoes the encoder on the record. *)
Theorem write_then_read dir md s s1 :
  writeVolumeMetadata dir md s = (Ok tt, s1) ->
  (forall c, json_MarshalIndent md = Some c -> json_Unmarshal c = Some md) ->
  faults s SysReadFile (getMetaDataPath dir) = false ->
  readVolumeMetadata dir s1
    = (Ok (Some md), log (EvReadFile (getMetaDataPath dir)) s1).
Proof.
  intros (c & mode & Hc & Hfile & Hf & _)%writeVolumeMetadata_ok Hcodec Hfault.
  rewrite (readVolumeMetadata_file _ _ mode c); [|by rewrite Hf|done].
  by rewrite (Hcodec c Hc).
Qed.

(** X20: a metadata file that [writeVolumeMetadata] creates has no
    permission bit for the group or for others, whatever the umask; one
    that was there keeps the mode it had. *)
Theorem metadata_file_mode dir md s s1 :
  writeVolumeMetadata dir md s = (Ok tt, s1) ->
  exists mode c,
    fs s1 !! getMetaDataPath dir = Some (File mode c) /\
    json_MarshalIndent md = Some c /\
    match fs s !! getMetaDataPath dir with
    | Some (File m0 _) => mode = m0
    | _ => Z.land mode perm_0777 = Z.land perm_0600 (Z.lnot (umask s)) /\
           Z.land mode 63 = 0
    end.
Proof.
  intros (c & mode & Hc & Hfile & _ & Hnew & Hold & Hnodir)%writeVolumeMetadata_ok.
  exists mode, c. split; [done|]. split; [done|].
  destruct (fs s !! getMetaDataPath dir) as [[m0 g0|m0 c0]|] eqn:Hmd.
  - by destruct (Hnodir m0 g0).
  - by eapply Hold.
  - rewrite Hnew by done. split.
    + rewrite <- Z.land_assoc, (Z.land_comm (Z.lnot _)), Z.land_assoc. done.
    + rewrite (Z.land_comm perm_0600), <- Z.land_assoc. 
      change (Z.land perm_0600 63) with 0. apply Z.land_0_r.
Qed.

End Stored.

(** X21: the record that [Provision] writes for a claim passes the validation
    of a later request of the same claim exactly when the directory has
    the recorded group; a record without a GID passes whatever the
    group. *)
Theorem claimMetadata_validates options volumePath existingGid :
  validatePreexistingVolume options (Some (claimMetadata options ""))
    volumePath existingGid = Ok tt /\
  forall g, 0 <= g < 2 ^ 32 ->
    (validatePreexistingVolume options
       (Some (claimMetadata options (strconv_Itoa g))) volumePath existingGid
     = Ok tt <-> existingGid = g).
Proof.
  unfold validatePreexistingVolume, claimMetadata.
  cbn [GID PVCName PVCNamespace StorageClassName].
  rewrite !String.eqb_refl. cbn [negb orb]. split; [done|].
  intros g Hg. pose proof (ParseUint32_Itoa g Hg) as Hp.
  rewrite (Itoa_nonempty g g Hp). cbn [negb].
  unfold GidAsUInt. cbn [GID]. rewrite Hp. unfold default, id.
  destruct (Z.eqb_spec existingGid g); cbn [negb]; split; done.
Qed.

Lemma write_then_read_witness :
  let s1 := (writeVolumeMetadata Concrete.claim_dir Concrete.md_claim_a
               Concrete.s_nofile).2 in
  readVolumeMetadata Concrete.claim_dir s1
    = (Ok (Some Concrete.md_claim_a),
       log (EvReadFile (getMetaDataPath Concrete.claim_dir)) s1).
Proof.
  intros s1.
  apply (write_then_read Concrete.claim_dir Concrete.md_claim_a
           Concrete.s_nofile s1); try reflexivity.
  intros c Hc. vm_compute in Hc. injection Hc as <-. vm_compute. reflexivity.
Defined.

Lemma metadata_file_mode_witness :
  exists mode c,
    fs (writeVolumeMetadata Concrete.claim_dir Concrete.md_claim_a
          Concrete.s_nofile).2 !! getMetaDataPath Concrete.claim_dir
    = Some (File mode c) /\
    json_MarshalIndent Concrete.md_claim_a = Some c /\
    Z.land mode perm_0777 = Z.land perm_0600 (Z.lnot (umask Concrete.s_nofile)) /\
    Z.land mode 63 = 0.
Proof.
  apply (metadata_file_mode Concrete.claim_dir Concrete.md_claim_a
           Concrete.s_nofile). reflexivity.
Defined.

Lemma claimMetadata_validates_witness :
  validatePreexistingVolume Concrete.reuse_options
    (Some (claimMetadata Concrete.reuse_options (strconv_Itoa 2000)))
    Concrete.claim_dir 2000 = Ok tt.
Proof.
  apply (proj2 (claimMetadata_validates Concrete.reuse_options
                  Concrete.claim_dir 2000) 2000); [lia|reflexivity].
Defined.

(** ** The table after the scan *)

Section Scan.
Context `{JSON}.
Implicit Types s : state MinMaxAllocator.

Lemma readVolumeMetadata_same {A B} dir (s1 : state A) (s2 : state B) :
  fs s1 = fs s2 -> faults s1 = faults s2 ->
  (readVolumeMetadata dir s1).1 = (readVolumeMetadata dir s2).1.
Proof.
  intros Hfs Hf. unfold readVolumeMetadata, ioutil_ReadFile. rewrite Hfs, Hf.
  destruct (faults s2 SysReadFile (getMetaDataPath dir)); [done|].
  destruct (fs s2 !! getMetaDataPath dir) as [[]|]; cbn; try done.
  by destruct (json_Unmarshal content).
Qed.

Lemma recorded_same {A B} f classname (s1 : state A) (s2 : state B) name g :
  fs s1 = fs s2 -> faults s1 = faults s2 ->
  recorded f classname s1 name g <-> recorded f classname s2 name g.
Proof.
  intros Hfs Hf. unfold recorded.
  by rewrite (readVolumeMetadata_same _ s1 s2).
Qed.

(** What one entry does to the table. *)
Lemma reclaim_entry_table f classname entry s :
  let s' := reclaim_entry f classname entry s in
  fs s' = fs s /\ faults s' = faults s /\
  range_min (alloc s') = range_min (alloc s) /\
  range_max (alloc s') = range_max (alloc s) /\
  forall g,
    g ∈ used (alloc s') <->
    g ∈ used (alloc s) \/
    (range_min (alloc s) <= g <= range_max (alloc s) /\
     entry.2 = true /\ recorded f classname s entry.1 g).
Proof.
  destruct (reclaim_entry_fs f classname entry s) as [Hfs Hf].
  cbn zeta. split; [done|]. split; [done|]. clear Hfs Hf.
  unfold reclaim_entry, recorded. destruct entry as [name isdir].
  cbn [fst snd]. set (mddir := path_Join [BasePath f; name]).
  destruct isdir; cbn [negb].
  2:{ do 2 (split; [done|]). intros g. split; [by left|].
      by intros [?|(_ & ? & _)]. }
  pose proof (readVolumeMetadata_state mddir s) as Hs.
  destruct (readVolumeMetadata mddir s) as [[[md|]|err] s'];
    cbn [fst snd] in *; subst s'.
  2,3: do 2 (split; [done|]); intros g; (split; [by left|]);
       by intros [?|(_ & _ & md & ? & _)].
  destruct (String.eqb_spec (GID md) "") as [Hg|Hg].
  { do 2 (split; [done|]). intros g. split; [by left|].
    by intros [?|(_ & _ & md' & [= <-] & ? & _)]. }
  destruct (String.eqb_spec (StorageClassName md) classname) as [Hc|Hc];
    cbn [negb].
  2:{ do 2 (split; [done|]). intros g. split; [by left|].
      by intros [?|(_ & _ & md' & [= <-] & _ & ? & _)]. }
  destruct (strconv_Atoi (GID md)) as [gid|] eqn:Hatoi.
  2:{ do 2 (split; [done|]). intros g. split; [by left|].
      intros [?|(_ & _ & md' & [= <-] & _ & _ & ?)]; [done|congruence]. }
  unfold gidtable_Allocate. cbn [alloc log set_alloc].
  destruct (Z.leb_spec (range_min (alloc s)) gid) as [Hlo|Hlo];
    destruct (Z.leb_spec gid (range_max (alloc s))) as [Hhi|Hhi];
    cbn [andb negb].
  2-4: do 2 (split; [done|]); intros g; (split; [by left|]);
       intros [?|(Hr & _ & md' & [= <-] & _ & _ & Hg')]; [done|];
       assert (g = gid) by congruence; lia.
  case_bool_decide as Hin; cbn [alloc set_alloc log range_min range_max used].
  - do 2 (split; [done|]). intros g. split; [by left|].
    intros [?|(Hr & _ & md' & [= <-] & _ & _ & Hg')]; [done|].
    assert (g = gid) by congruence. by subst.
  - do 2 (split; [done|]). intros g. rewrite elem_of_union, elem_of_singleton.
    split.
    + intros [->|?]; [right|by left]. split; [lia|]. split; [done|].
      by exists md.
    + intros [?|(Hr & _ & md' & [= <-] & _ & _ & Hg')]; [by right|].
      left. congruence.
Qed.

(** What the entries of a listing do to the table. *)
Lemma reclaim_entries_table f classname entries s :
  let s' := reclaim_entries f classname entries s in
  fs s' = fs s /\ faults s' = faults s /\
  range_min (alloc s') = range_min (alloc s) /\
  range_max (alloc s') = range_max (alloc s) /\
  forall g,
    g ∈ used (alloc s') <->
    g ∈ used (alloc s) \/
    (range_min (alloc s) <= g <= range_max (alloc s) /\
     exists name, (name, true) ∈ entries /\ recorded f classname s name g).
Proof.
  cbn zeta. revert s. induction entries as [|entry entries IH]; intros s.
  - do 4 (split; [done|]). intros g. split; [by left|].
    intros [?|(_ & name & Hin & _)]; [done|]. by apply elem_of_nil in Hin.
  - change (reclaim_entries f classname (entry :: entries) s)
      with (reclaim_entries f classname entries
              (reclaim_entry f classname entry s)).
    destruct (reclaim_entry_table f classname entry s)
      as (Hfs & Hf & Hlo & Hhi & Hone).
    destruct (IH (reclaim_entry f classname entry s))
      as (Hfs' & Hf' & Hlo' & Hhi' & Hrest).
    split; [congruence|]. split; [congruence|].
    split; [congruence|]. split; [congruence|].
    intros g. rewrite Hrest, Hone, Hlo, Hhi. split.
    + intros [[?|(Hr & Hd & Hrec)]|(Hr & name & Hin & Hrec)].
      * by left.
      * right. split; [done|]. exists entry.1. split; [|done].
        destruct entry as [name isdir]. cbn in *. subst. by left.
      * right. split; [done|]. exists name. split; [by right|].
        by apply (recorded_same f classname _ s) in Hrec.
    + intros [?|(Hr & name & Hin & Hrec)]; [by left; left|].
      apply elem_of_cons in Hin as [<-|Hin].
      * left. right. done.
      * right. split; [done|]. exists name. split; [done|].
        by apply (recorded_same f classname _ s).
Qed.

(** The directories in the listing of a directory. *)
Lemma ioutil_ReadDir_dirs {A} base (st : state A) entries st' :
  ioutil_ReadDir base st = (Ok entries, st') ->
  st' = log (EvReadDir base) st /\
  faults st SysReadDir base = false /\
  (exists m g, fs st !! base = Some (Dir m g)) /\
  forall name,
    (name, true) ∈ entries <->
    exists k mode gd,
      fs st !! k = Some (Dir mode gd) /\ child_name base k = Some name.
Proof.
  unfold ioutil_ReadDir. destruct (faults st SysReadDir base); [done|].
  destruct (fs st !! base) as [[m g|]|] eqn:Hbase; [|done..].
  intros [= <- <-]. split; [done|]. split; [done|]. split; [by eauto|].
  intros name. rewrite merge_sort_Permutation, list_elem_of_omap. split.
  - intros ([k n] & Hin%elem_of_map_to_list & Hname). cbn [fst snd] in Hname.
    destruct (child_name base k) as [name'|] eqn:Hchild; [|done].
    destruct n as [mode gd|]; cbn in Hname; [|done].
    injection Hname as ->. by exists k, mode, gd.
  - intros (k & mode & gd & Hk & Hname). exists (k, Dir mode gd).
    split; [by apply elem_of_map_to_list|]. cbn [fst snd]. by rewrite Hname.
Qed.

(** The table after a scan that could list the base path. *)
Lemma Reclaim_scan f classname s m0 g0 :
  faults s SysReadDir (BasePath f) = false ->
  fs s !! BasePath f = Some (Dir m0 g0) ->
  exists s',
    Reclaim f classname s = (Ok tt, s') /\
    fs s' = fs s /\
    range_min (alloc s') = range_min (alloc s) /\
    range_max (alloc s') = range_max (alloc s) /\
    forall g,
      g ∈ used (alloc s') <->
      g ∈ used (alloc s) \/
      (range_min (alloc s) <= g <= range_max (alloc s) /\
       exists k mode gd name,
         fs s !! k = Some (Dir mode gd) /\
         child_name (BasePath f) k = Some name /\
         recorded f classname s name g).
Proof.
  intros Hfault Hbase. unfold Reclaim.
  destruct (ioutil_ReadDir (BasePath f) s) as [[entries|e] s0] eqn:Hls.
  2:{ unfold ioutil_ReadDir in Hls. by rewrite Hfault, Hbase in Hls. }
  destruct (ioutil_ReadDir_dirs _ _ _ _ Hls) as (-> & _ & _ & Hdirs).
  eexists. split; [done|].
  destruct (reclaim_entries_table f classname entries
              (log (EvReadDir (BasePath f)) s))
    as (Hfs & _ & Hlo & Hhi & Hused).
  do 3 (split; [done|]). intros g. rewrite Hused. cbn [alloc log].
  split.
  - intros [?|(Hr & name & Hin%Hdirs & Hrec)]; [by left|].
    right. split; [done|]. destruct Hin as (k & mode & gd & Hk & Hname).
    exists k, mode, gd, name. repeat split; try done.
    by apply (recorded_same f classname _ s) in Hrec.
  - intros [?|(Hr & k & mode & gd & name & Hk & Hname & Hrec)]; [by left|].
    right. split; [done|]. exists name. split.
    + apply Hdirs. by exists k, mode, gd.
    + by apply (recorded_same f classname _ s).
Qed.

(** X22: [Reclaim] on a base path that is a directory and can be listed
    returns no error and leaves the file system as it is.  In the table
    after the scan the range is as before, and a GID is in use exactly
    when it was before, or when it is in the range and is the GID in
    the metadata of the storage class of a directory in the base
    path. *)
Theorem Reclaim_table f classname s m0 g0 :
  faults s SysReadDir (BasePath f) = false ->
  fs s !! BasePath f = Some (Dir m0 g0) ->
  exists s',
    Reclaim f classname s = (Ok tt, s') /\
    fs s' = fs s /\
    range_min (alloc s') = range_min (alloc s) /\
    range_max (alloc s') = range_max (alloc s) /\
    forall g,
      g ∈ used (alloc s') <->
      g ∈ used (alloc s) \/
      (range_min (alloc s) <= g <= range_max (alloc s) /\
       exists k mode gd name,
         fs s !! k = Some (Dir mode gd) /\
         child_name (BasePath f) k = Some name /\
         recorded f classname s name g).
Proof. apply Reclaim_scan. Qed.

Lemma Reclaim_ok_inv f classname s s1 :
  Reclaim f classname s = (Ok tt, s1) ->
  faults s SysReadDir (BasePath f) = false /\
  (exists m g, fs s !! BasePath f = Some (Dir m g)) /\
  faults s1 = faults s.
Proof.
  unfold Reclaim.
  destruct (ioutil_ReadDir (BasePath f) s) as [[entries|e] s0] eqn:Hls;
    [|done].
  destruct (ioutil_ReadDir_dirs _ _ _ _ Hls) as (-> & Hf & Hb & _).
  intros [= <-]. split; [done|]. split; [done|].
  by destruct (reclaim_entries_table f classname entries
                 (log (EvReadDir (BasePath f)) s)) as (_ & -> & _).
Qed.

(** X23: a second scan after a scan finds nothing to add: the table stays as
    the first scan has left it. *)
Theorem Reclaim_idempotent f classname s s1 :
  Reclaim f classname s = (Ok tt, s1) ->
  exists s2, Reclaim f classname s1 = (Ok tt, s2) /\ alloc s2 = alloc s1.
Proof.
  intros Hfirst.
  destruct (Reclaim_ok_inv _ _ _ _ Hfirst) as (Hfault & (m0 & g0 & Hbase) & Hf).
  destruct (Reclaim_scan f classname s m0 g0 Hfault Hbase)
    as (s1' & Hrun & Hfs & Hlo & Hhi & Hused).
  rewrite Hfirst in Hrun. injection Hrun as <-.
  destruct (Reclaim_scan f classname s1 m0 g0)
    as (s2 & Hsecond & Hfs2 & Hlo2 & Hhi2 & Hused2).
  { by rewrite Hf. }
  { by rewrite Hfs. }
  exists s2. split; [done|].
  assert (Hset : used (alloc s2) = used (alloc s1)).
  { apply set_eq. intros g. rewrite Hused2. split; [|by left].
    intros [?|(Hr & k & mode & gd & name & Hk & Hname & Hrec)]; [done|].
    apply Hused. right. rewrite <- Hlo, <- Hhi. split; [done|].
    exists k, mode, gd, name. rewrite <- Hfs. split; [done|]. split; [done|].
    by apply (recorded_same f classname s1 s). }
  destruct (alloc s2), (alloc s1). cbn in *. congruence.
Qed.

End Scan.

Section Recovered.
Context `{JSON} {A : Type} `{GidAllocator A}.

(** X24: a first reuse-mode request (no selector, gidAllocate on) for a
    claim whose directory name is a single path element and whose
    directory and metadata file are not there, under a mount point that
    is a directory and is written as a cleaned absolute path, when the
    allocator gives a GID that is a 32-bit unsigned number, the decoder
    undoes the encoder on the record and no call fails.  The GID of the
    volume it has made is found again by the scan of the mount point for
    the storage class of the claim, on the file system it has left and
    with no call failing: it is in the table after the scan, whatever
    the table held before, when it is in the range of the table. *)
Theorem Provision_then_Reclaim
    p options (s : state A) d g a contents m0 g0 :
  pvc_Selector (PVC options) = None ->
  reuseVolumesOption options = Ok true ->
  getDirectoryName options = Ok d ->
  is_name d = true ->
  gidAllocateOption options = Ok true ->
  allocator_AllocateNext options (alloc s) = (inr g, a) ->
  0 <= g < 2 ^ 32 ->
  json_MarshalIndent (claimMetadata options (strconv_Itoa g)) = Some contents ->
  json_Unmarshal contents = Some (claimMetadata options (strconv_Itoa g)) ->
  (forall call q, faults s call q = false) ->
  is_rooted (mountpoint p) = true ->
  path_Clean (mountpoint p) = mountpoint p ->
  fs s !! mountpoint p = Some (Dir m0 g0) ->
  fs s !! path_Join [mountpoint p; d] = None ->
  fs s !! getMetaDataPath (path_Join [mountpoint p; d]) = None ->
  exists pv s1,
    Provision p options s = (Ok pv, s1) /\
    forall sr : state MinMaxAllocator,
      fs sr = fs s1 ->
      (forall call q, faults sr call q = false) ->
      range_min (alloc sr) <= g <= range_max (alloc sr) ->
      exists sr',
        Reclaim (newFileSystemReclaimer (mountpoint p))
          (GetPersistentVolumeClaimClass (PVC options)) sr = (Ok tt, sr') /\
        g ∈ used (alloc sr').
Proof.
  intros Hsel Hreuse Hdir Hname Hga Hal Hr Hjson Hdec Hf Hroot Hclean Hmount
    Hnone Hmd.
  destruct (Provision_first_run p options s d g a contents m0 g0)
    as (pv & s1 & Hprov & _ & _ & Hfs & _); try done.
  { by rewrite Hclean. }
  exists pv, s1. split; [done|]. intros sr Hsr Hfr Hrange.
  set (vp := path_Join [mountpoint p; d]) in *.
  assert (Hchild : child_name (mountpoint p) vp = Some d).
  { unfold vp. rewrite (path_Join_child _ _ Hname Hroot), Hclean.
    by apply child_name_app. }
  assert (Hneq : getMetaDataPath vp <> vp).
  { destruct (path_Join_name_facts (mountpoint p) d Hname)
      as (_ & _ & _ & Hmdpath & _). fold vp in Hmdpath.
    rewrite Hmdpath. apply append_neq. }
  assert (Hneq' : vp <> mountpoint p) by (intros Heq; congruence).
  assert (Hneq'' : getMetaDataPath vp <> mountpoint p)
    by (intros Heq; congruence).
  destruct (Reclaim_scan (newFileSystemReclaimer (mountpoint p))
              (GetPersistentVolumeClaimClass (PVC options)) sr m0 g0)
    as (sr' & Hrun & _ & _ & _ & Hused).
  { apply Hfr. }
  { cbn [BasePath newFileSystemReclaimer].
    by rewrite Hsr, Hfs, !lookup_insert_ne. }
  exists sr'. split; [done|]. apply Hused. right. split; [done|].
  exists vp, (Z.lor perm_0771 ModeSetgid), g, d.
  split; [by rewrite Hsr, Hfs, lookup_insert_ne, lookup_insert_eq|].
  split; [done|].
  exists (claimMetadata options (strconv_Itoa g)).
  cbn [BasePath newFileSystemReclaimer]. fold vp.
  rewrite (readVolumeMetadata_file _ _
             (Z.land perm_0600 (Z.lnot (umask s))) contents).
  2:{ apply Hfr. }
  2:{ by rewrite Hsr, Hfs, lookup_insert_eq. }
  rewrite Hdec. split; [done|]. cbn [claimMetadata GID StorageClassName].
  pose proof (ParseUint32_Itoa g Hr) as Hp.
  split; [|split; [done|by apply Atoi_Itoa]].
  apply String.eqb_neq. by apply (Itoa_nonempty g g).
Qed.

End Recovered.

Lemma Reclaim_table_witness :
  let f := newFileSystemReclaimer "/mnt/efs" in
  let s := Concrete.state_of Concrete.fleet Concrete.no_faults ∅ in
  exists s',
    Reclaim f "efs" s = (Ok tt, s') /\
    fs s' = fs s /\
    range_min (alloc s') = range_min (alloc s) /\
    range_max (alloc s') = range_max (alloc s) /\
    forall g,
      g ∈ used (alloc s') <->
      g ∈ used (alloc s) \/
      (range_min (alloc s) <= g <= range_max (alloc s) /\
       exists k mode gd name,
         fs s !! k = Some (Dir mode gd) /\
         child_name (BasePath f) k = Some name /\
         recorded f "efs" s name g).
Proof.
  intros f s. apply (Reclaim_table f "efs" s 493 0); reflexivity.
Defined.

Lemma Reclaim_idempotent_witness :
  let f := newFileSystemReclaimer "/mnt/efs" in
  let s1 := (Reclaim f "efs"
               (Concrete.state_of Concrete.fleet Concrete.no_faults ∅)).2 in
  exists s2, Reclaim f "efs" s1 = (Ok tt, s2) /\ alloc s2 = alloc s1.
Proof.
  intros f s1.
  apply (Reclaim_idempotent f "efs"
           (Concrete.state_of Concrete.fleet Concrete.no_faults ∅) s1).
  vm_compute. reflexivity.
Defined.

Lemma Provision_then_Reclaim_witness :
  exists pv s1 sr',
    Provision Concrete.provisioner Concrete.reuse_options Concrete.s_fresh
      = (Ok pv, s1) /\
    Reclaim (newFileSystemReclaimer "/mnt/efs") "efs" Concrete.s_restarted
      = (Ok tt, sr') /\
    2000 ∈ used (alloc sr').
Proof.
  destruct (Provision_then_Reclaim Concrete.provisioner Concrete.reuse_options
              Concrete.s_fresh "claim-a-ns1" 2000 (Concrete.table {[2000]})
              (default "" (Concrete.marshal Concrete.md_claim_a)) 493 0)
    as (pv & s1 & Hrun & Hscan); try reflexivity; [lia|].
  assert (Hfirst : Provision Concrete.provisioner Concrete.reuse_options
                     Concrete.s_fresh
                   = (Ok Concrete.first_volume, Concrete.s_first))
    by (vm_compute; reflexivity).
  rewrite Hfirst in Hrun. injection Hrun as <- <-.
  destruct (Hscan Concrete.s_restarted) as (sr' & Hr & Hin);
    [reflexivity|reflexivity|simpl; lia|].
  exists Concrete.first_volume, Concrete.s_first, sr'.
  split; [exact Hfirst|]. split; [exact Hr|exact Hin].
Defined.

(** ** Finding the mount *)

Lemma first_mount_spec dnsName entries found :
  first_mount dnsName entries = Some found <->
  exists before e after,
    entries = (before ++ e :: after)%list /\
    Forall (fun e' => strings_HasPrefix (info_Source e') dnsName = false)
      before /\
    strings_HasPrefix (info_Source e) dnsName = true /\
    found = (info_Mountpoint e, info_Source e).
Proof.
  induction entries as [|e entries IH]; cbn [first_mount].
  - split; [done|]. intros (before & e & after & Heq & _).
    by destruct before.
  - destruct (strings_HasPrefix (info_Source e) dnsName) eqn:He.
    + split.
      * intros [= <-]. by exists [], e, entries.
      * intros ([|e' before] & e0 & after & Heq & Hb & He0 & ->).
        -- by injection Heq as <- _.
        -- injection Heq as <- _. inversion Hb; congruence.
    + rewrite IH. split.
      * intros (before & e0 & after & -> & Hb & He0 & ->).
        exists (e :: before), e0, after. repeat split; try done.
        by constructor.
      * intros ([|e' before] & e0 & after & Heq & Hb & He0 & ->).
        -- injection Heq as <- _. congruence.
        -- injection Heq as <- ->. inversion Hb; subst.
           by exists before, e0, after.
Qed.

(** X25: [getMount] gives the mount point and the source of the first entry
    of the mount table whose source starts with the DNS name, and fails
    exactly when the table cannot be read or has no such entry. *)
Theorem getMount_first_match entries dnsName :
  match getMount (inr entries) dnsName with
  | inr (mountpoint, source) =>
      exists before e after,
        entries = (before ++ e :: after)%list /\
        Forall (fun e' => strings_HasPrefix (info_Source e') dnsName = false)
          before /\
        strings_HasPrefix source dnsName = true /\
        mountpoint = info_Mountpoint e /\ source = info_Source e
  | inl err =>
      Forall (fun e' => strings_HasPrefix (info_Source e') dnsName = false)
        entries /\
      exists entriesStr, err = ErrNoMountEntry dnsName entriesStr
  end.
Proof.
  unfold getMount.
  destruct (first_mount dnsName entries) as [[mp src]|] eqn:Hfirst.
  - apply first_mount_spec in Hfirst
      as (before & e & after & -> & Hb & He & [= -> ->]).
    by exists before, e, after.
  - split; [|by eexists]. apply Forall_forall. intros e Hin.
    destruct (strings_HasPrefix (info_Source e) dnsName) eqn:He; [|done].
    exfalso. clear -Hfirst Hin He.
    induction entries as [|e' entries IH]; [by apply elem_of_nil in Hin|].
    cbn [first_mount] in Hfirst.
    destruct (strings_HasPrefix (info_Source e') dnsName) eqn:He'; [done|].
    apply elem_of_cons in Hin as [->|Hin]; [congruence|by apply IH].
Qed.

(** X26: the provisioner that [NewEFSProvisioner] builds: its DNS name is the
    one of the environment, or the name of the file system in its region
    when the environment gives none; its mount point and its source are
    those of an entry of the mount table whose source starts with the DNS
    name; the reclaimer scans its mount point; and when the source is
    the DNS name, a colon and a path, its exported root is that path,
    cleaned. *)
Theorem NewEFSProvisioner_built getenv entries p f :
  NewEFSProvisioner getenv (inr entries) = inr (p, f) ->
  getenv fileSystemIDKey <> "" /\ getenv awsRegionKey <> "" /\
  dnsName p =
    (if String.eqb (getenv dnsNameKey) ""
     then getDNSName (getenv fileSystemIDKey) (getenv awsRegionKey)
     else getenv dnsNameKey) /\
  BasePath f = mountpoint p /\
  strings_HasPrefix (source p) (dnsName p) = true /\
  (exists e, e ∈ entries /\ mountpoint p = info_Mountpoint e /\
             source p = info_Source e) /\
  (forall x, source p = dnsName p +:+ ":" +:+ x -> sourcePath p = path_Clean x).
Proof.
  unfold NewEFSProvisioner.
  destruct (String.eqb_spec (getenv fileSystemIDKey) "") as [|Hid]; [done|].
  destruct (String.eqb_spec (getenv awsRegionKey) "") as [|Hregion]; [done|].
  set (dns := if String.eqb (getenv dnsNameKey) "" then _ else _).
  unfold getMount.
  destruct (first_mount dns entries) as [[mp src]|] eqn:Hfirst; [|done].
  apply first_mount_spec in Hfirst
    as (before & e & after & -> & _ & Hsrc & [= -> ->]).
  intros [= <- <-]. cbn [dnsName mountpoint source BasePath newFileSystemReclaimer].
  do 5 (split; [done|]). split.
  - exists e. split; [|done]. apply elem_of_app. right. by left.
  - intros x Hx. by apply sourcePath_of_source.
Qed.

Lemma NewEFSProvisioner_built_witness :
  let p := {| dnsName := "fs-12345678.efs.us-east-1.amazonaws.com";
              mountpoint := "/mnt/efs";
              source := "fs-12345678.efs.us-east-1.amazonaws.com:/export" |} in
  NewEFSProvisioner Concrete.environment (inr Concrete.mounts)
    = inr (p, newFileSystemReclaimer "/mnt/efs") /\
  sourcePath p = path_Clean "/export".
Proof.
  intros p.
  assert (Hnew : NewEFSProvisioner Concrete.environment (inr Concrete.mounts)
                 = inr (p, newFileSystemReclaimer "/mnt/efs"))
    by reflexivity.
  split; [exact Hnew|].
  destruct (NewEFSProvisioner_built Concrete.environment Concrete.mounts p
              (newFileSystemReclaimer "/mnt/efs") Hnew)
    as (_ & _ & _ & _ & _ & _ & Hsource).
  apply Hsource. reflexivity.
Defined.

(** ** The volume that a request returns *)

Section Returned.
Context `{JSON} {A : Type} `{GidAllocator A}.
Implicit Types s : state A.

(** X27: every volume that [Provision] returns is made of the request
    and of at most one GID: it has the name, the reclaim policy, the
    access modes and the capacity of the request, its mount options or
    [vers=4.1] when it has none, the server of the provisioner, the
    remote path of the request, and the GID as its annotation when there
    is one.  After the request the local path holds a directory, and the
    group of that directory is the GID of the volume. *)
Theorem Provision_postcondition p options s pv s' :
  Provision p options s = (Ok pv, s') ->
  pvc_Selector (PVC options) = None /\
  exists volumePath remotePath gid mode gd,
    getLocalPath p options = Ok volumePath /\
    getRemotePath p options = Ok remotePath /\
    pv = {| pv_Name := PVName options;
            pv_Annotations :=
              match gid with
              | Some g => {[ VolumeGidAnnotationKey := strconv_Itoa g ]}
              | None => ∅
              end;
            pv_ReclaimPolicy := PersistentVolumeReclaimPolicy options;
            pv_AccessModes := pvc_AccessModes (PVC options);
            pv_Capacity := pvc_StorageRequest (PVC options);
            pv_NFS := {| Server := dnsName p; Path := remotePath;
                         ReadOnly := false |};
            pv_MountOptions := default ["vers=4.1"] (MountOptions options) |} /\
    fs s' !! volumePath = Some (Dir mode gd) /\
    forall g, gid = Some g -> gd = g /\ 0 <= g < 2 ^ 32.
Proof.
  unfold Provision. destruct (pvc_Selector (PVC options)); [done|].
  destruct (getLocalPath p options) as [volumePath|e] eqn:Hpath; [|done].
  destruct (getRemotePath_ok _ _ _ Hpath) as [remotePath Hremote].
  rewrite Hremote. unfold bind, lift, ret. cbn [fst snd].
  destruct (reuseVolumesOption options) as [reuse|e]; [|done].
  intros Hrun. split; [done|]. exists volumePath, remotePath.
  revert Hrun.
  set (found := if reuse then volumeExists volumePath else _).
  destruct (found s) as [[[b eg]|e0] sa] eqn:Hex; [|done]. cbn [fst snd].
  destruct b.
  - destruct reuse; [|by subst found].
    subst found. apply volumeExists_inv in Hex as [-> [mode Hdir]].
    pose proof (readVolumeMetadata_state volumePath (log (EvStat volumePath) s))
      as Hst.
    destruct (readVolumeMetadata volumePath (log (EvStat volumePath) s))
      as [[md|e1] sb]; [|done]. cbn [snd] in Hst. subst sb.
    destruct (validatePreexistingVolume options md volumePath eg)
      as [[]|e2] eqn:Hval; [|done].
    destruct md as [md|]; [|done].
    destruct (String.eqb (GID md) "") eqn:Hg; cbn [negb].
    + intros [= <- <-]. exists None, mode, eg. done.
    + destruct (strconv_Atoi (GID md)) as [n|]; [|done].
      destruct (eg =? n); [|done]. intros [= <- <-].
      exists (Some eg), mode, eg. do 4 (split; [done|]).
      intros g [= <-]. split; [done|].
      by apply (validate_ok_inv _ _ _ _ Hval).
  - destruct (gidAllocateOption options) as [ga|e1]; [|done].
    set (alloc_step := if ga then _ else _).
    destruct (alloc_step sa) as [[gid|e2] sb]; [|done].
    destruct (createVolume p volumePath gid sb) as [[[]|e3] sc] eqn:Hcv; [|done].
    apply createVolume_ok in Hcv as (mode & gd & Hdir & Hgid).
    destruct reuse.
    + unfold ignore_error. cbn [fst snd]. intros [= <- <-].
      exists gid, mode, gd. do 3 (split; [done|]). split; [|done].
      by apply writeVolumeMetadata_keeps_dir.
    + intros [= <- <-]. exists gid, mode, gd. done.
Qed.

(** X28: [Delete] releases the GID of the volume first.  When the
    release fails, its error is the error of [Delete] and nothing is
    removed; when the path of the volume is then refused, the directory
    stays but the GID has been released all the same: the allocator is in
    the state that the release has left. *)
Theorem Delete_release_first p volume s :
  (forall msg a,
     allocator_Release volume (alloc s) = (Some msg, a) ->
     exists s',
       Delete p volume s = (Err (ErrAllocator msg), s') /\
       fs s' = fs s /\ alloc s' = a /\ trace s' = EvRelease :: trace s)
  /\
  (forall a e,
     allocator_Release volume (alloc s) = (None, a) ->
     getLocalPathToDelete p (pv_NFS volume) = Err e ->
     exists s',
       Delete p volume s = (Err e, s') /\
       fs s' = fs s /\ alloc s' = a /\ trace s' = EvRelease :: trace s).
Proof.
  split.
  - intros msg a Hrel. unfold Delete, bind, Release. rewrite Hrel.
    by eexists.
  - intros a e Hrel Hpath. unfold Delete, bind, Release, lift.
    rewrite Hrel, Hpath. by eexists.
Qed.

End Returned.

Lemma Provision_postcondition_witness :
  pvc_Selector (PVC Concrete.reuse_options) = None /\
  exists volumePath remotePath gid mode gd,
    getLocalPath Concrete.provisioner Concrete.reuse_options
      = Ok volumePath /\
    getRemotePath Concrete.provisioner Concrete.reuse_options
      = Ok remotePath /\
    Concrete.first_volume =
      {| pv_Name := PVName Concrete.reuse_options;
         pv_Annotations :=
           match gid with
           | Some g => {[ VolumeGidAnnotationKey := strconv_Itoa g ]}
           | None => ∅
           end;
         pv_ReclaimPolicy :=
           PersistentVolumeReclaimPolicy Concrete.reuse_options;
         pv_AccessModes := pvc_AccessModes (PVC Concrete.reuse_options);
         pv_Capacity := pvc_StorageRequest (PVC Concrete.reuse_options);
         pv_NFS := {| Server := dnsName Concrete.provisioner;
                      Path := remotePath; ReadOnly := false |};
         pv_MountOptions :=
           default ["vers=4.1"] (MountOptions Concrete.reuse_options) |} /\
    fs Concrete.s_first !! volumePath = Some (Dir mode gd) /\
    forall g, gid = Some g -> gd = g /\ 0 <= g < 2 ^ 32.
Proof.
  apply (Provision_postcondition Concrete.provisioner Concrete.reuse_options
           Concrete.s_fresh Concrete.first_volume Concrete.s_first).
  vm_compute. reflexivity.
Defined.

Lemma Delete_release_first_witness :
  exists s',
    Delete Concrete.provisioner Concrete.other_volume Concrete.s_first
      = (Err (ErrServer "fs.other.com" "fs.example.com"), s') /\
    fs s' = fs Concrete.s_first /\
    alloc s' = Concrete.table ∅ /\
    trace s' = EvRelease :: trace Concrete.s_first.
Proof.
  apply (proj2 (Delete_release_first Concrete.provisioner
                  Concrete.other_volume Concrete.s_first));
    vm_compute; reflexivity.
Defined.
